(** * Trippy: the conversation-state and orchestration core

    A shallow embedding of [backend.py], [app.py], [llm.py] and [weather.py]
    and the properties of the trip-planning conversation proved about it.

    Python values are the inductive [pyval]; a [dict] with string keys is a
    [gmap string pyval]; a [str] is the [string] of its UTF-8 bytes.
    [strip] removes the white space of Unicode, in its one-, two- and
    three-byte encodings, as [str.strip] does; [upper] changes the ASCII
    letters only, which is all the comparison with the N/A sentinel reads.
    Calls that leave the program (the chat model, the flight, hotel, search
    and weather providers, the clock, the credential service) are answered
    by the [World], which also logs them in call order.  What the Python
    standard library computes ([json.loads], [json.dumps], [repr], [str] of
    an exception, [datetime.strptime], [int] of a [str]) is a parameter of
    the development (class [Externals]).

    A computation either returns or raises an exception of class
    [Exception].  Two limits of the interpreter are part of the model:
    [json.loads] may raise [RecursionError], and the repetition of a [str]
    raises [OverflowError] or [MemoryError] when the result cannot be
    built. *)

From Stdlib Require Import Strings.Ascii ZArith Lia Floats.PrimFloat Floats.SpecFloat Floats.FloatOps.
From stdpp Require Import base option list gmap strings.

#[local] Set Warnings "-register-all".
Local Open Scope string_scope.
Local Open Scope Z_scope.

(** ** Python values *)

Inductive pyval :=
| PNone
| PBool (b : bool)
| PInt (z : Z)
| PFloat (f : float)
| PStr (s : string)
| PList (l : list pyval)
| PDict (d : gmap string pyval).

(** Exceptions, by class.  All of them derive from [Exception];
    [JSONDecodeError] derives from [ValueError].  [NotACoroutine x] is the
    [ValueError] that [asyncio.run(x)] raises for an [x] that is not a
    coroutine: its message holds the [repr] of [x]. *)
Inductive exn :=
| KeyError (key : string)
| TypeError
| ValueError
| JSONDecodeError
| NotACoroutine (x : pyval)
| AttributeError
| IndexError
| OverflowError
| MemoryError
| RecursionError
| UnboundLocalError (var : string)
| ExternalError (msg : string).

(** [isinstance(e, ValueError)] *)
Definition value_error (e : exn) : bool :=
  match e with
  | ValueError | JSONDecodeError | NotACoroutine _ => true
  | _ => false
  end.

Inductive result (A : Type) :=
| Ok (a : A)
| Raise (e : exn).
Arguments Ok {A} a.
Arguments Raise {A} e.

(** What the standard library computes and the repository only calls. *)
Class Externals := {
  (** [json.loads]: the decoded value, or the exception raised, which is
      [JSONDecodeError] for a text that is not JSON and [RecursionError]
      for one nested deeper than the recursion limit allows. *)
  json_loads : string -> result pyval;
  (** [json.dumps] of a value built from JSON types. *)
  json_dumps : pyval -> string;
  (** [str(v)] for a value that is not a [str]. *)
  repr : pyval -> string;
  (** [str(e)] for a caught exception. *)
  exn_str : exn -> string;
  (** [datetime.strptime(s, "%Y-%m-%d")] as microseconds since the epoch;
      [None] stands for [ValueError]. *)
  strptime_ymd : string -> option Z;
  (** [int(s)] for a [str]; [None] stands for [ValueError]. *)
  int_str : string -> option Z;
  (** The number of characters of the longest [str] the interpreter can
      allocate on the machine; a longer one is a [MemoryError]. *)
  max_str_len : Z
}.

(** The double quote character, as a string. *)
Definition dq : string := String (Ascii.ascii_of_nat 34) EmptyString.

Module Py.

(** [bool(v)] *)
Definition truthy (v : pyval) : bool :=
  match v with
  | PNone => false
  | PBool b => b
  | PInt z => negb (z =? 0)
  | PFloat f => negb (PrimFloat.eqb f zero)
  | PStr s => negb (String.eqb s EmptyString)
  | PList l => match l with [] => false | _ :: _ => true end
  | PDict d => negb (Nat.eqb (size d) 0)
  end.

(** [str(v)], as an f-string formats a value. *)
Definition str `{Externals} (v : pyval) : string :=
  match v with
  | PStr s => s
  | _ => repr v
  end.

Definition len (s : string) : Z := Z.of_nat (String.length s).

(** [s.find(sub)]: index of the first occurrence, or -1. *)
Fixpoint find_from (sub s : string) (i : Z) : Z :=
  if String.prefix sub s then i
  else match s with
       | EmptyString => -1
       | String _ s' => find_from sub s' (i + 1)
       end.
Definition find (s sub : string) : Z := find_from sub s 0.

(** [s.rfind(sub)]: index of the last occurrence, or -1. *)
Fixpoint rfind_from (sub s : string) (i : Z) : Z :=
  match s with
  | EmptyString => if String.prefix sub s then i else -1
  | String _ s' =>
      let r := rfind_from sub s' (i + 1) in
      if r =? -1 then (if String.prefix sub s then i else -1) else r
  end.
Definition rfind (s sub : string) : Z := rfind_from sub s 0.

(** [sub in s] *)
Definition contains (sub s : string) : bool := negb (find s sub =? -1).

(** A slice bound as Python normalises it: negative counts from the end,
    and the result is clamped to [0, len]. *)
Definition clamp (n i : Z) : Z :=
  let j := if i <? 0 then i + n else i in
  Z.max 0 (Z.min n j).

(** [s[start:stop]] *)
Definition slice (s : string) (start stop : Z) : string :=
  let n := len s in
  let a := clamp n start in
  let b := clamp n stop in
  String.substring (Z.to_nat a) (Z.to_nat (b - a)) s.

Definition code (c : Ascii.ascii) : nat := Ascii.nat_of_ascii c.

(** White space is what [str.isspace] accepts.  A [str] is held as its
    UTF-8 bytes, so a white space character is one byte (U+0009 to U+000D,
    U+001C to U+0020), two (U+0085, U+00A0) or three (U+1680, U+2000 to
    U+200A, U+2028, U+2029, U+202F, U+205F, U+3000). *)
Definition is_space (c : Ascii.ascii) : bool :=
  let n := code c in
  ((9 <=? n) && (n <=? 13) || (28 <=? n) && (n <=? 32))%nat.

Definition is_space2 (c1 c2 : Ascii.ascii) : bool :=
  ((code c1 =? 194) && ((code c2 =? 133) || (code c2 =? 160)))%nat.

Definition is_space3 (c1 c2 c3 : Ascii.ascii) : bool :=
  let a := code c1 in
  let b := code c2 in
  let c := code c3 in
  ((a =? 225) && (b =? 154) && (c =? 128) ||
   (a =? 226) && (b =? 128) &&
     ((128 <=? c) && (c <=? 138) || (c =? 168) || (c =? 169) || (c =? 175)) ||
   (a =? 226) && (b =? 129) && (c =? 159) ||
   (a =? 227) && (b =? 128) && (c =? 128))%nat.

Fixpoint lstrip (s : string) : string :=
  match s with
  | EmptyString => EmptyString
  | String c1 s1 =>
      if is_space c1 then lstrip s1
      else
        match s1 with
        | EmptyString => s
        | String c2 s2 =>
            if is_space2 c1 c2 then lstrip s2
            else
              match s2 with
              | EmptyString => s
              | String c3 s3 => if is_space3 c1 c2 c3 then lstrip s3 else s
              end
        end
  end.

Fixpoint rstrip (s : string) : string :=
  match s with
  | EmptyString => EmptyString
  | String c s' =>
      match rstrip s' with
      | EmptyString => if is_space c then EmptyString else String c EmptyString
      | String c2 EmptyString =>
          if is_space2 c c2 then EmptyString
          else String c (String c2 EmptyString)
      | String c2 (String c3 EmptyString) =>
          if is_space3 c c2 c3 then EmptyString
          else String c (String c2 (String c3 EmptyString))
      | r => String c r
      end
  end.

(** [s.strip()] *)
Definition strip (s : string) : string := rstrip (lstrip s).

Definition upper_char (c : Ascii.ascii) : Ascii.ascii :=
  let n := code c in
  if ((97 <=? n) && (n <=? 122))%nat then Ascii.ascii_of_nat (n - 32) else c.

(** [s.upper()], on the ASCII letters.  The code compares the result with
    the sentinel N/A only, and no character outside ASCII has an upper case
    that holds one of N, / and A without another character beside it. *)
Fixpoint upper (s : string) : string :=
  match s with
  | EmptyString => EmptyString
  | String c s' => String (upper_char c) (upper s')
  end.

Fixpoint intersperse (new s : string) : string :=
  match s with
  | EmptyString => new
  | String c s' => new ++ String c (intersperse new s')
  end.

Fixpoint replace_from (old new : string) (skip : nat) (s : string) : string :=
  match s with
  | EmptyString => EmptyString
  | String c s' =>
      match skip with
      | S k => replace_from old new k s'
      | O =>
          if String.prefix old s
          then new ++ replace_from old new (String.length old - 1) s'
          else String c (replace_from old new 0 s')
      end
  end.

(** [s.replace(old, new)] *)
Definition replace (s old new : string) : string :=
  match old with
  | EmptyString => intersperse new s
  | _ => replace_from old new 0 s
  end.

(** The number of characters of [s]: its bytes other than those that
    continue a UTF-8 sequence. *)
Fixpoint char_len (s : string) : Z :=
  match s with
  | EmptyString => 0
  | String c s' =>
      (if ((128 <=? code c) && (code c <=? 191))%nat then 0 else 1) + char_len s'
  end.

(** [sys.maxsize], the largest [Py_ssize_t], on a 64-bit build. *)
Definition ssize_max : Z := 9223372036854775807.

(** [s * n]: [OverflowError] when [n], or the length of the result, does
    not fit [Py_ssize_t], and [MemoryError] when the result cannot be
    allocated. *)
Definition repeat `{Externals} (s : string) (n : Z) : result string :=
  if (n <? - ssize_max - 1) || (ssize_max <? n) then Raise OverflowError
  else if n <? 1 then Ok EmptyString
  else if n =? 1 then Ok s
  else if ssize_max / n <? char_len s then Raise OverflowError
  else if max_str_len <? char_len s * n then Raise MemoryError
  else Ok (Nat.iter (Z.to_nat n) (fun acc => s ++ acc) EmptyString).

(** [sep.join(l)] *)
Fixpoint join (sep : string) (l : list string) : string :=
  match l with
  | [] => EmptyString
  | [x] => x
  | x :: rest => x ++ sep ++ join sep rest
  end.

Definition int_of_float (f : float) : result Z :=
  match Prim2SF f with
  | S754_zero _ => Ok 0
  | S754_finite sign m e =>
      let a := Z.shiftl (Z.pos m) e in Ok (if sign then - a else a)
  | S754_infinity _ => Raise OverflowError
  | S754_nan => Raise ValueError
  end.

(** [int(v)] *)
Definition int `{Externals} (v : pyval) : result Z :=
  match v with
  | PInt z => Ok z
  | PBool b => Ok (if b then 1 else 0)
  | PFloat f => int_of_float f
  | PStr s => match int_str s with
              | Some z => Ok z
              | None => Raise ValueError
              end
  | PNone | PList _ | PDict _ => Raise TypeError
  end.

(** [v[key]] for a string key. *)
Definition getitem (v : pyval) (key : string) : result pyval :=
  match v with
  | PDict d => match d !! key with
               | Some x => Ok x
               | None => Raise (KeyError key)
               end
  | _ => Raise TypeError
  end.

(** [v[0]] *)
Definition first (v : pyval) : result pyval :=
  match v with
  | PList (x :: _) => Ok x
  | PList [] => Raise IndexError
  | PStr (String c _) => Ok (PStr (String c EmptyString))
  | PStr EmptyString => Raise IndexError
  | PDict _ => Raise (KeyError "0")
  | _ => Raise TypeError
  end.

(** [v.get(key, default)] *)
Definition get (v : pyval) (key : string) (fallback : pyval) : result pyval :=
  match v with
  | PDict d => Ok (default fallback (d !! key))
  | _ => Raise AttributeError
  end.

Fixpoint chars (s : string) : list pyval :=
  match s with
  | EmptyString => []
  | String c s' => PStr (String c EmptyString) :: chars s'
  end.

(** The items a [for] loop over [v] visits (the keys of a dict, in the
    order of [map_to_list]). *)
Definition iterate (v : pyval) : result (list pyval) :=
  match v with
  | PList l => Ok l
  | PDict d => Ok ((fun kv => PStr kv.1) <$> map_to_list d)
  | PStr s => Ok (chars s)
  | _ => Raise TypeError
  end.

(** [v > s] and [v >= s] for a [str] [s]. *)
Definition gt_str (v : pyval) (s : string) : result bool :=
  match v with
  | PStr x => Ok (String.ltb s x)
  | _ => Raise TypeError
  end.
Definition ge_str (v : pyval) (s : string) : result bool :=
  match v with
  | PStr x => Ok (String.leb s x)
  | _ => Raise TypeError
  end.

(** [v == s] for a [str] [s]. *)
Definition eq_str (v : pyval) (s : string) : bool :=
  match v with
  | PStr x => String.eqb x s
  | _ => false
  end.

(** [s in v] for a [str] [s]. *)
Definition has (s : string) (v : pyval) : result bool :=
  match v with
  | PDict d => Ok (match d !! s with Some _ => true | None => false end)
  | PList l => Ok (existsb (fun x => eq_str x s) l)
  | PStr t => Ok (contains s t)
  | _ => Raise TypeError
  end.

(** [d[key] = value] on a dict kept in insertion order. *)
Fixpoint setitem (key : string) (value : pyval) (d : list (string * pyval))
  : list (string * pyval) :=
  match d with
  | [] => [(key, value)]
  | (k, v) :: rest =>
      if String.eqb k key then (k, value) :: rest
      else (k, v) :: setitem key value rest
  end.

(** [s.endswith(suffix)] for two [str]. *)
Definition ends_with (s suffix : string) : bool :=
  let n := String.length s in
  let k := String.length suffix in
  (k <=? n)%nat && String.eqb (String.substring (n - k) k s) suffix.

(** [v.endswith(suffix)] for a [str] [suffix]. *)
Definition endswith (v : pyval) (suffix : string) : result bool :=
  match v with
  | PStr s => Ok (ends_with s suffix)
  | _ => Raise AttributeError
  end.

(** [len(v)]; of a [str], the number of its bytes. *)
Definition length (v : pyval) : result Z :=
  match v with
  | PStr s => Ok (len s)
  | PList l => Ok (Z.of_nat (List.length l))
  | PDict d => Ok (Z.of_nat (size d))
  | _ => Raise TypeError
  end.

End Py.

(** ** The world outside the program *)

(** A role-tagged message. *)
Record message := Message { role : string; content : string }.

(** A prompt handed to the model client: a [str], or a list of messages. *)
Inductive prompt :=
| Text (s : string)
| Chat (msgs : list message).

(** The calls that leave the program, as the log records them. *)
Inductive event :=
| EvCredential
| EvInvoke (p : prompt)
| EvFlights (origin destination outbound_date : string)
| EvHotels (location : pyval) (check_in check_out : string)
           (adults children : Z) (children_ages : string)
| EvGoogle (query : string)
| EvFetch (url : pyval)
| EvWeather (place : string).

(** One collaborator: its answers in the order they will be given, and how
    many have been consumed. *)
Record oracle (A : Type) := Oracle { answers : nat -> A; asked : nat }.
Arguments Oracle {A} answers asked.
Arguments answers {A} o n.
Arguments asked {A} o.

Definition next {A} (o : oracle A) : A := answers o (asked o).
Definition advance {A} (o : oracle A) : oracle A :=
  Oracle (answers o) (S (asked o)).

Record World := {
  (** [datetime.now()], in microseconds *)
  clock : oracle Z;
  (** [credential.get_token(..)]: the token's [expires_on], or a failure *)
  credential : oracle (option Z);
  (** the class attribute [LLM._expires_on] *)
  expires_on : option Z;
  (** [client.invoke(prompt)]: the reply's [content], or an exception *)
  model : oracle (result string);
  (** SerpAPI Google Flights, behind [search_flights] *)
  flights_api : oracle (result pyval);
  (** SerpAPI Google Hotels, behind [search_hotels] *)
  hotels_api : oracle (result pyval);
  (** the JSON body of the custom-search GET, or a failure *)
  google_api : oracle (option pyval);
  (** the text [get_data_from_url] returns *)
  pages : oracle string;
  (** the JSON body of the weather GET, or an exception *)
  weather_api : oracle (result pyval);
  (** the calls made so far, oldest first *)
  trace : list event
}.

Definition M (A : Type) : Type := World -> result A * World.

Definition ret {A} (a : A) : M A := fun w => (Ok a, w).
Definition raise {A} (e : exn) : M A := fun w => (Raise e, w).
Definition bind {A B} (m : M A) (k : A -> M B) : M B :=
  fun w => match m w with
           | (Ok a, w') => k a w'
           | (Raise e, w') => (Raise e, w')
           end.
(** [try: m  except Exception as e: h e] *)
Definition try_except {A} (m : M A) (h : exn -> M A) : M A :=
  fun w => match m w with
           | (Ok a, w') => (Ok a, w')
           | (Raise e, w') => h e w'
           end.
(** A pure step that may raise. *)
Definition lift {A} (r : result A) : M A := fun w => (r, w).

Notation "'let*' x ':=' m 'in' k" := (bind m (fun x => k))
  (at level 10, x pattern, m at level 100, k at level 200).
Notation "'do*' m 'in' k" := (bind m (fun _ => k))
  (at level 10, m at level 100, k at level 200).
Notation "'let?' x ':=' r 'in' k" :=
  (match r with Ok x => k | Raise e => Raise e end)
  (at level 10, x pattern, r at level 100, k at level 200).

Definition log (e : event) (w : World) : World :=
  {| clock := clock w; credential := credential w; expires_on := expires_on w;
     model := model w; flights_api := flights_api w; hotels_api := hotels_api w;
     google_api := google_api w; pages := pages w; weather_api := weather_api w;
     trace := trace w ++ [e] |}.

Definition now : M Z := fun w =>
  (Ok (next (clock w)),
   {| clock := advance (clock w); credential := credential w;
      expires_on := expires_on w; model := model w;
      flights_api := flights_api w; hotels_api := hotels_api w;
      google_api := google_api w; pages := pages w;
      weather_api := weather_api w; trace := trace w |}).

Definition get_token : M (option Z) := fun w =>
  (Ok (next (credential w)),
   log EvCredential
     {| clock := clock w; credential := advance (credential w);
        expires_on := expires_on w; model := model w;
        flights_api := flights_api w; hotels_api := hotels_api w;
        google_api := google_api w; pages := pages w;
        weather_api := weather_api w; trace := trace w |}).

Definition set_expires_on (e : option Z) : M unit := fun w =>
  (Ok tt,
   {| clock := clock w; credential := credential w; expires_on := e;
      model := model w; flights_api := flights_api w;
      hotels_api := hotels_api w; google_api := google_api w;
      pages := pages w; weather_api := weather_api w; trace := trace w |}).

Definition invoke (p : prompt) : M string := fun w =>
  (next (model w),
   log (EvInvoke p)
     {| clock := clock w; credential := credential w;
        expires_on := expires_on w; model := advance (model w);
        flights_api := flights_api w; hotels_api := hotels_api w;
        google_api := google_api w; pages := pages w;
        weather_api := weather_api w; trace := trace w |}).

Definition call_flights (origin destination outbound_date : string) : M pyval :=
  fun w =>
  (next (flights_api w),
   log (EvFlights origin destination outbound_date)
     {| clock := clock w; credential := credential w;
        expires_on := expires_on w; model := model w;
        flights_api := advance (flights_api w); hotels_api := hotels_api w;
        google_api := google_api w; pages := pages w;
        weather_api := weather_api w; trace := trace w |}).

Definition call_hotels (location : pyval) (check_in check_out : string)
    (adults children : Z) (children_ages : string) : M pyval := fun w =>
  (next (hotels_api w),
   log (EvHotels location check_in check_out adults children children_ages)
     {| clock := clock w; credential := credential w;
        expires_on := expires_on w; model := model w;
        flights_api := flights_api w; hotels_api := advance (hotels_api w);
        google_api := google_api w; pages := pages w;
        weather_api := weather_api w; trace := trace w |}).

Definition call_google (query : string) : M (option pyval) := fun w =>
  (Ok (next (google_api w)),
   log (EvGoogle query)
     {| clock := clock w; credential := credential w;
        expires_on := expires_on w; model := model w;
        flights_api := flights_api w; hotels_api := hotels_api w;
        google_api := advance (google_api w); pages := pages w;
        weather_api := weather_api w; trace := trace w |}).

Definition call_page (url : pyval) : M string := fun w =>
  (Ok (next (pages w)),
   log (EvFetch url)
     {| clock := clock w; credential := credential w;
        expires_on := expires_on w; model := model w;
        flights_api := flights_api w; hotels_api := hotels_api w;
        google_api := google_api w; pages := advance (pages w);
        weather_api := weather_api w; trace := trace w |}).

Definition call_weather (place : string) : M pyval := fun w =>
  (next (weather_api w),
   log (EvWeather place)
     {| clock := clock w; credential := credential w;
        expires_on := expires_on w; model := model w;
        flights_api := flights_api w; hotels_api := hotels_api w;
        google_api := google_api w; pages := pages w;
        weather_api := advance (weather_api w); trace := trace w |}).

(** ** llm.py *)

Module LLM.

Definition max_retries : nat := 5.

(** [LLM.is_token_expired] *)
Definition is_token_expired : M bool := fun w =>
  match expires_on w with
  | None => (Ok true, w)
  | Some e => (let* t := now in ret (e * 1000000 <? t)) w
  end.

(** The retry loop of [update_access_token]; [budget] is
    [max_retries - retries], the result is the binding of the local
    [access_token] when the loop ends ([None]: never assigned). *)
Fixpoint token_loop (budget : nat) : M (option Z) :=
  match budget with
  | O => ret None
  | S k =>
      let* a := get_token in
      match a with
      | Some t => ret (Some t)
      | None => token_loop k
      end
  end.

(** [LLM.update_access_token] *)
Definition update_access_token : M unit :=
  let* access_token := token_loop max_retries in
  match access_token with
  | None => raise (UnboundLocalError "access_token")
  | Some e => set_expires_on (Some (e - 300))
  end.

(** The body of the [try] in [inference].  The client's own [conversation]
    list is not kept: the log of the world records the same calls. *)
Definition attempt (p : prompt) : M string :=
  let* expired := is_token_expired in
  do* (if expired then update_access_token else ret tt) in
  let p := match p with Text s => Text (Py.strip s) | Chat _ => p end in
  invoke p.

(** The [while err and retries < max_retries] loop of [inference];
    [budget] is [max_retries - retries], the result is the binding of the
    local [response] when the loop ends ([None]: never assigned). *)
Fixpoint inference_loop (budget : nat) (p : prompt) : M (option string) :=
  match budget with
  | O => ret None
  | S k =>
      try_except (let* r := attempt p in ret (Some r))
                 (fun _ => inference_loop k p)
  end.

(** [LLM.inference] *)
Definition inference (p : prompt) : M string :=
  let* response := inference_loop max_retries p in
  match response with
  | Some text => ret text
  | None => raise (UnboundLocalError "response")
  end.

End LLM.

(** ** weather.py *)

Module Weather.
Section WithExternals.
Context `{Externals}.

Definition day_us : Z := 86400000000.

(** [(a - b).days] for two datetimes given in microseconds: the whole days
    of the difference, rounded down as [timedelta] normalises it. *)
Definition days (a b : Z) : Z := (a - b) / day_us.

(** [datetime.strptime(s, "%Y-%m-%d")] *)
Definition strptime (s : string) : M Z :=
  match strptime_ymd s with
  | Some t => ret t
  | None => raise ValueError
  end.

Definition suggestions_prompt (budget : pyval) (start_date end_date : string) (duration : Z) : string :=
  "Given the following travel parameters:
    - Total Budget: ₹" ++ Py.str budget ++ "
    - Start Date: " ++ start_date ++ "
    - End Date: " ++ end_date ++ "
    - Duration: " ++ Py.str (PInt duration) ++ " days

    Suggest 5 suitable travel destinations that fit within this budget.
    For each destination, provide only the city name and country.

    Return the response in this exact JSON format:
    ```
    [
        {
            " ++ dq ++ "destination" ++ dq ++ ": " ++ dq ++ "City Name" ++
  dq ++ ",
            " ++ dq ++ "country" ++ dq ++ ": " ++ dq ++ "Country Name" ++
  dq ++ "
        },
        ...
    ]
    ```
    Only return the JSON array, no other text.".

Definition ranking_prompt (weather_summary start_date end_date : string) : string :=
  "Based on the weather forecasts for different destinations:

" ++ weather_summary ++ "

Travel Dates: " ++ start_date ++ " to " ++ end_date ++ "

Analyze the weather conditions and recommend the best destination to visit during these dates.
Consider factors like temperature, rain probability, and overall conditions.
Return the suggestions in order of preference (best first).

Return the response in this exact JSON format:
[
    {" ++ dq ++ "destination" ++ dq ++ ": " ++ dq ++ "City Name" ++ dq ++
  ", " ++ dq ++ "country" ++ dq ++ ": " ++ dq ++ "Country Name" ++ dq ++ "}
]

Order the destinations from best to worst weather conditions.
Only return the JSON array, no other text.".

(** [get_llm_suggestions] *)
Definition get_llm_suggestions (budget : pyval) (start_date end_date : string)
  : M pyval :=
  let* start := strptime start_date in
  let* end_ := strptime end_date in
  let duration := days end_ start + 1 in
  let prompt := suggestions_prompt budget start_date end_date duration in
  let* resp := LLM.inference (Text prompt) in
  lift (json_loads (Py.slice resp (Py.find resp "[") (Py.find resp "]" + 1))).

(** [check_date_within_forecast_range] *)
Definition check_date_within_forecast_range (start_date : string) (max_days : Z)
  : M bool :=
  let* start := strptime start_date in
  let* today := now in
  let days_difference := days start today in
  ret ((0 <=? days_difference) && (days_difference <=? max_days)).

(** The dict appended to [forecasts] for one [day] of the API's answer. *)
Definition forecast_entry (day : pyval) : result pyval :=
  let? date := Py.getitem day "date" in
  let? d1 := Py.getitem day "day" in
  let? temp_max := Py.getitem d1 "maxtemp_c" in
  let? d2 := Py.getitem day "day" in
  let? temp_min := Py.getitem d2 "mintemp_c" in
  let? d3 := Py.getitem day "day" in
  let? condition := Py.getitem d3 "condition" in
  let? conditions := Py.getitem condition "text" in
  let? d4 := Py.getitem day "day" in
  let? humidity := Py.getitem d4 "avghumidity" in
  let? d5 := Py.getitem day "day" in
  let? rain_chance := Py.getitem d5 "daily_chance_of_rain" in
  Ok (PDict (list_to_map
        [("date", date); ("temp_max", temp_max); ("temp_min", temp_min);
         ("conditions", conditions); ("humidity", humidity);
         ("rain_chance", rain_chance)])).

(** The [for day in ...] loop of [get_weather_forecast]. *)
Fixpoint collect_days (forecastday : list pyval) (start_date end_date : string)
    (forecasts : list pyval) : result (list pyval) :=
  match forecastday with
  | [] => Ok forecasts
  | day :: rest =>
      let? date := Py.getitem day "date" in
      let? after_end := Py.gt_str date end_date in
      if after_end then Ok forecasts
      else
        let? date := Py.getitem day "date" in
        let? from_start := Py.ge_str date start_date in
        if from_start then
          let? entry := forecast_entry day in
          collect_days rest start_date end_date (forecasts ++ [entry])
        else collect_days rest start_date end_date forecasts
  end.

Definition status_dict (status : string) (key : string) (value : pyval) : pyval :=
  PDict (list_to_map [("status", PStr status); (key, value)]).

(** [get_weather_forecast] *)
Definition get_weather_forecast (place start_date end_date : string) : M pyval :=
  let* in_range := check_date_within_forecast_range start_date 14 in
  if negb in_range then
    ret (status_dict "use_llm" "message"
           (PStr "Date is beyond 14-day forecast range, use LLM suggestion"))
  else
    try_except
      (let* data := call_weather place in
       let* forecasts :=
         lift (let? forecast := Py.get data "forecast" (PDict ∅) in
               let? forecastday := Py.get forecast "forecastday" (PList []) in
               let? days := Py.iterate forecastday in
               collect_days days start_date end_date []) in
       ret (status_dict "success" "data" (PList forecasts)))
      (fun e =>
         match e with
         | ExternalError _ =>
             ret (status_dict "error" "message"
                    (PStr ("Weather API error: " ++ exn_str e)))
         | _ =>
             ret (status_dict "error" "message"
                    (PStr ("Unexpected error: " ++ exn_str e)))
         end).

(** The [for place in suggested_places] loop of [get_travel_destination]. *)
Fixpoint gather_weather (places : list pyval) (start_date end_date : string)
    (weather_data : list (string * pyval)) : M (list (string * pyval)) :=
  match places with
  | [] => ret weather_data
  | place :: rest =>
      let* destination := lift (Py.getitem place "destination") in
      let* country := lift (Py.getitem place "country") in
      let location := Py.str destination ++ ", " ++ Py.str country in
      let* weather_result := get_weather_forecast location start_date end_date in
      let* status := lift (Py.getitem weather_result "status") in
      if Py.eq_str status "success" then
        let* data := lift (Py.getitem weather_result "data") in
        gather_weather rest start_date end_date
          (Py.setitem location data weather_data)
      else gather_weather rest start_date end_date weather_data
  end.

Fixpoint summary_days (forecasts : list pyval) (weather_summary : string)
  : result string :=
  match forecasts with
  | [] => Ok weather_summary
  | day :: rest =>
      let? date := Py.getitem day "date" in
      let? conditions := Py.getitem day "conditions" in
      let? temp_min := Py.getitem day "temp_min" in
      let? temp_max := Py.getitem day "temp_max" in
      let? rain_chance := Py.getitem day "rain_chance" in
      summary_days rest
        (weather_summary ++ "- " ++ Py.str date ++ ": " ++ Py.str conditions ++
         ", " ++ Py.str temp_min ++ "°C to " ++ Py.str temp_max ++ "°C, " ++
         Py.str rain_chance ++ "% chance of rain
")
  end.

Fixpoint summary (weather_data : list (string * pyval)) (weather_summary : string)
  : result string :=
  match weather_data with
  | [] => Ok weather_summary
  | (location, forecasts) :: rest =>
      let? days := Py.iterate forecasts in
      let? s := summary_days days (weather_summary ++ location ++ ":
") in
      summary rest (s ++ "
")
  end.

(** [get_travel_destination] *)
Definition get_travel_destination (start_date end_date : string) (budget : pyval)
  : M pyval :=
  let* suggested_places := get_llm_suggestions budget start_date end_date in
  let* in_range := check_date_within_forecast_range start_date 14 in
  if negb in_range then ret suggested_places
  else
    let* places := lift (Py.iterate suggested_places) in
    let* weather_data := gather_weather places start_date end_date [] in
    match weather_data with
    | _ :: _ =>
        let* weather_summary :=
          lift (summary weather_data "Weather conditions for each destination:

") in
        let prompt := ranking_prompt weather_summary start_date end_date in
        let* response := LLM.inference (Text prompt) in
        let* ranked :=
          lift (json_loads (Py.slice response (Py.find response "[")
                                     (Py.find response "]" + 1))) in
        lift (Py.first ranked)
    | [] => ret suggested_places
    end.

End WithExternals.
End Weather.

(** ** flight_search.py, hotel_search.py, google_search.py, utils.py

    The provider functions are calls answered by the [World]; the log
    records each call of [search_flights] and [search_hotels] with the
    arguments the adapter passed. *)

(** [search_flights(origin, destination, outbound_date)] *)
Definition search_flights (origin destination outbound_date : string) : M pyval :=
  call_flights origin destination outbound_date.

(** [search_hotels(location=.., check_in_date=.., check_out_date=..,
    adults=.., children=.., children_ages=..)] *)
Definition search_hotels (location : pyval) (check_in_date check_out_date : string)
    (adults children : Z) (children_ages : string) : M pyval :=
  call_hotels location check_in_date check_out_date adults children children_ages.

Module GoogleSearch.

(** [GoogleSearch.search]: the attribute [query_result] after the call; a
    failed request is swallowed and leaves it as it was. *)
Definition search (query : string) (query_result : pyval) : M pyval :=
  let* body := call_google query in
  ret (default query_result body).

(** [GoogleSearch.get_first_link] *)
Definition get_first_link (query_result : pyval) : pyval :=
  match query_result with
  | PDict d =>
      match d !! "items" with
      | None => PStr EmptyString
      | Some items =>
          match (let? item := Py.first items in Py.getitem item "link") with
          | Ok link => link
          | Raise _ => PStr EmptyString
          end
      end
  | _ => PStr EmptyString
  end.

(** The [for item in ...] loop of [get_first_non_pdf_link]; the second
    argument is the binding of the variable [item] when the loop is
    entered. *)
Fixpoint first_non_pdf (items : list pyval) (item : pyval) : result pyval :=
  match items with
  | [] => Ok item
  | item :: rest =>
      let? link := Py.getitem item "link" in
      let? is_pdf := Py.endswith link ".pdf" in
      if negb is_pdf then Py.getitem item "link"
      else first_non_pdf rest item
  end.

(** [GoogleSearch.get_first_non_pdf_link] *)
Definition get_first_non_pdf_link (query_result : pyval) : pyval :=
  match (let? found := Py.has "items" query_result in
         if found then
           let? items := Py.getitem query_result "items" in
           let? items := Py.iterate items in
           first_non_pdf items (PStr EmptyString)
         else Ok (PStr EmptyString)) with
  | Ok item => item
  | Raise _ => PStr EmptyString
  end.

End GoogleSearch.

(** [utils.get_data_from_url]: the page text, or an error text. *)
Definition get_data_from_url (url : pyval) : M string := call_page url.

(** [asyncio.run(x)] for an [x] that is a [str] and no coroutine, called
    where no event loop is running. *)
Definition asyncio_run (x : string) : M string :=
  raise (NotACoroutine (PStr x)).

(** What [flight_search.py] and [hotel_search.py] compute themselves: the
    records made of the provider's answer, and the request. *)

Module FlightSearch.
Section WithExternals.
Context `{Externals}.

(** [_extract_airport_info] *)
Definition _extract_airport_info (airport_data : pyval) (info_type : string)
  : string :=
  match airport_data with
  | PDict d =>
      let airport_name := default (PStr "Unknown Airport") (d !! "name") in
      let airport_code := default (PStr "???") (d !! "id") in
      let flight_time := default (PStr "N/A") (d !! "time") in
      Py.str airport_name ++ " (" ++ Py.str airport_code ++ ") at " ++
      Py.str flight_time
  | _ => "Unknown " ++ info_type
  end.

(** The body of the [for flight in best_flights] loop of
    [_format_flight_data]: the record built for [flight], or [None] when
    the flight is skipped. *)
Definition flight_record (flight : pyval) : result (option pyval) :=
  let? segments := Py.get flight "flights" PNone in
  if negb (Py.truthy segments) then Ok None
  else
    let? segments := Py.getitem flight "flights" in
    let? n := Py.length segments in
    if n =? 0 then Ok None
    else
      let? segments := Py.getitem flight "flights" in
      let? primary_segment := Py.first segments in
      let? departure_airport :=
        Py.get primary_segment "departure_airport" (PDict ∅) in
      let departure_info :=
        _extract_airport_info departure_airport "departure" in
      let? arrival_airport :=
        Py.get primary_segment "arrival_airport" (PDict ∅) in
      let arrival_info := _extract_airport_info arrival_airport "arrival" in
      let? total_duration := Py.get flight "total_duration" (PInt 0) in
      let duration_str :=
        if Py.truthy total_duration then Py.str total_duration ++ " min"
        else "N/A" in
      let? segments := Py.getitem flight "flights" in
      let? num_segments := Py.length segments in
      let stops :=
        if num_segments =? 1 then "Nonstop"
        else Py.str (PInt (num_segments - 1)) ++ " stop(s)" in
      let? airline :=
        Py.get primary_segment "airline" (PStr "Unknown Airline") in
      let? price := Py.get flight "price" (PStr "N/A") in
      let? travel_class :=
        Py.get primary_segment "travel_class" (PStr "Economy") in
      let? airline_logo :=
        Py.get primary_segment "airline_logo" (PStr EmptyString) in
      Ok (Some (PDict (list_to_map
        [("airline", airline);
         ("price", PStr (Py.str price));
         ("duration", PStr duration_str);
         ("stops", PStr stops);
         ("departure", PStr departure_info);
         ("arrival", PStr arrival_info);
         ("travel_class", travel_class);
         ("airline_logo", airline_logo)]))).

(** The loop of [_format_flight_data] over the flights not yet visited. *)
Fixpoint format_flights (best_flights formatted_flights : list pyval)
  : result (list pyval) :=
  match best_flights with
  | [] => Ok formatted_flights
  | flight :: rest =>
      let? record := flight_record flight in
      match record with
      | Some flight_record =>
          format_flights rest (formatted_flights ++ [flight_record])
      | None => format_flights rest formatted_flights
      end
  end.

(** [_format_flight_data] *)
Definition _format_flight_data (raw_results : pyval) : result pyval :=
  let? best_flights := Py.get raw_results "best_flights" (PList []) in
  if negb (Py.truthy best_flights) then Ok (PList [])
  else
    let? _ := Py.length best_flights in
    let? flights := Py.iterate best_flights in
    let? formatted_flights := format_flights flights [] in
    Ok (PList formatted_flights).

End WithExternals.
End FlightSearch.

Module HotelSearch.

(** [if value: search_params[key] = value] *)
Definition add_if (key : string) (value : pyval)
    (search_params : gmap string pyval) : gmap string pyval :=
  if Py.truthy value then <[key := value]> search_params else search_params.

(** The request [search_hotels] hands to the provider: the dict
    [search_params] at the point where the search is executed.  [api_key]
    is what [os.getenv("SERP_API_KEY")] returned. *)
Definition search_params (api_key : option string) (location : pyval)
    (check_in_date check_out_date : string) (adults children : Z)
    (children_ages sort_by min_price max_price hotel_class rating
     vacation_rentals : pyval) : result (gmap string pyval) :=
  match api_key with
  | None | Some EmptyString => Raise ValueError
  | Some key =>
      let? q := match location with
                | PStr s => Ok (Py.strip s)
                | _ => Raise AttributeError
                end in
      let search_params : gmap string pyval :=
        list_to_map
          [("api_key", PStr key);
           ("engine", PStr "google_hotels");
           ("q", PStr q);
           ("check_in_date", PStr check_in_date);
           ("check_out_date", PStr check_out_date);
           ("adults", PInt adults);
           ("children", PInt children);
           ("currency", PStr "USD");
           ("gl", PStr "us");
           ("hl", PStr "en")] in
      let search_params := add_if "children_ages" children_ages search_params in
      let search_params := add_if "sort_by" sort_by search_params in
      let search_params := add_if "min_price" min_price search_params in
      let search_params := add_if "max_price" max_price search_params in
      let search_params := add_if "hotel_class" hotel_class search_params in
      let search_params := add_if "rating" rating search_params in
      let search_params :=
        if Py.truthy vacation_rentals
        then <["vacation_rentals" := PBool true]> search_params
        else search_params in
      Ok search_params
  end.

End HotelSearch.

(** ** backend.py *)

Module Backend.

Record TravelPlannerBackend := {
  collected_info : gmap string pyval;
  conversation_history : list message
}.

Definition required_fields : list string :=
  ["source"; "destination"; "start_date"; "end_date"; "number_of_adults";
   "budget_per_person"; "number_of_children"; "travel_style"].

(** [TravelPlannerBackend.__init__] *)
Definition init : TravelPlannerBackend :=
  {| collected_info := ∅; conversation_history := [] |}.

(** [field not in self.collected_info or not self.collected_info[field]] *)
Definition missing (info : gmap string pyval) (field : string) : bool :=
  match info !! field with
  | None => true
  | Some v => negb (Py.truthy v)
  end.

(** [TravelPlannerBackend.get_missing_fields] *)
Definition get_missing_fields (self : TravelPlannerBackend) : list string :=
  List.filter (missing (collected_info self)) required_fields.

(** [TravelPlannerBackend.is_info_complete] *)
Definition is_info_complete (self : TravelPlannerBackend) : bool :=
  Nat.eqb (length (get_missing_fields self)) 0.

Definition field_names : gmap string string :=
  list_to_map
    [("source", "departure city/location");
     ("destination", "destination city/country");
     ("start_date", "start date of travel");
     ("end_date", "end date of travel");
     ("number_of_adults", "number of adults");
     ("budget_per_person", "budget per person");
     ("number_of_children", "number of children");
     ("travel_style", "travel style (economy/balanced/luxury)")].

(** [TravelPlannerBackend.get_missing_fields_message] *)
Definition get_missing_fields_message (self : TravelPlannerBackend) : string :=
  match get_missing_fields self with
  | [] => "All required information collected!"
  | missing =>
      let missing_readable :=
        (fun field => default field (field_names !! field)) <$> missing in
      "I still need the following information: " ++
      Py.join ", " missing_readable ++ ". Please provide these details."
  end.

(** [TravelPlannerBackend.reset_session] *)
Definition reset_session (self : TravelPlannerBackend) : TravelPlannerBackend :=
  {| collected_info := ∅; conversation_history := [] |}.

(** [self.collected_info[key]] *)
Definition collected (self : TravelPlannerBackend) (key : string) : M pyval :=
  match collected_info self !! key with
  | Some v => ret v
  | None => raise (KeyError key)
  end.

Definition error_dict (msg : string) : pyval := PDict {[ "error" := PStr msg ]}.

Section WithExternals.
Context `{Externals}.

Definition extraction_prompt (user_input : string) : string :=
  "
        You are a data extraction agent. Your task is to extract the following fields from user input: " ++
  Py.join ", " required_fields ++ ".

        User Input: " ++ user_input ++ "

        Response Format:
        ```
        {
            " ++ dq ++ "source" ++ dq ++ ": " ++ dq ++ "value" ++ dq ++ ",
            " ++ dq ++ "destination" ++ dq ++ ": " ++ dq ++ "value" ++ dq ++
  ",
            " ++ dq ++ "start_date" ++ dq ++ ": " ++ dq ++ "value" ++ dq ++ ",
            " ++ dq ++ "end_date" ++ dq ++ ": " ++ dq ++ "value" ++ dq ++ ",
            " ++ dq ++ "number_of_adults" ++ dq ++ ": " ++ dq ++ "value" ++
  dq ++ ",
            " ++ dq ++ "budget_per_person" ++ dq ++ ": " ++ dq ++ "value" ++
  dq ++ ",
            " ++ dq ++ "number_of_children" ++ dq ++ ": " ++ dq ++ "value" ++
  dq ++ ",
            " ++ dq ++ "travel_style" ++ dq ++ ": " ++ dq ++ "value" ++ dq ++
  "
        }  
        ```

        If a field is not mentioned in the user input, do not include it in your response.
        
        Any response other than this format will be rejected by the system.
        ".

Definition best_flight_prompt (budget_per_person travel_style flights_info : pyval) : string :=
  "
            You are a flight booking assistant. Your task is to find the best flight based on user's budget and travel style.
            
            Budget per person: " ++ Py.str budget_per_person ++ "
            Travel style: " ++ Py.str travel_style ++ "

            Here are the available flights:
            " ++ json_dumps flights_info ++ "

            The best flight depends on both budget and travel style. For example, 
            - if the travel style is " ++ dq ++ "economy" ++ dq ++
  ", prioritize cheaper flights even if they have longer durations, off timings or more stops.
            - if the travel style is " ++ dq ++ "luxury" ++ dq ++
  ", prioritize shorter durations, better timings and fewer stops even if they are more expensive.
            - if the travel style is " ++ dq ++ "balanced" ++ dq ++
  ", find a good compromise between cost and convenience.

            Based on the above criteria, select the best flight and provide the details in the following format:
            ```
            {
                " ++ dq ++ "ongoing_flight" ++ dq ++ ": {
                    " ++ dq ++ "airline" ++ dq ++ ": " ++ dq ++ "value" ++
  dq ++ ",
                    " ++ dq ++ "price" ++ dq ++ ": " ++ dq ++ "value" ++ dq ++
  ",
                    " ++ dq ++ "duration" ++ dq ++ ": " ++ dq ++ "value" ++
  dq ++ ",
                    " ++ dq ++ "stops" ++ dq ++ ": " ++ dq ++ "value" ++ dq ++
  ",
                    " ++ dq ++ "departure" ++ dq ++ ": " ++ dq ++ "value" ++
  dq ++ ",
                    " ++ dq ++ "arrival" ++ dq ++ ": " ++ dq ++ "value" ++
  dq ++ ",
                    " ++ dq ++ "travel_class" ++ dq ++ ": " ++ dq ++
  "value" ++ dq ++ "
                },
                " ++ dq ++ "return_flight" ++ dq ++ ": {
                    " ++ dq ++ "airline" ++ dq ++ ": " ++ dq ++ "value" ++
  dq ++ ",
                    " ++ dq ++ "price" ++ dq ++ ": " ++ dq ++ "value" ++ dq ++
  ",
                    " ++ dq ++ "duration" ++ dq ++ ": " ++ dq ++ "value" ++
  dq ++ ",
                    " ++ dq ++ "stops" ++ dq ++ ": " ++ dq ++ "value" ++ dq ++
  ",
                    " ++ dq ++ "departure" ++ dq ++ ": " ++ dq ++ "value" ++
  dq ++ ",
                    " ++ dq ++ "arrival" ++ dq ++ ": " ++ dq ++ "value" ++
  dq ++ ",
                    " ++ dq ++ "travel_class" ++ dq ++ ": " ++ dq ++
  "value" ++ dq ++ "
                }
            }
            ```

            Any response other than this format will be rejected by the system.
            ".

Definition best_hotel_prompt (budget_per_person travel_style hotels_info : pyval) : string :=
  "
            You are a hotel booking assistant. Your task is to find the best hotel based on user's budget and travel style.

            Budget per person: " ++ Py.str budget_per_person ++ "
            Travel style: " ++ Py.str travel_style ++ "

            Here are the available hotels:
            " ++ json_dumps hotels_info ++ "

            The best hotel depends on both budget and travel style. For example,
            - if the travel style is " ++ dq ++ "economy" ++ dq ++
  ", prioritize cheaper hotels even if they have fewer amenities or less desirable locations.
            - if the travel style is " ++ dq ++ "luxury" ++ dq ++
  ", prioritize hotels with more amenities, better locations, and higher ratings even if they are more expensive.
            - if the travel style is " ++ dq ++ "balanced" ++ dq ++
  ", find a good compromise between cost and quality.

            Based on the above criteria, select the best hotel and provide the details in the following format:
            ```
            {
                " ++ dq ++ "hotel" ++ dq ++ ": {
                    " ++ dq ++ "name" ++ dq ++ ": " ++ dq ++ "value" ++ dq ++
  ",
                    " ++ dq ++ "price" ++ dq ++ ": " ++ dq ++ "value" ++ dq ++
  ",
                    " ++ dq ++ "rating" ++ dq ++ ": " ++ dq ++ "value" ++
  dq ++ ",
                    " ++ dq ++ "location" ++ dq ++ ": " ++ dq ++ "value" ++
  dq ++ ",
                    " ++ dq ++ "amenities" ++ dq ++ ": " ++ dq ++ "value" ++
  dq ++ "
                }
            }
            ```

            Any response other than this format will be rejected by the system.
            ".

Definition research_prompt (query web_content : string) : string :=
  "Search Query: " ++ query ++ "
                    Webpage Content: " ++ web_content ++ "
                    Extract the relevant information from the webpage content based on the search query.

                    If possible extract the cost per person for each activity or place mentioned in the content.

                    If there is no webpage content found, you can use your own knowledge to answer the query.
                    ".

Definition itinerary_prompt (destination start_date end_date budget_per_person travel_style
      flights_info hotels_info results best_destination : pyval) : string :=
  "
            You are an excellent trip planner who is expert in creating detailed itineraries tailored to customer's need.

            Based on the following information, create a detailed itinerary grouping the activities and places to visit for each day.

            Try to include the places close to each other in the same day.

            Information:
            ```
            Destination: " ++ Py.str destination ++ "
            Start Date: " ++ Py.str start_date ++ "
            End Date: " ++ Py.str end_date ++ "
            Budget per person: " ++ Py.str budget_per_person ++ "
            Travel style: " ++ Py.str travel_style ++ "
            Flights Info: " ++ Py.str flights_info ++ "
            Hotels Info: " ++ Py.str hotels_info ++ "
            " ++ Py.str results ++ "
            ```
            
            The budget mention by the user is in INR (Indian Rupees).
            The cost of flights and hotels provided to you are in USD (US Dollars). Assume 1 USD = 83 INR for conversion.
            
            At the end of itinerary:
            - Make a section to provide additional tips, must try food, sweets and beverages.
            - Provide a summary of the total cost per person for the entire trip.
            - Include the list of other important information like local transport, local customs and traditions etc.
            - Include other famous places/activities which can be added to the itinerary based on user's feedback.
            - Include the flight details and hotel details in the itinerary.

            At the very end, also include that according to the dates, weather and budget, the best destination to visit is " ++
  Py.str best_destination ++ ".
            You are allowed to use knowledge of your own in addition to the information provided to create the itinerary.
            ".

(** [self.collected_info.update({k: v for k, v in info.items() if v})] *)
Definition merge (info collected : gmap string pyval) : gmap string pyval :=
  filter (fun kv => Py.truthy kv.2 = true) info ∪ collected.

(** [TravelPlannerBackend.extract_info_from_input]: the returned record and
    the backend after the call. *)
Definition extract_info_from_input (self : TravelPlannerBackend)
    (user_input : string) : M (gmap string pyval * TravelPlannerBackend) :=
  let prompt := extraction_prompt user_input in
  let conversation :=
    (conversation_history self ++ [Message "user" prompt])%list in
  let* info_response := LLM.inference (Chat conversation) in
  let info_start := Py.find info_response "{" in
  let info_end := Py.rfind info_response "}" + 1 in
  if negb (info_start =? -1) && negb (info_end =? 0) then
    let info_json := Py.slice info_response info_start info_end in
    match json_loads info_json with
    | Ok (PDict info) =>
        ret (info,
             {| collected_info := merge info (collected_info self);
                conversation_history :=
                  (conversation_history self ++
                   [Message "user" user_input;
                    Message "assistant" info_response])%list |})
    | Ok _ => raise AttributeError
    | Raise e => if value_error e then ret (∅, self) else raise e
    end
  else ret (∅, self).

Definition airport_prompt (source : pyval) : string :=
  "What is the short form of " ++ Py.str source ++
  " airport to book flight from API? Just reply with the short form, nothing else. If there is no airport, reply with 'N/A'.".

Definition date_prompt (date : pyval) : string :=
  "Convert the following date in YYYY-MM-DD format: " ++ Py.str date ++
  ". Just reply with the date, nothing else. Assume that the current year is 2025".

(** [prompt.replace(source, destination)] *)
Definition replace (prompt : string) (source destination : pyval) : result string :=
  match source, destination with
  | PStr old, PStr new => Ok (Py.replace prompt old new)
  | _, _ => Raise TypeError
  end.

Definition is_na (code : string) : bool :=
  String.eqb (Py.upper (Py.strip code)) "N/A".

(** [TravelPlannerBackend.get_flights_info] *)
Definition get_flights_info (self : TravelPlannerBackend) : M pyval :=
  try_except
    (let* source := collected self "source" in
     let* destination := collected self "destination" in
     let* start_date := collected self "start_date" in
     let* end_date := collected self "end_date" in
     let prompt := airport_prompt source in
     let* source_code := LLM.inference (Text prompt) in
     if is_na source_code then
       ret (error_dict ("No airport found for source: " ++ Py.str source))
     else
       let* prompt' := lift (replace prompt source destination) in
       let* destination_code := LLM.inference (Text prompt') in
       if is_na destination_code then
         ret (error_dict
                ("No airport found for destination: " ++ Py.str destination))
       else
         let* formatted_start_date := LLM.inference (Text (date_prompt start_date)) in
         let* formatted_end_date := LLM.inference (Text (date_prompt end_date)) in
         let* start_flights :=
           search_flights (Py.strip source_code) (Py.strip destination_code)
                          (Py.strip formatted_start_date) in
         let* end_flights :=
           search_flights (Py.strip destination_code) (Py.strip source_code)
                          (Py.strip formatted_end_date) in
         ret (PDict (list_to_map [("start_flights", start_flights);
                                  ("end_flights", end_flights)])))
    (fun e => ret (error_dict ("Error getting flight information: " ++ exn_str e))).

(** The reply parsed as both ranking steps do: from the first brace to the
    last, decoded. *)
Definition parse_selection (resp : string) (fallback : string) : M pyval :=
  let resp_start := Py.find resp "{" in
  let resp_end := Py.rfind resp "}" + 1 in
  if negb (resp_start =? -1) && negb (resp_end =? 0) then
    lift (json_loads (Py.slice resp resp_start resp_end))
  else ret (error_dict fallback).

(** [TravelPlannerBackend.find_best_flight] *)
Definition find_best_flight (self : TravelPlannerBackend) (flights_info : pyval)
  : M pyval :=
  try_except
    (let* budget_per_person := collected self "budget_per_person" in
     let travel_style :=
       default (PStr "balanced") (collected_info self !! "travel_style") in
     let prompt := best_flight_prompt budget_per_person travel_style flights_info in
     let* resp := LLM.inference (Text prompt) in
     parse_selection resp "Could not parse flight response")
    (fun e => ret (error_dict ("Error finding best flight: " ++ exn_str e))).

(** [TravelPlannerBackend.get_hotels_info] *)
Definition get_hotels_info (self : TravelPlannerBackend) : M pyval :=
  try_except
    (let* destination := collected self "destination" in
     let* start_date := collected self "start_date" in
     let* end_date := collected self "end_date" in
     let* number_of_adults := collected self "number_of_adults" in
     let* number_of_children := collected self "number_of_children" in
     let* formatted_start_date := LLM.inference (Text (date_prompt start_date)) in
     let* formatted_end_date := LLM.inference (Text (date_prompt end_date)) in
     let* n := lift (Py.int number_of_children) in
     let* children_ages := lift (Py.repeat "8," n) in
     let children_ages :=
       match children_ages with
       | EmptyString => EmptyString
       | _ => Py.slice children_ages 0 (-1)
       end in
     let* adults := lift (Py.int number_of_adults) in
     let* children := lift (Py.int number_of_children) in
     search_hotels destination (Py.strip formatted_start_date)
                   (Py.strip formatted_end_date) adults children children_ages)
    (fun e => ret (error_dict ("Error getting hotel information: " ++ exn_str e))).

(** [TravelPlannerBackend.get_best_hotels] *)
Definition get_best_hotels (self : TravelPlannerBackend) (hotels_info : pyval)
  : M pyval :=
  try_except
    (let* budget_per_person := collected self "budget_per_person" in
     let travel_style :=
       default (PStr "balanced") (collected_info self !! "travel_style") in
     let prompt := best_hotel_prompt budget_per_person travel_style hotels_info in
     let* resp := LLM.inference (Text prompt) in
     parse_selection resp "Could not parse hotel response")
    (fun e => ret (error_dict ("Error finding best hotel: " ++ exn_str e))).

(** The [for query in search_queries] loop of [create_itinerary];
    [query_result] is the attribute of the one [GoogleSearch] object. *)
Fixpoint research (search_queries : list string) (query_result : pyval)
    (results : gmap string pyval) : M (gmap string pyval) :=
  match search_queries with
  | [] => ret results
  | query :: rest =>
      let* query_result := GoogleSearch.search query query_result in
      let* answer :=
        try_except
          (let first_link := GoogleSearch.get_first_link query_result in
           let* page := get_data_from_url first_link in
           let* web_content := asyncio_run page in
           LLM.inference (Text (research_prompt query web_content)))
          (fun e => ret ("Error retrieving information: " ++ exn_str e)) in
      research rest query_result (<[query := PStr answer]> results)
  end.

(** [TravelPlannerBackend.create_itinerary] *)
Definition create_itinerary (self : TravelPlannerBackend)
    (flights_info hotels_info : pyval) : M string :=
  try_except
    (let* destination := collected self "destination" in
     let* start_date := collected self "start_date" in
     let* end_date := collected self "end_date" in
     let* budget_per_person := collected self "budget_per_person" in
     let travel_style :=
       default (PStr "balanced") (collected_info self !! "travel_style") in
     let search_queries :=
       ["Must visit places in " ++ Py.str destination;
        "Crowd favourite places in " ++ Py.str destination;
        "Off beat places in " ++ Py.str destination;
        "Best food, drinks, restaurants to try in " ++ Py.str destination;
        "Best shopping places in " ++ Py.str destination] in
     let* results := research search_queries PNone ∅ in
     let* formatted_start_date := LLM.inference (Text (date_prompt start_date)) in
     let* formatted_end_date := LLM.inference (Text (date_prompt end_date)) in
     let* best_destination :=
       Weather.get_travel_destination formatted_start_date formatted_end_date
                                      budget_per_person in
     let prompt :=
       itinerary_prompt destination start_date end_date budget_per_person
                        travel_style flights_info hotels_info (PDict results)
                        best_destination in
     LLM.inference (Text prompt))
    (fun e => ret ("Error creating itinerary: " ++ exn_str e)).

End WithExternals.
End Backend.

(** ** app.py *)

Module App.

Inductive Stage :=
| collecting_info
| searching_flights_hotels
| creating_itinerary
| completed.

(** [st.session_state].  [best_flights] and [best_hotels] are attributes
    that exist only once [search_flights_and_hotels] has set them ([None]:
    not set); the others are created by [initialize_session_state]. *)
Record SessionState := {
  backend : Backend.TravelPlannerBackend;
  messages : list message;
  current_stage : Stage;
  flights_info : pyval;
  hotels_info : pyval;
  itinerary_ready : bool;
  best_flights : option pyval;
  best_hotels : option pyval
}.

(** [initialize_session_state] on a session that holds nothing yet. *)
Definition initialize_session_state : SessionState :=
  {| backend := Backend.init; messages := [];
     current_stage := collecting_info;
     flights_info := PNone; hotels_info := PNone; itinerary_ready := false;
     best_flights := None; best_hotels := None |}.

(** [reset_session] *)
Definition reset_session (st : SessionState) : SessionState :=
  {| backend := Backend.reset_session (backend st); messages := [];
     current_stage := collecting_info;
     flights_info := PNone; hotels_info := PNone; itinerary_ready := false;
     best_flights := best_flights st; best_hotels := best_hotels st |}.

(** [add_message] *)
Definition add_message (role content : string) (st : SessionState) : SessionState :=
  {| backend := backend st;
     messages := messages st ++ [Message role content];
     current_stage := current_stage st;
     flights_info := flights_info st; hotels_info := hotels_info st;
     itinerary_ready := itinerary_ready st;
     best_flights := best_flights st; best_hotels := best_hotels st |}.

Definition set_backend (b : Backend.TravelPlannerBackend) (st : SessionState)
  : SessionState :=
  {| backend := b; messages := messages st;
     current_stage := current_stage st;
     flights_info := flights_info st; hotels_info := hotels_info st;
     itinerary_ready := itinerary_ready st;
     best_flights := best_flights st; best_hotels := best_hotels st |}.

Definition set_current_stage (s : Stage) (st : SessionState) : SessionState :=
  {| backend := backend st; messages := messages st; current_stage := s;
     flights_info := flights_info st; hotels_info := hotels_info st;
     itinerary_ready := itinerary_ready st;
     best_flights := best_flights st; best_hotels := best_hotels st |}.

Definition set_flights_info (v : pyval) (st : SessionState) : SessionState :=
  {| backend := backend st; messages := messages st;
     current_stage := current_stage st;
     flights_info := v; hotels_info := hotels_info st;
     itinerary_ready := itinerary_ready st;
     best_flights := best_flights st; best_hotels := best_hotels st |}.

Definition set_hotels_info (v : pyval) (st : SessionState) : SessionState :=
  {| backend := backend st; messages := messages st;
     current_stage := current_stage st;
     flights_info := flights_info st; hotels_info := v;
     itinerary_ready := itinerary_ready st;
     best_flights := best_flights st; best_hotels := best_hotels st |}.

Definition set_best (flights hotels : pyval) (st : SessionState) : SessionState :=
  {| backend := backend st; messages := messages st;
     current_stage := current_stage st;
     flights_info := flights_info st; hotels_info := hotels_info st;
     itinerary_ready := itinerary_ready st;
     best_flights := Some flights; best_hotels := Some hotels |}.

Definition set_itinerary_ready (b : bool) (st : SessionState) : SessionState :=
  {| backend := backend st; messages := messages st;
     current_stage := current_stage st;
     flights_info := flights_info st; hotels_info := hotels_info st;
     itinerary_ready := b;
     best_flights := best_flights st; best_hotels := best_hotels st |}.

(** How a function of the script ends: it returns, it asks for a rerun
    ([st.rerun()]), or an exception leaves it. *)
Inductive outcome :=
| Returned
| Rerun
| Failed (e : exn).

(** What the user did before this run of the script. *)
Inductive action :=
| Idle
| StartNewTrip
| ChatInput (text : string).

Definition welcome_msg : string :=
  "
        👋 Hello! I'm Trippy, your AI travel planner. I'll help you create the perfect travel itinerary!
        
        To get started, please tell me about your travel plans. I need to know:
        
        🏠 **Departure location** (where you're traveling from)
        🎯 **Destination** (where you want to go)
        📅 **Travel dates** (start and end dates)
        👥 **Number of travelers** (adults and children)
        💰 **Budget per person**
        🎨 **Travel style** (economy, balanced, or luxury)
        
        You can provide all this information at once, or we can go step by step. Just start by telling me about your trip!
        ".

Section WithExternals.
Context `{Externals}.

(** [process_user_input] *)
Definition process_user_input (user_input : string) (st : SessionState)
    (w : World) : outcome * SessionState * World :=
  let st := add_message "user" user_input st in
  match current_stage st with
  | collecting_info =>
      match Backend.extract_info_from_input (backend st) user_input w with
      | (Raise e, w) => (Failed e, st, w)
      | (Ok (extracted_info, backend'), w) =>
          let st := set_backend backend' st in
          if Backend.is_info_complete (backend st) then
            let st :=
              add_message "assistant"
                "Great! I have all the information I need. Let me search for flights and hotels for you..."
                st in
            let st := set_current_stage searching_flights_hotels st in
            (Rerun, st, w)
          else
            let missing_msg := Backend.get_missing_fields_message (backend st) in
            (Returned, add_message "assistant" missing_msg st, w)
      end
  | _ => (Returned, st, w)
  end.

(** The flight half of [search_flights_and_hotels]. *)
Definition flights_step (st : SessionState) : M SessionState :=
  let* flights_info := Backend.get_flights_info (backend st) in
  let* is_error := lift (Py.has "error" flights_info) in
  if is_error then
    let* error := lift (Py.getitem flights_info "error") in
    let st :=
      add_message "assistant" ("⚠️ Flight search error: " ++ Py.str error) st in
    ret (set_flights_info PNone st)
  else
    let st := set_flights_info flights_info st in
    ret (add_message "assistant" "✅ Found flight options!" st).

(** The hotel half of [search_flights_and_hotels]. *)
Definition hotels_step (st : SessionState) : M SessionState :=
  let* hotels_info := Backend.get_hotels_info (backend st) in
  let* is_error :=
    match hotels_info with
    | PDict _ => lift (Py.has "error" hotels_info)
    | _ => ret false
    end in
  if is_error then
    let* error := lift (Py.getitem hotels_info "error") in
    let st :=
      add_message "assistant" ("⚠️ Hotel search error: " ++ Py.str error) st in
    ret (set_hotels_info PNone st)
  else
    let st := set_hotels_info hotels_info st in
    ret (add_message "assistant" "✅ Found hotel options!" st).

(** The flight ranking of [search_flights_and_hotels]: the local
    [best_flights] and the session. *)
Definition best_flights_step (st : SessionState) : M (pyval * SessionState) :=
  let* clean :=
    if Py.truthy (flights_info st)
    then (let* e := lift (Py.has "error" (flights_info st)) in ret (negb e))
    else ret false in
  if clean then
    let* best := Backend.find_best_flight (backend st) (flights_info st) in
    if negb (Py.contains "error" (Py.str best)) then
      ret (best,
           add_message "assistant"
             "✅ Selected best flights based on your preferences!" st)
    else ret (best, st)
  else ret (PNone, st).

(** The hotel ranking of [search_flights_and_hotels]. *)
Definition best_hotels_step (st : SessionState) : M (pyval * SessionState) :=
  if Py.truthy (hotels_info st) &&
     negb (Py.contains "error" (Py.str (hotels_info st)))
  then
    let* best := Backend.get_best_hotels (backend st) (hotels_info st) in
    if negb (Py.contains "error" (Py.str best)) then
      ret (best,
           add_message "assistant"
             "✅ Selected best hotels based on your preferences!" st)
    else ret (best, st)
  else ret (PNone, st).

(** [search_flights_and_hotels] *)
Definition search_flights_and_hotels (st : SessionState) : M SessionState :=
  let* st := flights_step st in
  let* st := hotels_step st in
  let* (best_flights, st) := best_flights_step st in
  let* (best_hotels, st) := best_hotels_step st in
  let st :=
    add_message "assistant" "Now let me create your personalized itinerary..." st in
  let st := set_current_stage creating_itinerary st in
  ret (set_best best_flights best_hotels st).

(** [create_itinerary] *)
Definition create_itinerary (st : SessionState) : M SessionState :=
  let* itinerary :=
    Backend.create_itinerary (backend st)
      (default PNone (best_flights st)) (default PNone (best_hotels st)) in
  let st :=
    add_message "assistant"
      ("🎉 **Your Personalized Travel Itinerary is Ready!**

" ++ itinerary) st in
  let st := set_itinerary_ready true st in
  ret (set_current_stage completed st).

(** The follow-up branch of [main], for a completed itinerary. *)
Definition follow_up (prompt : string) (st : SessionState) (w : World)
  : outcome * SessionState * World :=
  let st := add_message "user" prompt st in
  let context := "Based on the travel itinerary I created for you, " ++ prompt in
  match LLM.inference (Text context) w with
  | (Raise e, w) => (Failed e, st, w)
  | (Ok response, w) => (Rerun, add_message "assistant" response st, w)
  end.

(** A step of the script run to its end inside [main], which then reruns.
    Both steps always return (lemmas [search_flights_and_hotels_total] and
    [create_itinerary_app_total]), so the other branch is never taken. *)
Definition then_rerun (step : SessionState -> M SessionState) (st : SessionState)
    (w : World) : outcome * SessionState * World :=
  match step st w with
  | (Ok st', w) => (Rerun, st', w)
  | (Raise e, w) => (Failed e, st, w)
  end.

Definition chat_enabled (st : SessionState) : bool :=
  match current_stage st with
  | collecting_info => true
  | completed => itinerary_ready st
  | _ => false
  end.

(** [main]: one run of the script on an initialised session, after the
    user's [action].  The sidebar and the progress bar only display. *)
Definition main (a : action) (st : SessionState) (w : World)
  : outcome * SessionState * World :=
  match a with
  | StartNewTrip => (Rerun, reset_session st, w)
  | _ =>
      match messages st with
      | [] => (Rerun, add_message "assistant" welcome_msg st, w)
      | _ :: _ =>
          match current_stage st with
          | searching_flights_hotels => then_rerun search_flights_and_hotels st w
          | creating_itinerary => then_rerun create_itinerary st w
          | _ =>
              if chat_enabled st then
                match a with
                | ChatInput (String c rest as prompt) =>
                    match current_stage st with
                    | collecting_info =>
                        let '(o, st, w) := process_user_input prompt st w in
                        (match o with Returned => Rerun | _ => o end, st, w)
                    | completed => follow_up prompt st w
                    | _ => (Returned, st, w)
                    end
                | _ => (Returned, st, w)
                end
              else (Returned, st, w)
          end
      end
  end.

(** The session after a sequence of runs of the script. *)
Fixpoint run (actions : list action) (st : SessionState) (w : World)
  : SessionState * World :=
  match actions with
  | [] => (st, w)
  | a :: rest => let '(_, st', w') := main a st w in run rest st' w'
  end.

End WithExternals.
End App.

(** * Scenarios

    Concrete records, sessions and worlds on which the properties below are
    exercised. *)

(** A TripRequest in which only the destination is known. *)
Definition goa_only : Backend.TravelPlannerBackend :=
  {| Backend.collected_info := {[ "destination" := PStr "Goa" ]};
     Backend.conversation_history := [] |}.

(** A JSON string literal and a member with a string value. *)
Definition jstr (s : string) : string := dq ++ s ++ dq.
Definition jmember (k v : string) : string := jstr k ++ ": " ++ jstr v.

(** The reply of the model to a message that gives all eight fields. *)
Definition trip_json : string :=
  "{" ++ jmember "source" "Delhi" ++ ", " ++ jmember "destination" "Goa" ++
  ", " ++ jmember "start_date" "June 10" ++ ", " ++
  jmember "end_date" "June 15" ++ ", " ++ jmember "number_of_adults" "2" ++
  ", " ++ jmember "budget_per_person" "20000" ++ ", " ++
  jmember "number_of_children" "0" ++ ", " ++
  jmember "travel_style" "economy" ++ "}".

Definition trip_info : gmap string pyval :=
  list_to_map
    [("source", PStr "Delhi"); ("destination", PStr "Goa");
     ("start_date", PStr "June 10"); ("end_date", PStr "June 15");
     ("number_of_adults", PStr "2"); ("budget_per_person", PStr "20000");
     ("number_of_children", PStr "0"); ("travel_style", PStr "economy")].

(** A reply that reports no children as the integer 0. *)
Definition no_children_json : string :=
  "{" ++ jstr "number_of_children" ++ ": 0}".

(** A reply that names only the destination. *)
Definition goa_json : string := "{" ++ jmember "destination" "Goa" ++ "}".

(** The replies of the two ranking steps. *)
Definition best_flight_json : string :=
  "{" ++ jstr "ongoing_flight" ++ ": {" ++ jmember "airline" "IndiGo" ++
  "}, " ++ jstr "return_flight" ++ ": {" ++ jmember "airline" "IndiGo" ++ "}}".
Definition best_flight_value : pyval :=
  PDict (list_to_map
    [("ongoing_flight", PDict {[ "airline" := PStr "IndiGo" ]});
     ("return_flight", PDict {[ "airline" := PStr "IndiGo" ]})]).
Definition best_hotel_json : string :=
  "{" ++ jstr "hotel" ++ ": {" ++ jmember "name" "Sea View" ++ "}}".
Definition best_hotel_value : pyval :=
  PDict {[ "hotel" := PDict {[ "name" := PStr "Sea View" ]} ]}.

(** The reply of the model when asked for candidate destinations. *)
Definition places_json : string :=
  "[{" ++ jmember "destination" "Goa" ++ ", " ++ jmember "country" "India" ++
  "}]".
Definition places_value : pyval :=
  PList [PDict (list_to_map [("destination", PStr "Goa");
                             ("country", PStr "India")])].

(** What [json.loads] returns on the texts of the scenarios; any other text
    is taken not to decode. *)
Definition scenario_decodes : list (string * pyval) :=
  [(trip_json, PDict trip_info);
   (no_children_json, PDict {[ "number_of_children" := PInt 0 ]});
   (goa_json, PDict {[ "destination" := PStr "Goa" ]});
   (best_flight_json, best_flight_value);
   (best_hotel_json, best_hotel_value);
   (places_json, places_value);
   ("[]", PList [])].

Fixpoint assoc (table : list (string * pyval)) (s : string) : option pyval :=
  match table with
  | [] => None
  | (k, v) :: rest => if String.eqb k s then Some v else assoc rest s
  end.

(** What [int] reads in the texts of the scenarios; any other text is
    taken to be rejected. *)
Definition scenario_ints : list (string * pyval) :=
  [("0", PInt 0); ("2", PInt 2); (" 2 ", PInt 2);
   ("9223372036854775808", PInt 9223372036854775808)].

(** A reply that is one JSON object nested 2000 deep, more than the
    recursion limit of the interpreter (1000) lets [json.loads] descend. *)
Definition deep_json : string :=
  Nat.iter 2000 (fun s => "{" ++ jstr "a" ++ ": " ++ s ++ "}") "1".

(** The dates the scenarios use, as microseconds since the epoch. *)
Definition scenario_dates : list (string * pyval) :=
  [("2025-06-01", PInt 1748736000000000);
   ("2025-06-10", PInt 1749513600000000);
   ("2025-06-15", PInt 1749945600000000);
   ("2025-06-16", PInt 1750032000000000);
   ("2025-06-21", PInt 1750464000000000);
   ("2025-12-25", PInt 1766620800000000);
   ("2025-12-31", PInt 1767139200000000)].

Definition scenario_externals : Externals :=
  {| json_loads := fun s =>
       if String.eqb s deep_json then Raise RecursionError
       else match assoc scenario_decodes s with
            | Some v => Ok v
            | None => Raise JSONDecodeError
            end;
     json_dumps := fun _ => "[]";
     repr := fun v =>
       match v with
       | PNone => "None"
       | PDict d => match d !! "error" with
                    | Some _ => "{'error': ...}"
                    | None => "{...}"
                    end
       | _ => "..."
       end;
     exn_str := fun e =>
       match e with
       | KeyError k => "'" ++ k ++ "'"
       | UnboundLocalError v =>
           "cannot access local variable '" ++ v ++
           "' where it is not associated with a value"
       | ExternalError msg => msg
       | NotACoroutine (PStr x) => "a coroutine was expected, got '" ++ x ++ "'"
       | RecursionError =>
           "maximum recursion depth exceeded while decoding a JSON object from a unicode string"
       | OverflowError => "cannot fit 'int' into an index-sized integer"
       | _ => "error"
       end;
     strptime_ymd := fun s =>
       match assoc scenario_dates s with
       | Some (PInt t) => Some t
       | _ => None
       end;
     int_str := fun s =>
       match assoc scenario_ints s with
       | Some (PInt n) => Some n
       | _ => None
       end;
     max_str_len := 1000000000 |}.

(** 2100-01-01, as a POSIX time stamp. *)
Definition far_future : Z := 4102444800.

(** A world in which the access token is valid, the model gives the
    scripted answers in turn and fails once they are used up, and both
    providers find nothing.  The clock stands at 2025-06-01 10:00. *)
Definition scripted (replies : list (result string)) : World :=
  {| clock := Oracle (fun _ => 1748772000000000) 0;
     credential := Oracle (fun _ => Some far_future) 0;
     expires_on := Some far_future;
     model :=
       Oracle (fun n => nth n replies (Raise (ExternalError "Connection error."))) 0;
     flights_api := Oracle (fun _ => Ok (PList [PDict {[ "airline" := PStr "IndiGo" ]}])) 0;
     hotels_api := Oracle (fun _ => Ok (PList [PDict {[ "name" := PStr "Sea View" ]}])) 0;
     google_api := Oracle (fun _ => None) 0;
     pages := Oracle (fun _ => "Error scraping URL") 0;
     weather_api := Oracle (fun _ => Raise (ExternalError "503")) 0;
     trace := [] |}.

(** A world in which every call of the model fails. *)
Definition offline : World := scripted [].

(** A conversation up to the point where flights and hotels are ranked:
    the welcome, one message that gives all eight fields, then the search
    step. *)
Definition trip_message : string :=
  "I want to go from Delhi to Goa, 2 adults, no kids, budget 20000 INR, economy, June 10 to June 15".

Definition trip_world : World :=
  scripted
    [Ok trip_json;
     Ok "DEL"; Ok "GOI"; Ok "2025-06-10"; Ok "2025-06-15";
     Ok "2025-06-10"; Ok "2025-06-15";
     Ok best_flight_json; Ok best_hotel_json].

(** A TripRequest with all eight fields, and one with two children. *)
Definition trip_backend : Backend.TravelPlannerBackend :=
  {| Backend.collected_info := trip_info; Backend.conversation_history := [] |}.

Definition family_backend : Backend.TravelPlannerBackend :=
  {| Backend.collected_info := <[ "number_of_children" := PStr "2" ]> trip_info;
     Backend.conversation_history := [] |}.

(** The forecast the weather provider gives in the scenarios: one day. *)
Definition forecast_value : pyval :=
  PDict {[ "forecast" :=
    PDict {[ "forecastday" :=
      PList [PDict (list_to_map
        [("date", PStr "2025-06-10");
         ("day", PDict (list_to_map
            [("maxtemp_c", PInt 31); ("mintemp_c", PInt 26);
             ("condition", PDict {[ "text" := PStr "Sunny" ]});
             ("avghumidity", PInt 70);
             ("daily_chance_of_rain", PInt 10)]))])] ]} ]}.

(** [w] with a weather provider that answers with [forecast_value]. *)
Definition with_forecast (w : World) : World :=
  {| clock := clock w; credential := credential w; expires_on := expires_on w;
     model := model w; flights_api := flights_api w; hotels_api := hotels_api w;
     google_api := google_api w; pages := pages w;
     weather_api := Oracle (fun _ => Ok forecast_value) 0;
     trace := trace w |}.

(** The session once the welcome message has been shown. *)
Definition welcomed : App.SessionState :=
  App.add_message "assistant" App.welcome_msg App.initialize_session_state.

Definition searched_trip : App.SessionState :=
  (App.run (H:=scenario_externals)
     [App.Idle; App.ChatInput trip_message; App.Idle]
     App.initialize_session_state trip_world).1.

(** The backend after the message "no kids" was answered by
    [no_children_json] on top of [goa_only]. *)
Definition no_children_after : Backend.TravelPlannerBackend :=
  {| Backend.collected_info := {[ "destination" := PStr "Goa" ]};
     Backend.conversation_history :=
       [Message "user" "no kids"; Message "assistant" no_children_json] |}.

(** The order of the required fields as the specification lists it. *)
Definition spec_required_fields : list string :=
  ["source"; "destination"; "start_date"; "end_date"; "number_of_adults";
   "number_of_children"; "budget_per_person"; "travel_style"].

(** The text [extract_info_from_input] hands to the decoder: the reply
    from its first opening brace to its last closing brace. *)
Definition info_json (info_response : string) : string :=
  Py.slice info_response (Py.find info_response "{")
           (Py.rfind info_response "}" + 1).

(** The conversation [extract_info_from_input] sends to the model. *)
Definition extraction_chat `{Externals} (self : Backend.TravelPlannerBackend)
    (user_input : string) : prompt :=
  Chat (Backend.conversation_history self ++
        [Message "user" (Backend.extraction_prompt user_input)]).

(** The position of a stage in the sequence of the conversation. *)
Definition stage_rank (s : App.Stage) : nat :=
  match s with
  | App.collecting_info => 0
  | App.searching_flights_hotels => 1
  | App.creating_itinerary => 2
  | App.completed => 3
  end.

(** The stage that follows; [completed] is the last. *)
Definition next_stage (s : App.Stage) : App.Stage :=
  match s with
  | App.collecting_info => App.searching_flights_hotels
  | App.searching_flights_hotels => App.creating_itinerary
  | App.creating_itinerary => App.completed
  | App.completed => App.completed
  end.

(** A required field holds a non-empty value. *)
Definition is_set (info : gmap string pyval) (field : string) : Prop :=
  exists v, info !! field = Some v /\ Py.truthy v = true.

(** The children-ages value for [n] children: the placeholder age 8 once
    per child, joined by commas. *)
Definition placeholder_ages (n : Z) : string :=
  Py.join "," (replicate (Z.to_nat n) "8").

(** A string without its last character. *)
Fixpoint drop_last (s : string) : string :=
  match s with
  | EmptyString => EmptyString
  | String c EmptyString => EmptyString
  | String c s' => String c (drop_last s')
  end.

(** The character [c] does not occur in [s]. *)
Fixpoint lacks (c : Ascii.ascii) (s : string) : Prop :=
  match s with
  | EmptyString => True
  | String x s' => x <> c /\ lacks c s'
  end.

(** While information is being collected, the TripRequest is incomplete. *)
Definition collecting_incomplete (st : App.SessionState) : Prop :=
  App.current_stage st = App.collecting_info ->
  Backend.is_info_complete (App.backend st) = false.

(** How an extraction fails: the reply has no opening brace, or no closing
    brace, or the text between them does not decode, that is [json.loads]
    raises [JSONDecodeError] or another [ValueError]. *)
Definition decode_fails `{Externals} (reply : string) : Prop :=
  Py.find reply "{" = -1 \/ Py.rfind reply "}" = -1 \/
  exists e, json_loads (info_json reply) = Raise e /\ value_error e = true.

(** A world in which the first call of the model fails and the second
    succeeds. *)
Definition flaky : World :=
  scripted [Raise (ExternalError "Connection error."); Ok "Hi"].


(** A TripRequest that gives the number of children in words. *)
Definition words_backend : Backend.TravelPlannerBackend :=
  {| Backend.collected_info := <[ "number_of_children" := PStr "two" ]> trip_info;
     Backend.conversation_history := [] |}.

(** The world of the flight adapter's round trip: both airports and both
    dates resolve. *)
Definition round_trip_world : World :=
  scripted [Ok " DEL "; Ok "GOI"; Ok "2025-06-10"; Ok "2025-06-15"].

(** One day of the weather provider's answer, and the forecast entry made
    of it. *)
Definition forecast_day (date : string) : pyval :=
  PDict (list_to_map
    [("date", PStr date);
     ("day", PDict (list_to_map
        [("maxtemp_c", PInt 31); ("mintemp_c", PInt 26);
         ("condition", PDict {[ "text" := PStr "Sunny" ]});
         ("avghumidity", PInt 70);
         ("daily_chance_of_rain", PInt 10)]))]).

Definition forecast_of (date : string) : pyval :=
  PDict (list_to_map
    [("date", PStr date); ("temp_max", PInt 31); ("temp_min", PInt 26);
     ("conditions", PStr "Sunny"); ("humidity", PInt 70);
     ("rain_chance", PInt 10)]).

(** The body of a web search whose first result is a PDF. *)
Definition pdf_then_page : gmap string pyval :=
  {[ "items" :=
       PList [PDict {[ "link" := PStr "https://example.org/goa.pdf" ]};
              PDict {[ "link" := PStr "https://example.org/goa" ]}] ]}.

(** Three raw flights: a direct one, one with a stop, one without
    segments. *)
Definition direct_flight : pyval :=
  PDict (list_to_map
    [("flights",
      PList [PDict (list_to_map
               [("airline", PStr "IndiGo");
                ("departure_airport",
                 PDict (list_to_map [("name", PStr "Indira Gandhi");
                                     ("id", PStr "DEL");
                                     ("time", PStr "2025-06-10 06:00")]))])]);
     ("price", PStr "74")]).

Definition one_stop_flight : pyval :=
  PDict (list_to_map
    [("flights",
      PList [PDict {[ "airline" := PStr "Air India" ]};
             PDict {[ "airline" := PStr "Air India" ]}])]).

Definition no_segment_flight : pyval :=
  PDict {[ "flights" := PList [] ]}.

Definition raw_flights : gmap string pyval :=
  {[ "best_flights" :=
       PList [direct_flight; no_segment_flight; one_stop_flight] ]}.

(** The request of the hotel search for two adults and two children in
    Goa. *)
Definition family_request : gmap string pyval :=
  <[ "children_ages" := PStr "8,8" ]>
    (list_to_map
       [("api_key", PStr "key");
        ("engine", PStr "google_hotels");
        ("q", PStr "Goa");
        ("check_in_date", PStr "2025-06-10");
        ("check_out_date", PStr "2025-06-15");
        ("adults", PInt 2);
        ("children", PInt 2);
        ("currency", PStr "USD");
        ("gl", PStr "us");
        ("hl", PStr "en")]).

(** A world late in a session: the stored access token expired an hour
    ago, the credential service grants one that lasts an hour, and the
    first call of the model fails. *)
Definition stale_token : World :=
  {| clock := clock flaky;
     credential := Oracle (fun _ => Some 1748775600) 0;
     expires_on := Some 1748768400;
     model := model flaky;
     flights_api := flights_api flaky;
     hotels_api := hotels_api flaky;
     google_api := google_api flaky;
     pages := pages flaky;
     weather_api := weather_api flaky;
     trace := [] |}.

(** A world in which the model answers the first date conversion with a
    date that is not in the form YYYY-MM-DD. *)
Definition loose_dates : World := scripted [Ok "10 June 2025"; Ok "2025-06-15"].

(** A world in which the first two pages fetched have different texts. *)
Definition two_pages : World :=
  {| clock := clock offline;
     credential := credential offline;
     expires_on := expires_on offline;
     model := model offline;
     flights_api := flights_api offline;
     hotels_api := hotels_api offline;
     google_api := google_api offline;
     pages := Oracle (fun n => nth n ["Goa beaches"; "Goa markets"] EmptyString) 0;
     weather_api := weather_api offline;
     trace := [] |}.

(** A TripRequest that declares 2^63 children. *)
Definition crowd_backend : Backend.TravelPlannerBackend :=
  {| Backend.collected_info :=
       <[ "number_of_children" := PStr "9223372036854775808" ]> trip_info;
     Backend.conversation_history := [] |}.

(** ** Vocabulary of the proofs *)

(** [m] moves the world only along [R]. *)
Definition preserves {A} (R : relation World) (m : M A) : Prop :=
  forall w, R w (m w).2.

(** The events the model client causes. *)
Definition llm_event (e : event) : Prop :=
  match e with
  | EvCredential | EvInvoke _ => True
  | _ => False
  end.

(** From [w] to [w'] only the model client acted: the providers' oracles
    are where they were, and the log grew by client events only. *)
Definition llm_only (w w' : World) : Prop :=
  flights_api w' = flights_api w /\
  hotels_api w' = hotels_api w /\
  google_api w' = google_api w /\
  pages w' = pages w /\
  weather_api w' = weather_api w /\
  exists evs, trace w' = (trace w ++ evs)%list /\ Forall llm_event evs.

(** Whenever [m] returns, its result satisfies [Q]. *)
Definition partial {A} (m : M A) (Q : A -> Prop) : Prop :=
  forall w a w', m w = (Ok a, w') -> Q a.

(** [m] returns in every world, with a result that satisfies [Q]. *)
Definition total {A} (m : M A) (Q : A -> Prop) : Prop :=
  forall w, exists a w', m w = (Ok a, w') /\ Q a.

(** The value is a dict. *)
Definition is_dict (v : pyval) : Prop := exists d, v = PDict d.

(** The flight search result kept in the session is [None] or a dict
    without an [error] key. *)
Definition clean_flights (v : pyval) : Prop :=
  v = PNone \/ exists d, v = PDict d /\ d !! "error" = None.

(** What the session keeps of a hotel search result: [None] for an error
    dict, the result itself otherwise. *)
Definition kept_hotels (hotels_info : pyval) : pyval :=
  match hotels_info with
  | PDict d => match d !! "error" with
               | Some _ => PNone
               | None => hotels_info
               end
  | _ => hotels_info
  end.

(** One step of the driver moves the stage forward by at most one and
    keeps every field that is set. *)
Definition forward_step (st st' : App.SessionState) : Prop :=
  (App.current_stage st' = App.current_stage st \/
   App.current_stage st' = next_stage (App.current_stage st)) /\
  (forall f, is_set (Backend.collected_info (App.backend st)) f ->
             is_set (Backend.collected_info (App.backend st')) f).

(** From [w] to [w'] the log grew by events that satisfy [P]. *)
Definition adds (P : event -> Prop) (w w' : World) : Prop :=
  exists evs, trace w' = (trace w ++ evs)%list /\ Forall P evs.

(** An event [get_hotels_info] may cause: a call of the model client, or a
    call of [search_hotels] whose adults and children counts are what
    [int] made of the declared numbers and whose children-ages value is the
    placeholder list for the children count. *)
Definition hotel_call_ok `{Externals} (self : Backend.TravelPlannerBackend)
    (e : event) : Prop :=
  llm_event e \/
  exists location check_in check_out adults_v a children_v n,
    Backend.collected_info self !! "number_of_adults" = Some adults_v /\
    Py.int adults_v = Ok a /\
    Backend.collected_info self !! "number_of_children" = Some children_v /\
    Py.int children_v = Ok n /\
    e = EvHotels location check_in check_out a n (placeholder_ages n).

(** The first of the [budget] answers of an oracle from position [from] on
    that [f] accepts, with its offset from [from]. *)
Fixpoint first_answer {A B} (f : A -> option B) (answers : nat -> A)
    (from budget : nat) : option (nat * B) :=
  match budget with
  | O => None
  | S k =>
      match f (answers from) with
      | Some b => Some (O, b)
      | None =>
          match first_answer f answers (S from) k with
          | Some (i, b) => Some (S i, b)
          | None => None
          end
      end
  end.

(** The text of a reply of the model, if it gave one. *)
Definition reply_of (r : result string) : option string :=
  match r with
  | Ok text => Some text
  | Raise _ => None
  end.

(** The prompt as [inference] hands it to the client: a [str] is stripped. *)
Definition sent (p : prompt) : prompt :=
  match p with
  | Text s => Text (Py.strip s)
  | Chat _ => p
  end.

(** The access token is valid at every instant the clock will show. *)
Definition token_valid (w : World) : Prop :=
  exists e, expires_on w = Some e /\
            forall n, answers (clock w) n <= e * 1000000.

(** From [w] to [w'] the model was called [n] times with the prompt [p],
    and the credential service was not asked. *)
Definition invoked (p : prompt) (n : nat) (w w' : World) : Prop :=
  answers (model w') = answers (model w) /\
  asked (model w') = (asked (model w) + n)%nat /\
  answers (clock w') = answers (clock w) /\
  expires_on w' = expires_on w /\
  credential w' = credential w /\
  trace w' = (trace w ++ replicate n (EvInvoke p))%list.

(** From [w] to [w'] the credential service was asked [n] times, and the
    model was not called. *)
Definition requested (n : nat) (w w' : World) : Prop :=
  answers (credential w') = answers (credential w) /\
  asked (credential w') = (asked (credential w) + n)%nat /\
  clock w' = clock w /\
  model w' = model w /\
  trace w' = (trace w ++ replicate n EvCredential)%list.

(** What a step of the driver that is not the reset keeps: the backend and
    the ready flag are as they were, and the chat display only grew. *)
Definition keeps (st st' : App.SessionState) : Prop :=
  App.backend st' = App.backend st /\
  App.itinerary_ready st' = App.itinerary_ready st /\
  App.messages st `prefix_of` App.messages st'.

(** The transcript is a sequence of turns: a user message, then the reply
    of the assistant. *)
Definition turn (t : string * string) : list message :=
  [Message "user" t.1; Message "assistant" t.2].

Definition alternating (history : list message) : Prop :=
  exists turns : list (string * string), history = flat_map turn turns.

(** The chat display is empty or starts with the welcome message. *)
Definition welcome_first (st : App.SessionState) : Prop :=
  App.messages st = [] \/
  exists rest, App.messages st = Message "assistant" App.welcome_msg :: rest.

(** What holds of every session a conversation reaches: past the
    collection of information the TripRequest is complete and the chat
    display is not empty, and the ready flag is set exactly in the last
    stage. *)
Definition reachable_inv (st : App.SessionState) : Prop :=
  (App.current_stage st <> App.collecting_info ->
   Backend.is_info_complete (App.backend st) = true /\ App.messages st <> []) /\
  (App.itinerary_ready st = true <-> App.current_stage st = App.completed).

(** The first of [keys] that the record does not hold. *)
Fixpoint first_absent (keys : list string) (info : gmap string pyval)
  : option string :=
  match keys with
  | [] => None
  | k :: rest =>
      match info !! k with
      | None => Some k
      | Some _ => first_absent rest info
      end
  end.

(** The reply holds no text the ranking steps would decode: it has no
    opening brace, or no closing brace. *)
Definition no_object (reply : string) : Prop :=
  lacks "{" reply \/ lacks "}" reply.

(** The text the ranking steps hand to the decoder for a reply with both
    braces: the reply from its first opening brace to its last closing
    brace, and the empty text when the last closing brace comes before the
    first opening one. *)
Definition selection_text (reply text : string) : Prop :=
  (exists pre mid post,
     reply = pre ++ "{" ++ mid ++ "}" ++ post /\
     lacks "{" pre /\ lacks "}" post /\ text = "{" ++ mid ++ "}") \/
  (exists pre post,
     reply = pre ++ "{" ++ post /\
     lacks "{" pre /\ lacks "}" post /\ ~ lacks "}" pre /\
     text = EmptyString).

(** The events that searching the web causes. *)
Definition web_event (e : event) : Prop :=
  match e with
  | EvGoogle _ | EvFetch _ => True
  | _ => False
  end.

(** From [w] to [w'] only the web search and the page fetcher acted. *)
Definition web_only (w w' : World) : Prop :=
  clock w' = clock w /\ credential w' = credential w /\
  expires_on w' = expires_on w /\ model w' = model w /\
  flights_api w' = flights_api w /\ hotels_api w' = hotels_api w /\
  weather_api w' = weather_api w /\
  exists evs, trace w' = (trace w ++ evs)%list /\ Forall web_event evs.

(** The text the research loop stores for a query when [asyncio.run] was
    handed the text [page]: the message of its [ValueError], which holds
    the [repr] of [page]. *)
Definition research_error `{Externals} (page : string) : string :=
  "Error retrieving information: " ++ exn_str (NotACoroutine (PStr page)).

(** The results of the research loop: each query in turn gets the error
    text for the page fetched for it, the pages being [pages from],
    [pages (from + 1)] and so on. *)
Fixpoint researched `{Externals} (queries : list string) (pages : nat -> string)
    (from : nat) (results : gmap string pyval) : gmap string pyval :=
  match queries with
  | [] => results
  | query :: rest =>
      researched rest pages (S from)
        (<[query := PStr (research_error (pages from))]> results)
  end.

(** The world after one round of the research loop: the search, then the
    fetch of the first link. *)
Definition after_query (query : string) (query_result : pyval) (w : World)
  : World :=
  (get_data_from_url
     (GoogleSearch.get_first_link
        (default query_result (next (google_api w))))
     (call_google query w).2).2.

(** A forecast entry for the date [d]. *)
Definition dated (d : string) (entry : pyval) : Prop :=
  exists fields, entry = PDict fields /\ fields !! "date" = Some (PStr d).

(** A forecast entry whose date lies between the two dates, as strings
    compare. *)
Definition in_window (start_date end_date : string) (entry : pyval) : Prop :=
  exists d, dated d entry /\
            String.leb start_date d = true /\ String.leb d end_date = true.

(** From [w] to [w'] only the clock and the weather provider acted. *)
Definition weather_only (w w' : World) : Prop :=
  model w' = model w /\ credential w' = credential w /\
  expires_on w' = expires_on w /\
  answers (weather_api w') = answers (weather_api w) /\
  exists places, trace w' = (trace w ++ (EvWeather <$> places))%list.

(** A candidate destination as the recommendation loop reads it. *)
Definition place_like (place : pyval) : Prop :=
  exists destination country,
    Py.getitem place "destination" = Ok destination /\
    Py.getitem place "country" = Ok country.

(** The weather provider fails at every request. *)
Definition weather_down (w : World) : Prop :=
  forall n, exists e, answers (weather_api w) n = Raise e.

(** The part of [get_weather_forecast] inside its [try]: the request and
    the scan of the answer, with the two handlers. *)
Definition fetch_forecast `{Externals} (place start_date end_date : string)
  : M pyval :=
  try_except
    (let* data := call_weather place in
     let* forecasts :=
       lift (let? forecast := Py.get data "forecast" (PDict ∅) in
             let? forecastday := Py.get forecast "forecastday" (PList []) in
             let? days := Py.iterate forecastday in
             Weather.collect_days days start_date end_date []) in
     ret (Weather.status_dict "success" "data" (PList forecasts)))
    (fun e =>
       match e with
       | ExternalError _ =>
           ret (Weather.status_dict "error" "message"
                  (PStr ("Weather API error: " ++ exn_str e)))
       | _ =>
           ret (Weather.status_dict "error" "message"
                  (PStr ("Unexpected error: " ++ exn_str e)))
       end).








(** A search result item with the link [url]. *)
Definition linked (url : string) (item : pyval) : Prop :=
  exists fields, item = PDict fields /\ fields !! "link" = Some (PStr url).

(** The text names a PDF: it ends in [.pdf]. *)
Definition is_pdf (url : string) : Prop := exists stem, url = stem ++ ".pdf".

(** A search result item that links to a PDF. *)
Definition pdf_item (item : pyval) : Prop :=
  exists url, linked url item /\ is_pdf url.

(** The keys of a formatted flight. *)
Definition flight_fields : list string :=
  ["airline"; "price"; "duration"; "stops"; "departure"; "arrival";
   "travel_class"; "airline_logo"].

(** A formatted flight: a dict with exactly the eight keys, in which the
    price, the duration, the stops and both airports are strings. *)
Definition flight_shape (record : pyval) : Prop :=
  exists d,
    record = PDict d /\
    dom d = list_to_set flight_fields /\
    Forall (fun k => exists s, d !! k = Some (PStr s))
      ["price"; "duration"; "stops"; "departure"; "arrival"].

(** The flight segments of a raw flight: the list under [flights], if
    any. *)
Definition segments (flight : pyval) : list pyval :=
  match flight with
  | PDict f =>
      match f !! "flights" with
      | Some (PList segs) => segs
      | _ => []
      end
  | _ => []
  end.

Definition has_segments (flight : pyval) : bool :=
  match segments flight with
  | [] => false
  | _ :: _ => true
  end.

(** A raw flight as the provider documents it: a dict whose [flights], if
    present, is a list of dicts. *)
Definition raw_flight (flight : pyval) : Prop :=
  exists f,
    flight = PDict f /\
    (f !! "flights" = None \/
     exists segs, f !! "flights" = Some (PList segs) /\ Forall is_dict segs).

(** The stops of a flight of [n] segments, as a formatted flight words
    them. *)
Definition stops_text `{Externals} (n : nat) : string :=
  match n with
  | 1%nat => "Nonstop"
  | _ => Py.str (PInt (Z.of_nat n - 1)) ++ " stop(s)"
  end.

(** The formatted flight [record] gives the stops of the raw [flight]. *)
Definition stops_of `{Externals} (flight record : pyval) : Prop :=
  exists d,
    record = PDict d /\
    d !! "stops" = Some (PStr (stops_text (length (segments flight)))).

(** The stored access token has expired at the next reading of the clock,
    or none is stored. *)
Definition token_expired (w : World) : Prop :=
  match expires_on w with
  | None => True
  | Some e => e * 1000000 < next (clock w)
  end.

(** The queries of the research loop of [create_itinerary] for a
    destination. *)
Definition search_queries `{Externals} (destination : pyval) : list string :=
  ["Must visit places in " ++ Py.str destination;
   "Crowd favourite places in " ++ Py.str destination;
   "Off beat places in " ++ Py.str destination;
   "Best food, drinks, restaurants to try in " ++ Py.str destination;
   "Best shopping places in " ++ Py.str destination].

(** * Properties *)

(** ** Completeness check *)

Lemma missing_iff (info : gmap string pyval) (f : string) :
  Backend.missing info f = true <->
  info !! f = None \/ exists v, info !! f = Some v /\ Py.truthy v = false.
Proof.
  unfold Backend.missing. destruct (info !! f) as [v|] eqn:E.
  - rewrite negb_true_iff. split.
    + intros Hv. right. exists v. split; [reflexivity | exact Hv].
    + intros [Hn | (v' & Hv' & Hf)]; [discriminate | congruence].
  - split; [intros _; left; reflexivity | reflexivity].
Qed.

Lemma filter_sublist {A} (p : A -> bool) (l : list A) :
  List.filter p l `sublist_of` l.
Proof.
  induction l as [|x l IH]; simpl.
  - constructor.
  - destruct (p x); [apply sublist_skip | apply sublist_cons]; exact IH.
Qed.

Lemma elem_of_get_missing_fields (self : Backend.TravelPlannerBackend) (f : string) :
  f ∈ Backend.get_missing_fields self <->
  f ∈ Backend.required_fields /\
  Backend.missing (Backend.collected_info self) f = true.
Proof.
  unfold Backend.get_missing_fields.
  rewrite !list_elem_of_In. apply filter_In.
Qed.

(** C1 (as amended).  For every record, [get_missing_fields] returns exactly
    the required fields that are absent or falsy, each once, in the order
    the code declares them: source, destination, start_date, end_date,
    number_of_adults, budget_per_person, number_of_children, travel_style.
    With only the destination set, the other seven come back in that
    order. *)
Theorem missing_fields_declared_order (self : Backend.TravelPlannerBackend) :
  (forall f,
     f ∈ Backend.get_missing_fields self <->
     f ∈ Backend.required_fields /\
     (Backend.collected_info self !! f = None \/
      exists v, Backend.collected_info self !! f = Some v /\
                Py.truthy v = false)) /\
  Backend.get_missing_fields self `sublist_of`
    ["source"; "destination"; "start_date"; "end_date"; "number_of_adults";
     "budget_per_person"; "number_of_children"; "travel_style"] /\
  NoDup (Backend.get_missing_fields self) /\
  (forall v,
     Py.truthy v = true ->
     Backend.collected_info self = {[ "destination" := v ]} ->
     Backend.get_missing_fields self =
       ["source"; "start_date"; "end_date"; "number_of_adults";
        "budget_per_person"; "number_of_children"; "travel_style"]).
Proof.
  split; [|split; [|split]].
  - intros f. rewrite elem_of_get_missing_fields, missing_iff. reflexivity.
  - apply (filter_sublist _ Backend.required_fields).
  - eapply sublist_NoDup; [|apply filter_sublist].
    unfold Backend.required_fields. apply NoDup_ListNoDup.
    repeat (constructor; [simpl; intuition discriminate|]). constructor.
  - intros v Hv Hinfo. unfold Backend.get_missing_fields. rewrite Hinfo.
    unfold Backend.required_fields, Backend.missing. simpl.
    rewrite lookup_singleton_eq, Hv. simpl.
    rewrite !lookup_singleton_ne by discriminate. reflexivity.
Qed.

Lemma missing_fields_declared_order_witness :
  Backend.get_missing_fields goa_only =
    ["source"; "start_date"; "end_date"; "number_of_adults";
     "budget_per_person"; "number_of_children"; "travel_style"].
Proof.
  apply (proj2 (proj2 (proj2 (missing_fields_declared_order goa_only)))
           (PStr "Goa")); reflexivity.
Defined.

(** C1 as the specification states it fails: with only the destination
    set, the fields do not come back with number_of_children before
    budget_per_person. *)
Lemma missing_fields_spec_order_refuted :
  Backend.get_missing_fields goa_only <>
    ["source"; "start_date"; "end_date"; "number_of_adults";
     "number_of_children"; "budget_per_person"; "travel_style"] /\
  Backend.get_missing_fields goa_only <>
    List.filter (Backend.missing (Backend.collected_info goa_only))
                spec_required_fields.
Proof. split; vm_compute; discriminate. Qed.

(** ** Merging an extraction *)

Lemma merge_lookup (info collected : gmap string pyval) (k : string) :
  Backend.merge info collected !! k =
  match info !! k with
  | Some v => if Py.truthy v then Some v else collected !! k
  | None => collected !! k
  end.
Proof.
  unfold Backend.merge. rewrite lookup_union.
  destruct (info !! k) as [v|] eqn:E.
  - destruct (Py.truthy v) eqn:T.
    + rewrite (proj2 (map_lookup_filter_Some _ info k v)) by (split; assumption).
      destruct (collected !! k); reflexivity.
    + assert (filter (fun kv => Py.truthy kv.2 = true) info !! k = None) as ->.
      { apply map_lookup_filter_None. right. intros x Hx. simpl.
        rewrite E in Hx. injection Hx as <-. rewrite T. discriminate. }
      destruct (collected !! k); reflexivity.
  - assert (filter (fun kv => Py.truthy kv.2 = true) info !! k = None) as ->.
    { apply map_lookup_filter_None. left. exact E. }
    destruct (collected !! k); reflexivity.
Qed.

Lemma merge_empty (collected : gmap string pyval) :
  Backend.merge ∅ collected = collected.
Proof.
  apply map_eq. intros k. rewrite merge_lookup, lookup_empty. reflexivity.
Qed.

Section Extraction.
Context `{Externals}.

(** What a call of [extract_info_from_input] that returns has done. *)
Lemma extract_returns_inv self user_input w info self' w' :
  Backend.extract_info_from_input self user_input w = (Ok (info, self'), w') ->
  exists reply,
    LLM.inference (extraction_chat self user_input) w = (Ok reply, w') /\
    ((info = ∅ /\ self' = self /\ decode_fails reply) \/
     (Py.find reply "{" <> -1 /\ Py.rfind reply "}" <> -1 /\
      json_loads (info_json reply) = Ok (PDict info) /\
      self' =
        {| Backend.collected_info :=
             Backend.merge info (Backend.collected_info self);
           Backend.conversation_history :=
             Backend.conversation_history self ++
             [Message "user" user_input; Message "assistant" reply] |})).
Proof.
  unfold Backend.extract_info_from_input, extraction_chat, info_json, bind.
  destruct (LLM.inference _ w) as [[reply|e] w1]; [|discriminate].
  intros Hx. exists reply.
  destruct (Py.find reply "{" =? -1) eqn:Ef; simpl in Hx.
  { injection Hx as <- <- <-. split; [reflexivity|]. left.
    split; [reflexivity|]. split; [reflexivity|].
    left. apply Z.eqb_eq. exact Ef. }
  destruct (Py.rfind reply "}" + 1 =? 0) eqn:Er; simpl in Hx.
  { injection Hx as <- <- <-. split; [reflexivity|]. left.
    split; [reflexivity|]. split; [reflexivity|].
    right. left. apply Z.eqb_eq in Er. lia. }
  apply Z.eqb_neq in Ef, Er.
  destruct (json_loads _) as [[]|e] eqn:Ej; try discriminate.
  - injection Hx as <- <- <-. split; [reflexivity|]. right.
    split; [exact Ef|]. split; [lia|]. split; reflexivity.
  - destruct (value_error e) eqn:Ev; [|discriminate].
    injection Hx as <- <- <-. split; [reflexivity|]. left.
    split; [reflexivity|]. split; [reflexivity|]. right. right.
    exists e. split; [exact Ej | exact Ev].
Qed.

Lemma extract_collected self user_input w info self' w' k :
  Backend.extract_info_from_input self user_input w = (Ok (info, self'), w') ->
  Backend.collected_info self' !! k =
  match info !! k with
  | Some v => if Py.truthy v then Some v else Backend.collected_info self !! k
  | None => Backend.collected_info self !! k
  end.
Proof.
  intros Hx. apply extract_returns_inv in Hx as (reply & _ & Hcase).
  destruct Hcase as [(-> & -> & _) | (_ & _ & _ & ->)].
  - rewrite lookup_empty. reflexivity.
  - simpl. apply merge_lookup.
Qed.

Lemma missing_incomplete self f :
  f ∈ Backend.required_fields ->
  Backend.missing (Backend.collected_info self) f = true ->
  Backend.is_info_complete self = false.
Proof.
  intros Hf Hm. unfold Backend.is_info_complete.
  assert (f ∈ Backend.get_missing_fields self) as Hin
    by (apply elem_of_get_missing_fields; split; assumption).
  destruct (Backend.get_missing_fields self); [inversion Hin | reflexivity].
Qed.

(** C10.  The merge keeps only truthy extracted values: after an
    extraction that returns the record [info], a field whose extracted
    value is falsy keeps what the TripRequest held, and one whose value is
    truthy takes it.  An extraction that reports number_of_children as the
    integer 0 leaves a missing number_of_children missing, and the
    completeness check false. *)
Theorem extraction_discards_falsy self user_input w info self' w' :
  Backend.extract_info_from_input self user_input w = (Ok (info, self'), w') ->
  (forall k v, info !! k = Some v -> Py.truthy v = false ->
     Backend.collected_info self' !! k = Backend.collected_info self !! k) /\
  (forall k v, info !! k = Some v -> Py.truthy v = true ->
     Backend.collected_info self' !! k = Some v) /\
  (forall k, info !! k = None ->
     Backend.collected_info self' !! k = Backend.collected_info self !! k) /\
  (info !! "number_of_children" = Some (PInt 0) ->
   "number_of_children" ∈ Backend.get_missing_fields self ->
   "number_of_children" ∈ Backend.get_missing_fields self' /\
   Backend.is_info_complete self' = false).
Proof.
  intros Hx.
  pose proof (fun k => extract_collected _ _ _ _ _ _ k Hx) as Hk.
  split; [|split; [|split]].
  - intros k v Hi Hv. rewrite Hk, Hi, Hv. reflexivity.
  - intros k v Hi Hv. rewrite Hk, Hi, Hv. reflexivity.
  - intros k Hi. rewrite Hk, Hi. reflexivity.
  - intros Hzero Hin.
    apply elem_of_get_missing_fields in Hin as [Hreq Hm].
    assert (Backend.missing (Backend.collected_info self') "number_of_children"
            = true) as Hm'.
    { unfold Backend.missing. rewrite Hk, Hzero. simpl. exact Hm. }
    split.
    + apply elem_of_get_missing_fields. split; assumption.
    + apply (missing_incomplete _ "number_of_children" Hreq Hm').
Qed.

End Extraction.

(** ** What a computation leaves untouched *)

Section Preserves.
Context (R : relation World) `{!PreOrder R}.

Lemma preserves_ret {A} (a : A) : preserves R (ret a).
Proof. intros w. reflexivity. Qed.

Lemma preserves_raise {A} (e : exn) : preserves R (raise (A:=A) e).
Proof. intros w. reflexivity. Qed.

Lemma preserves_lift {A} (r : result A) : preserves R (lift r).
Proof. intros w. reflexivity. Qed.

Lemma preserves_bind {A B} (m : M A) (k : A -> M B) :
  preserves R m -> (forall a, preserves R (k a)) -> preserves R (bind m k).
Proof.
  intros Hm Hk w. unfold bind. specialize (Hm w).
  destruct (m w) as [[a|e] w1]; simpl in *.
  - etransitivity; [exact Hm | apply Hk].
  - exact Hm.
Qed.

Lemma preserves_bind_post {A B} (m : M A) (k : A -> M B) (P : A -> Prop) :
  partial m P -> preserves R m -> (forall a, P a -> preserves R (k a)) ->
  preserves R (bind m k).
Proof.
  intros Hp Hm Hk w. unfold bind. specialize (Hm w).
  destruct (m w) as [[a|e] w1] eqn:E; simpl in *.
  - etransitivity; [exact Hm | apply (Hk a (Hp _ _ _ E))].
  - exact Hm.
Qed.

Lemma preserves_try_except {A} (m : M A) (h : exn -> M A) :
  preserves R m -> (forall e, preserves R (h e)) -> preserves R (try_except m h).
Proof.
  intros Hm Hh w. unfold try_except. specialize (Hm w).
  destruct (m w) as [[a|e] w1]; simpl in *.
  - exact Hm.
  - etransitivity; [exact Hm | apply Hh].
Qed.

End Preserves.

#[local] Instance llm_only_preorder : PreOrder llm_only.
Proof.
  split.
  - intros w. unfold llm_only. repeat (split; [reflexivity|]).
    exists []. split; [symmetry; apply app_nil_r | constructor].
  - intros w1 w2 w3 (F1 & H1 & G1 & P1 & W1 & evs1 & T1 & E1)
                    (F2 & H2 & G2 & P2 & W2 & evs2 & T2 & E2).
    unfold llm_only.
    split; [congruence|]. split; [congruence|]. split; [congruence|].
    split; [congruence|]. split; [congruence|].
    exists (evs1 ++ evs2)%list. split.
    + rewrite T2, T1. symmetry. apply app_assoc.
    + apply Forall_app. split; assumption.
Qed.

Ltac llm_only_prim evs :=
  intros w; unfold llm_only; simpl;
  repeat (split; [reflexivity|]);
  exists evs; split;
  [ try reflexivity; symmetry; apply app_nil_r
  | repeat constructor ].

Lemma now_llm_only : preserves llm_only now.
Proof. llm_only_prim (@nil event). Qed.

Lemma get_token_llm_only : preserves llm_only get_token.
Proof. llm_only_prim [EvCredential]. Qed.

Lemma set_expires_on_llm_only e : preserves llm_only (set_expires_on e).
Proof. llm_only_prim (@nil event). Qed.

Lemma invoke_llm_only p : preserves llm_only (invoke p).
Proof. llm_only_prim [EvInvoke p]. Qed.

(** ** The model client *)

Lemma is_token_expired_llm_only : preserves llm_only LLM.is_token_expired.
Proof.
  intros w. unfold LLM.is_token_expired.
  destruct (expires_on w) as [e|].
  - apply (preserves_bind llm_only); [apply now_llm_only|].
    intros t. apply preserves_ret. typeclasses eauto.
  - reflexivity.
Qed.

Lemma token_loop_llm_only n : preserves llm_only (LLM.token_loop n).
Proof.
  induction n as [|n IH]; simpl.
  - apply preserves_ret. typeclasses eauto.
  - apply preserves_bind; [typeclasses eauto | apply get_token_llm_only |].
    intros [t|]; [apply preserves_ret; typeclasses eauto | exact IH].
Qed.

Lemma update_access_token_llm_only : preserves llm_only LLM.update_access_token.
Proof.
  unfold LLM.update_access_token.
  apply preserves_bind; [typeclasses eauto | apply token_loop_llm_only |].
  intros [e|]; [apply set_expires_on_llm_only | apply preserves_raise; typeclasses eauto].
Qed.

Lemma attempt_llm_only p : preserves llm_only (LLM.attempt p).
Proof.
  unfold LLM.attempt.
  apply preserves_bind; [typeclasses eauto | apply is_token_expired_llm_only |].
  intros expired.
  apply preserves_bind; [typeclasses eauto | | intros _; apply invoke_llm_only].
  destruct expired;
    [apply update_access_token_llm_only | apply preserves_ret; typeclasses eauto].
Qed.

Lemma inference_loop_llm_only n p : preserves llm_only (LLM.inference_loop n p).
Proof.
  induction n as [|n IH]; simpl.
  - apply preserves_ret. typeclasses eauto.
  - apply preserves_try_except; [typeclasses eauto | | intros _; exact IH].
    apply preserves_bind; [typeclasses eauto | apply attempt_llm_only |].
    intros r. apply preserves_ret. typeclasses eauto.
Qed.

Lemma inference_llm_only p : preserves llm_only (LLM.inference p).
Proof.
  unfold LLM.inference.
  apply preserves_bind; [typeclasses eauto | apply inference_loop_llm_only |].
  intros [text|]; [apply preserves_ret | apply preserves_raise]; typeclasses eauto.
Qed.

(** The retry loop never lets an exception out: it ends with [response]
    bound, or unbound. *)
Lemma inference_loop_returns n p w :
  exists r, (LLM.inference_loop n p w).1 = Ok r.
Proof.
  revert w. induction n as [|n IH]; intros w; simpl.
  - exists None. reflexivity.
  - unfold try_except, bind.
    destruct (LLM.attempt p w) as [[r|e] w1]; simpl.
    + exists (Some r). reflexivity.
    + apply IH.
Qed.

(** An attempt calls the model at most once. *)
Lemma attempt_invocations p w :
  (asked (model (LLM.attempt p w).2) <= S (asked (model w)))%nat.
Proof.
  assert (forall n w, asked (model (LLM.token_loop n w).2) = asked (model w)) as Htok.
  { induction n as [|n IH]; intros w0; simpl; [reflexivity|].
    unfold bind, get_token. simpl.
    destruct (next (credential w0)); simpl; [reflexivity|].
    rewrite IH. reflexivity. }
  assert (forall w, asked (model (LLM.update_access_token w).2) = asked (model w))
    as Hupd.
  { intros w0. unfold LLM.update_access_token, bind.
    specialize (Htok LLM.max_retries w0).
    destruct (LLM.token_loop LLM.max_retries w0) as [[[e|]|e] w1]; simpl in *;
      exact Htok. }
  assert (forall w, asked (model (LLM.is_token_expired w).2) = asked (model w))
    as Hexp.
  { intros w0. unfold LLM.is_token_expired.
    destruct (expires_on w0); reflexivity. }
  unfold LLM.attempt, bind.
  specialize (Hexp w).
  destruct (LLM.is_token_expired w) as [[expired|e] w1]; simpl in *; [|lia].
  destruct expired.
  - specialize (Hupd w1).
    destruct (LLM.update_access_token w1) as [[[]|e] w2]; simpl in *; lia.
  - simpl. lia.
Qed.

Lemma inference_loop_invocations n p w :
  (asked (model (LLM.inference_loop n p w).2) <= asked (model w) + n)%nat.
Proof.
  revert w. induction n as [|n IH]; intros w; simpl.
  - lia.
  - unfold try_except, bind.
    pose proof (attempt_invocations p w) as Ha.
    destruct (LLM.attempt p w) as [[r|e] w1]; simpl in *.
    + lia.
    + specialize (IH w1). lia.
Qed.

(** The part of C2 that holds for every call: at most five calls of the
    model, and an outcome that is the reply or the unbound [response]; what
    the transport raised is never what the caller sees. *)
Lemma inference_outcomes p w :
  (asked (model (LLM.inference p w).2) <= asked (model w) + 5)%nat /\
  ((exists text, (LLM.inference p w).1 = Ok text) \/
   (LLM.inference p w).1 = Raise (UnboundLocalError "response")).
Proof.
  unfold LLM.inference, bind.
  pose proof (inference_loop_invocations LLM.max_retries p w) as Hn.
  destruct (inference_loop_returns LLM.max_retries p w) as [r Hr].
  destruct (LLM.inference_loop LLM.max_retries p w) as [[r'|e] w1];
    simpl in *; [|discriminate].
  destruct r' as [text|]; simpl.
  - split; [exact Hn | left; exists text; reflexivity].
  - split; [exact Hn | right; reflexivity].
Qed.

(** C2 at the input that defeats it: with the model unreachable,
    [inference] calls it five times and then fails with the
    [UnboundLocalError] of its own unassigned local [response], not with a
    failure that says the retries are exhausted. *)
Theorem inference_exhausted_unbound_local :
  (LLM.inference (Text "Hello") offline).1 = Raise (UnboundLocalError "response") /\
  asked (model (LLM.inference (Text "Hello") offline).2) = 5%nat /\
  trace (LLM.inference (Text "Hello") offline).2 =
    [EvInvoke (Text "Hello"); EvInvoke (Text "Hello"); EvInvoke (Text "Hello");
     EvInvoke (Text "Hello"); EvInvoke (Text "Hello")].
Proof. vm_compute. repeat split. Qed.

(** ** Total and partial correctness of a computation *)

Lemma total_partial {A} (m : M A) (Q : A -> Prop) : total m Q -> partial m Q.
Proof.
  intros Ht w a w' Hm. destruct (Ht w) as (a0 & w0 & Hm0 & Hq). congruence.
Qed.

Lemma partial_ret {A} (a : A) (Q : A -> Prop) : Q a -> partial (ret a) Q.
Proof. intros Hq w a0 w' [= <- <-]. exact Hq. Qed.

Lemma partial_raise {A} (e : exn) (Q : A -> Prop) : partial (raise e) Q.
Proof. intros w a w' Hm. discriminate. Qed.

Lemma partial_bind {A B} (m : M A) (k : A -> M B) (P : A -> Prop) (Q : B -> Prop) :
  partial m P -> (forall a, P a -> partial (k a) Q) -> partial (bind m k) Q.
Proof.
  intros Hm Hk w b w'. unfold bind.
  destruct (m w) as [[a|e] w1] eqn:E; [|discriminate].
  apply (Hk a (Hm _ _ _ E)).
Qed.

Lemma partial_try_except {A} (m : M A) (h : exn -> M A) (Q : A -> Prop) :
  partial m Q -> (forall e, partial (h e) Q) -> partial (try_except m h) Q.
Proof.
  intros Hm Hh w a w'. unfold try_except.
  destruct (m w) as [[a0|e] w1] eqn:E.
  - intros [= <- <-]. exact (Hm _ _ _ E).
  - apply Hh.
Qed.

Lemma partial_weaken {A} (m : M A) (P Q : A -> Prop) :
  partial m P -> (forall a, P a -> Q a) -> partial m Q.
Proof. intros Hm Hpq w a w' E. apply Hpq, (Hm _ _ _ E). Qed.

Lemma partial_true {A} (m : M A) : partial m (fun _ => True).
Proof. intros w a w' _. exact I. Qed.

Lemma total_ret {A} (a : A) (Q : A -> Prop) : Q a -> total (ret a) Q.
Proof. intros Hq w. exists a, w. split; [reflexivity | exact Hq]. Qed.

Lemma total_bind {A B} (m : M A) (k : A -> M B) (P : A -> Prop) (Q : B -> Prop) :
  total m P -> (forall a, P a -> total (k a) Q) -> total (bind m k) Q.
Proof.
  intros Hm Hk w. unfold bind.
  destruct (Hm w) as (a & w1 & -> & Hp). apply (Hk a Hp).
Qed.

(** A [try] whose handler returns never lets an exception out. *)
Lemma total_try_except {A} (m : M A) (h : exn -> M A) (Q : A -> Prop) :
  partial m Q -> (forall e, total (h e) Q) -> total (try_except m h) Q.
Proof.
  intros Hm Hh w. unfold try_except.
  destruct (m w) as [[a|e] w1] eqn:E.
  - exists a, w1. split; [reflexivity | exact (Hm _ _ _ E)].
  - apply Hh.
Qed.

Lemma total_weaken {A} (m : M A) (P Q : A -> Prop) :
  total m P -> (forall a, P a -> Q a) -> total m Q.
Proof.
  intros Hm Hpq w. destruct (Hm w) as (a & w' & E & Hp).
  exists a, w'. split; [exact E | apply Hpq, Hp].
Qed.

(** ** The adapters and the ranking steps never raise *)

Section Adapters.
Context `{Externals}.

Lemma error_dict_is_dict msg : is_dict (Backend.error_dict msg).
Proof. eexists. reflexivity. Qed.

Lemma get_flights_info_total self :
  total (Backend.get_flights_info self) is_dict.
Proof.
  unfold Backend.get_flights_info.
  apply total_try_except;
    [|intros e; apply total_ret, error_dict_is_dict].
  repeat (eapply partial_bind; [apply partial_true|]; intros ? _).
  destruct (Backend.is_na _); [apply partial_ret, error_dict_is_dict|].
  repeat (eapply partial_bind; [apply partial_true|]; intros ? _).
  destruct (Backend.is_na _); [apply partial_ret, error_dict_is_dict|].
  repeat (eapply partial_bind; [apply partial_true|]; intros ? _).
  apply partial_ret. eexists. reflexivity.
Qed.

Lemma get_hotels_info_total self :
  total (Backend.get_hotels_info self) (fun _ => True).
Proof.
  apply total_try_except; [apply partial_true|].
  intros e. apply total_ret. exact I.
Qed.

Lemma find_best_flight_total self flights_info :
  total (Backend.find_best_flight self flights_info) (fun _ => True).
Proof.
  apply total_try_except; [apply partial_true|].
  intros e. apply total_ret. exact I.
Qed.

Lemma get_best_hotels_total self hotels_info :
  total (Backend.get_best_hotels self hotels_info) (fun _ => True).
Proof.
  apply total_try_except; [apply partial_true|].
  intros e. apply total_ret. exact I.
Qed.

Lemma create_itinerary_total self flights_info hotels_info :
  total (Backend.create_itinerary self flights_info hotels_info) (fun _ => True).
Proof.
  apply total_try_except; [apply partial_true|].
  intros e. apply total_ret. exact I.
Qed.

End Adapters.

(** ** The steps of the conversation driver *)

Section Driver.
Context `{Externals}.

Lemma flights_step_total st :
  total (App.flights_step st)
    (fun st' => App.backend st' = App.backend st /\
                clean_flights (App.flights_info st')).
Proof.
  unfold App.flights_step.
  eapply total_bind; [apply get_flights_info_total|].
  intros v [d ->] w. unfold bind, lift. simpl.
  destruct (d !! "error") as [e|] eqn:E; simpl.
  - eexists _, w. split; [reflexivity|]. simpl.
    split; [reflexivity | left; reflexivity].
  - eexists _, w. split; [reflexivity|]. simpl.
    split; [reflexivity | right; exists d; split; [reflexivity | exact E]].
Qed.

Lemma hotels_step_total st :
  total (App.hotels_step st)
    (fun st' => App.backend st' = App.backend st /\
                App.flights_info st' = App.flights_info st).
Proof.
  unfold App.hotels_step.
  eapply total_bind; [apply get_hotels_info_total|].
  intros v _ w. unfold bind, lift.
  destruct v as [| | | | | |d]; simpl;
    try (eexists _, w; split; [reflexivity|]; simpl; split; reflexivity).
  destruct (d !! "error") as [e|] eqn:E; simpl;
    eexists _, w; (split; [reflexivity|]); simpl; split; reflexivity.
Qed.

Lemma best_flights_step_total st :
  clean_flights (App.flights_info st) ->
  total (App.best_flights_step st)
    (fun r => App.backend r.2 = App.backend st /\
              App.hotels_info r.2 = App.hotels_info st).
Proof.
  intros Hclean. unfold App.best_flights_step.
  destruct Hclean as [-> | (d & -> & Hd)]; simpl.
  - intros w. eexists _, w. split; [reflexivity | split; reflexivity].
  - destruct (negb (size d =? 0)%nat).
    + unfold lift, bind at 1 2. simpl. rewrite Hd. simpl.
      eapply total_bind; [apply find_best_flight_total|].
      intros best _.
      destruct (negb (Py.contains "error" (Py.str best)));
        apply total_ret; split; reflexivity.
    + intros w. eexists _, w. split; [reflexivity | split; reflexivity].
Qed.

Lemma best_hotels_step_total st :
  total (App.best_hotels_step st)
    (fun r => App.backend r.2 = App.backend st /\
              App.hotels_info r.2 = App.hotels_info st).
Proof.
  unfold App.best_hotels_step.
  destruct (_ && _).
  - eapply total_bind; [apply get_best_hotels_total|].
    intros best _.
    destruct (negb (Py.contains "error" (Py.str best)));
      apply total_ret; split; reflexivity.
  - apply total_ret. split; reflexivity.
Qed.

Lemma flights_step_world st w :
  exists st1,
    App.flights_step st w = (Ok st1, (Backend.get_flights_info (App.backend st) w).2) /\
    App.backend st1 = App.backend st /\
    clean_flights (App.flights_info st1).
Proof.
  unfold App.flights_step, bind.
  destruct (get_flights_info_total (App.backend st) w) as (v & w1 & -> & d & ->).
  unfold lift. simpl.
  destruct (d !! "error") as [e|] eqn:E; simpl.
  - eexists. split; [reflexivity|]. simpl.
    split; [reflexivity | left; reflexivity].
  - eexists. split; [reflexivity|]. simpl.
    split; [reflexivity | right; exists d; split; [reflexivity | exact E]].
Qed.

Lemma hotels_step_world st w hotels w2 :
  Backend.get_hotels_info (App.backend st) w = (Ok hotels, w2) ->
  exists st2,
    App.hotels_step st w = (Ok st2, w2) /\
    App.hotels_info st2 = kept_hotels hotels /\
    App.flights_info st2 = App.flights_info st /\
    App.backend st2 = App.backend st.
Proof.
  intros Hh. unfold App.hotels_step, bind. rewrite Hh. unfold lift.
  destruct hotels as [| | | | | |d]; simpl;
    try (eexists; split; [reflexivity|]; simpl; repeat split; reflexivity).
  destruct (d !! "error") as [e|] eqn:E; simpl;
    (eexists; split; [reflexivity|]); simpl; rewrite ?E;
    (split; [reflexivity|]); split; reflexivity.
Qed.

(** [search_flights_and_hotels] always runs to its end, whatever the
    adapters and the ranking steps met, and leaves the stage at
    [creating_itinerary] and the backend as it was. *)
Lemma search_flights_and_hotels_total st :
  total (App.search_flights_and_hotels st)
    (fun st' => App.current_stage st' = App.creating_itinerary /\
                App.backend st' = App.backend st).
Proof.
  unfold App.search_flights_and_hotels.
  eapply total_bind; [apply flights_step_total|].
  intros st1 [Hb1 Hc1].
  eapply total_bind; [apply hotels_step_total|].
  intros st2 [Hb2 Hf2].
  eapply total_bind;
    [apply best_flights_step_total; rewrite Hf2; exact Hc1|].
  intros [bf st3] [Hb3 _]. simpl in Hb3.
  eapply total_bind; [apply best_hotels_step_total|].
  intros [bh st4] [Hb4 _]. simpl in Hb4.
  apply total_ret. simpl. split; [reflexivity | congruence].
Qed.

(** The hotel search runs after the flight search whatever that one
    returned, on the same TripRequest, and the session keeps its result. *)
Lemma search_keeps_hotels st w flights w1 hotels w2 :
  Backend.get_flights_info (App.backend st) w = (flights, w1) ->
  Backend.get_hotels_info (App.backend st) w1 = (Ok hotels, w2) ->
  exists st' w',
    App.search_flights_and_hotels st w = (Ok st', w') /\
    App.hotels_info st' = kept_hotels hotels.
Proof.
  intros Hf Hh. unfold App.search_flights_and_hotels, bind.
  destruct (flights_step_world st w) as (st1 & -> & Hb1 & Hc1).
  rewrite Hf. simpl. rewrite <- Hb1 in Hh.
  destruct (hotels_step_world st1 w1 hotels w2 Hh) as (st2 & -> & Hk & Hf2 & Hb2).
  rewrite <- Hf2 in Hc1.
  destruct (best_flights_step_total st2 Hc1 w2) as ([bf st3] & w3 & -> & _ & Hh3).
  destruct (best_hotels_step_total st3 w3) as ([bh st4] & w4 & -> & _ & Hh4).
  simpl in *. eexists _, _. split; [reflexivity|]. simpl. congruence.
Qed.

(** [create_itinerary] always runs to its end and leaves the stage at
    [completed]. *)
Lemma create_itinerary_app_total st :
  total (App.create_itinerary st)
    (fun st' => App.current_stage st' = App.completed /\
                App.backend st' = App.backend st).
Proof.
  unfold App.create_itinerary.
  eapply total_bind; [apply create_itinerary_total|].
  intros itinerary _. apply total_ret. simpl. split; reflexivity.
Qed.

Lemma then_rerun_total step st w (Q : App.SessionState -> Prop) :
  total (step st) Q ->
  exists st' w', App.then_rerun step st w = (App.Rerun, st', w') /\ Q st'.
Proof.
  intros Ht. unfold App.then_rerun.
  destruct (Ht w) as (st' & w' & -> & Hq). exists st', w'.
  split; [reflexivity | exact Hq].
Qed.

(** What [process_user_input] does in the stage [collecting_info]. *)
Lemma process_user_input_collecting user_input st w :
  App.current_stage st = App.collecting_info ->
  match Backend.extract_info_from_input (App.backend st) user_input w with
  | (Raise e, w1) =>
      exists st',
        App.process_user_input user_input st w = (App.Failed e, st', w1) /\
        App.current_stage st' = App.collecting_info /\
        App.backend st' = App.backend st
  | (Ok (info, b'), w1) =>
      exists o st',
        App.process_user_input user_input st w = (o, st', w1) /\
        App.backend st' = b' /\
        App.current_stage st' =
          (if Backend.is_info_complete b' then App.searching_flights_hotels
           else App.collecting_info)
  end.
Proof.
  intros Hs. unfold App.process_user_input. simpl. rewrite Hs.
  destruct (Backend.extract_info_from_input _ _ _) as [[[info b']|e] w1].
  - simpl. destruct (Backend.is_info_complete b');
      eexists _, _; (split; [reflexivity|]); simpl; split; try reflexivity.
    exact Hs.
  - eexists. split; [reflexivity|]. simpl. split; [exact Hs | reflexivity].
Qed.

Lemma forward_step_same st st' :
  App.current_stage st' = App.current_stage st ->
  App.backend st' = App.backend st ->
  forward_step st st'.
Proof.
  intros Hs Hb. split; [left; exact Hs|]. intros f. rewrite Hb. auto.
Qed.

Lemma extract_keeps_set self user_input w info self' w' f :
  Backend.extract_info_from_input self user_input w = (Ok (info, self'), w') ->
  is_set (Backend.collected_info self) f ->
  is_set (Backend.collected_info self') f.
Proof.
  intros Hx (v & Hv & Ht). unfold is_set.
  rewrite (extract_collected _ _ _ _ _ _ f Hx).
  destruct (info !! f) as [x|]; [|exists v; split; assumption].
  destruct (Py.truthy x) eqn:Tx; [|exists v; split; assumption].
  exists x. split; [reflexivity | exact Tx].
Qed.

Lemma process_user_input_forward user_input st w :
  App.current_stage st = App.collecting_info ->
  forward_step st (App.process_user_input user_input st w).1.2.
Proof.
  intros Hs.
  pose proof (process_user_input_collecting user_input st w Hs) as Hp.
  destruct (Backend.extract_info_from_input _ _ _) as [[[info b']|e] w1] eqn:Ex.
  - destruct Hp as (o & st' & -> & Hb & Hst). simpl. split.
    + rewrite Hst, Hs. destruct (Backend.is_info_complete b');
        [right | left]; reflexivity.
    + intros f. rewrite Hb. apply (extract_keeps_set _ _ _ _ _ _ f Ex).
  - destruct Hp as (st' & -> & Hst & Hb). simpl.
    apply forward_step_same; [congruence | exact Hb].
Qed.

Lemma follow_up_forward prompt st w :
  forward_step st (App.follow_up prompt st w).1.2.
Proof.
  unfold App.follow_up.
  destruct (LLM.inference _ w) as [[response|e] w1]; simpl;
    apply forward_step_same; reflexivity.
Qed.

Lemma main_forward a st w :
  a <> App.StartNewTrip -> forward_step st (App.main a st w).1.2.
Proof.
  intros Ha. unfold App.main.
  destruct a as [| |text]; [|congruence|];
    (destruct (App.messages st) as [|m ms];
     [apply forward_step_same; reflexivity|]);
    destruct (App.current_stage st) eqn:Es;
    try (destruct (then_rerun_total _ st w _ (search_flights_and_hotels_total st))
           as (st' & w' & -> & Hst & Hb); simpl;
         split; [right; rewrite Hst, Es; reflexivity | intros f; rewrite Hb; auto]);
    try (destruct (then_rerun_total _ st w _ (create_itinerary_app_total st))
           as (st' & w' & -> & Hst & Hb); simpl;
         split; [right; rewrite Hst, Es; reflexivity | intros f; rewrite Hb; auto]);
    unfold App.chat_enabled; rewrite Es;
    try (apply forward_step_same; reflexivity);
    try (destruct (App.itinerary_ready st); apply forward_step_same; reflexivity).
  - destruct text as [|c rest]; [apply forward_step_same; reflexivity|].
    pose proof (process_user_input_forward (String c rest) st w Es) as Hf.
    destruct (App.process_user_input _ st w) as [[o st'] w']. exact Hf.
  - destruct (App.itinerary_ready st); [|apply forward_step_same; reflexivity].
    destruct text as [|c rest]; [apply forward_step_same; reflexivity|].
    apply follow_up_forward.
Qed.

Lemma forward_step_trans st1 st2 st3 :
  forward_step st1 st2 -> forward_step st2 st3 ->
  (stage_rank (App.current_stage st1) <= stage_rank (App.current_stage st3))%nat /\
  (forall f, is_set (Backend.collected_info (App.backend st1)) f ->
             is_set (Backend.collected_info (App.backend st3)) f).
Proof.
  intros [S1 F1] [S2 F2]. split; [|auto].
  destruct S1 as [E1 | E1], S2 as [E2 | E2]; rewrite E2, E1;
    destruct (App.current_stage st1); simpl; lia.
Qed.

Lemma run_forward actions st w :
  App.StartNewTrip ∉ actions ->
  (stage_rank (App.current_stage st) <=
   stage_rank (App.current_stage (App.run actions st w).1))%nat /\
  (forall f, is_set (Backend.collected_info (App.backend st)) f ->
             is_set (Backend.collected_info
                       (App.backend (App.run actions st w).1)) f).
Proof.
  revert st w. induction actions as [|a rest IH]; intros st w Hno; simpl.
  - split; [lia | auto].
  - apply not_elem_of_cons in Hno as [Ha Hrest].
    pose proof (main_forward a st w (not_eq_sym Ha)) as [S1 F1].
    destruct (App.main a st w) as [[o st1] w1]. simpl in S1, F1.
    destruct (IH st1 w1 Hrest) as [S2 F2]. split; [|auto].
    destruct S1 as [E | E]; rewrite E in S2;
      destruct (App.current_stage st); simpl in *; lia.
Qed.

Lemma main_runs_stage_work a st w :
  a <> App.StartNewTrip ->
  App.messages st <> [] ->
  (App.current_stage st = App.searching_flights_hotels ->
   App.current_stage (App.main a st w).1.2 = App.creating_itinerary) /\
  (App.current_stage st = App.creating_itinerary ->
   App.current_stage (App.main a st w).1.2 = App.completed).
Proof.
  intros Ha Hm. unfold App.main.
  destruct a as [| |text]; [|congruence|];
    (destruct (App.messages st) as [|m ms]; [congruence|]);
    split; intros ->.
  all: try (destruct (then_rerun_total _ st w _ (search_flights_and_hotels_total st))
              as (st' & w' & -> & Hst & Hb); exact Hst).
  all: destruct (then_rerun_total _ st w _ (create_itinerary_app_total st))
         as (st' & w' & -> & Hst & Hb); exact Hst.
Qed.

(** C7.  The stage only moves forward.  From [collecting_info] it moves
    to [searching_flights_hotels] exactly when an extraction returned and
    the completeness check then holds; [search_flights_and_hotels] and
    [create_itinerary] always run to their end, whatever failed inside
    them, and leave the stage at [creating_itinerary] and [completed]; a
    run of the script other than the reset keeps the stage or moves it to
    the next one, so no sequence of runs without a reset moves it back. *)
Theorem stage_forward_only :
  (forall user_input st w,
     App.current_stage st = App.collecting_info ->
     (App.current_stage (App.process_user_input user_input st w).1.2 =
        App.searching_flights_hotels <->
      exists info b' w1,
        Backend.extract_info_from_input (App.backend st) user_input w =
          (Ok (info, b'), w1) /\
        Backend.is_info_complete b' = true) /\
     (App.current_stage (App.process_user_input user_input st w).1.2 =
        App.searching_flights_hotels \/
      App.current_stage (App.process_user_input user_input st w).1.2 =
        App.collecting_info)) /\
  (forall st,
     total (App.search_flights_and_hotels st)
       (fun st' => App.current_stage st' = App.creating_itinerary)) /\
  (forall st,
     total (App.create_itinerary st)
       (fun st' => App.current_stage st' = App.completed)) /\
  (forall a st w,
     a <> App.StartNewTrip ->
     App.messages st <> [] ->
     (App.current_stage st = App.searching_flights_hotels ->
      App.current_stage (App.main a st w).1.2 = App.creating_itinerary) /\
     (App.current_stage st = App.creating_itinerary ->
      App.current_stage (App.main a st w).1.2 = App.completed)) /\
  (forall a st w,
     a <> App.StartNewTrip ->
     App.current_stage (App.main a st w).1.2 = App.current_stage st \/
     App.current_stage (App.main a st w).1.2 =
       next_stage (App.current_stage st)) /\
  (forall actions st w,
     App.StartNewTrip ∉ actions ->
     (stage_rank (App.current_stage st) <=
      stage_rank (App.current_stage (App.run actions st w).1))%nat).
Proof.
  split; [|split; [|split; [|split; [|split]]]].
  - intros user_input st w Hs.
    pose proof (process_user_input_collecting user_input st w Hs) as Hp.
    destruct (Backend.extract_info_from_input _ _ _) as [[[info b']|e] w1].
    + destruct Hp as (o & st' & -> & Hb & Hst). simpl. rewrite Hst. split.
      * split.
        -- intros Hc. exists info, b', w1. split; [reflexivity|].
           destruct (Backend.is_info_complete b'); [reflexivity | discriminate].
        -- intros (i & b & w2 & [= <- <- <-] & ->). reflexivity.
      * destruct (Backend.is_info_complete b'); [left | right]; reflexivity.
    + destruct Hp as (st' & -> & Hst & Hb). simpl. rewrite Hst. split.
      * split; [discriminate |].
        intros (i & b & w2 & Hx & _). discriminate.
      * right. reflexivity.
  - intros st. eapply total_weaken; [apply search_flights_and_hotels_total|].
    intros st' [Hst _]. exact Hst.
  - intros st. eapply total_weaken; [apply create_itinerary_app_total|].
    intros st' [Hst _]. exact Hst.
  - apply main_runs_stage_work.
  - intros a st w Ha. apply (main_forward a st w Ha).
  - intros actions st w Hno. apply (run_forward actions st w Hno).
Qed.

(** C4.  Merge is monotonic.  An extraction keeps set every field that
    was set, and leaves a field exactly as it was when the parsed record
    omits it or maps it to a falsy value; every run of the script other
    than the reset, and so every sequence of such runs, keeps every set
    field set. *)
Theorem merge_is_monotonic :
  (forall self user_input w info self' w' f,
     Backend.extract_info_from_input self user_input w =
       (Ok (info, self'), w') ->
     is_set (Backend.collected_info self) f ->
     is_set (Backend.collected_info self') f /\
     ((info !! f = None \/
       exists v, info !! f = Some v /\ Py.truthy v = false) ->
      Backend.collected_info self' !! f = Backend.collected_info self !! f)) /\
  (forall a st w f,
     a <> App.StartNewTrip ->
     is_set (Backend.collected_info (App.backend st)) f ->
     is_set (Backend.collected_info (App.backend (App.main a st w).1.2)) f) /\
  (forall actions st w f,
     App.StartNewTrip ∉ actions ->
     is_set (Backend.collected_info (App.backend st)) f ->
     is_set (Backend.collected_info (App.backend (App.run actions st w).1)) f).
Proof.
  split; [|split].
  - intros self user_input w info self' w' f Hx Hset. split.
    + apply (extract_keeps_set _ _ _ _ _ _ f Hx Hset).
    + rewrite (extract_collected _ _ _ _ _ _ f Hx).
      intros [-> | (v & -> & ->)]; reflexivity.
  - intros a st w f Ha. apply (main_forward a st w Ha).
  - intros actions st w f Hno. apply (run_forward actions st w Hno).
Qed.

End Driver.

(** C3 at the input that defeats it: after the search step of a trip has
    stored its best flight and hotel, the reset leaves both in the session,
    which is therefore not the initial one. *)
Theorem reset_keeps_best_selections :
  App.best_flights searched_trip = Some best_flight_value /\
  App.best_flights (App.reset_session searched_trip) = Some best_flight_value /\
  App.best_hotels (App.reset_session searched_trip) = Some best_hotel_value /\
  App.best_flights App.initialize_session_state = None /\
  App.reset_session searched_trip <> App.initialize_session_state.
Proof.
  assert (App.best_flights searched_trip = Some best_flight_value) as Hf
    by (vm_compute; reflexivity).
  assert (App.best_hotels searched_trip = Some best_hotel_value) as Hh
    by (vm_compute; reflexivity).
  split; [exact Hf|]. split; [exact Hf|]. split; [exact Hh|].
  split; [reflexivity|].
  intros Heq. apply (f_equal App.best_flights) in Heq.
  change (App.best_flights searched_trip = None) in Heq.
  rewrite Hf in Heq. discriminate.
Qed.

(** What the reset does clear. *)
Lemma reset_session_clears st :
  App.backend (App.reset_session st) = Backend.init /\
  App.messages (App.reset_session st) = [] /\
  App.current_stage (App.reset_session st) = App.collecting_info /\
  App.flights_info (App.reset_session st) = PNone /\
  App.hotels_info (App.reset_session st) = PNone /\
  App.itinerary_ready (App.reset_session st) = false /\
  App.best_flights (App.reset_session st) = App.best_flights st /\
  App.best_hotels (App.reset_session st) = App.best_hotels st.
Proof. repeat (split; [reflexivity|]). reflexivity. Qed.

(** ** The hotel adapter *)

Lemma substring_drop_last s :
  String.substring 0 (Nat.pred (String.length s)) s = drop_last s.
Proof.
  induction s as [|c s IH]; [reflexivity|].
  destruct s as [|c' s']; [reflexivity|].
  simpl in IH |- *. rewrite IH. reflexivity.
Qed.

Lemma slice_drop_last s : Py.slice s 0 (-1) = drop_last s.
Proof.
  unfold Py.slice, Py.clamp, Py.len. simpl.
  replace (Z.to_nat (0 `max` (Z.of_nat (String.length s) `min` 0)))
    with 0%nat by lia.
  replace (Z.to_nat
             (0 `max` (Z.of_nat (String.length s)
                       `min` (-1 + Z.of_nat (String.length s))) -
              0 `max` (Z.of_nat (String.length s) `min` 0)))
    with (Nat.pred (String.length s)) by lia.
  apply substring_drop_last.
Qed.

Lemma drop_last_repeat (k : nat) :
  drop_last (Nat.iter (S k) (fun acc => "8," ++ acc) EmptyString) =
  Py.join "," (replicate (S k) "8").
Proof.
  induction k as [|k IH]; [reflexivity|].
  change (Nat.iter (S (S k)) (fun acc => "8," ++ acc) EmptyString)
    with ("8," ++ Nat.iter (S k) (fun acc => "8," ++ acc) EmptyString).
  change (Py.join "," (replicate (S (S k)) "8"))
    with ("8" ++ "," ++ Py.join "," (replicate (S k) "8")).
  rewrite <- IH. reflexivity.
Qed.

Lemma repeat_inv `{Externals} s n r :
  Py.repeat s n = Ok r ->
  r = Nat.iter (Z.to_nat n) (fun acc => s ++ acc) EmptyString.
Proof.
  unfold Py.repeat.
  destruct ((n <? - Py.ssize_max - 1) || (Py.ssize_max <? n)); [discriminate|].
  destruct (Z.ltb_spec n 1) as [Hn|Hn].
  { intros [= <-]. replace (Z.to_nat n) with O by lia. reflexivity. }
  destruct (Z.eqb_spec n 1) as [->|Hn1].
  { intros [= <-]. change (Z.to_nat 1) with 1%nat.
    change (Nat.iter 1 (fun acc => s ++ acc) EmptyString) with (s ++ EmptyString).
    clear. induction s as [|c s IH]; [reflexivity|].
    change (String c s ++ EmptyString) with (String c (s ++ EmptyString)).
    rewrite <- IH. reflexivity. }
  destruct (Py.ssize_max / n <? Py.char_len s); [discriminate|].
  destruct (max_str_len <? Py.char_len s * n); [discriminate|].
  intros [= <-]. reflexivity.
Qed.

(** When the placeholder string for [n] children can be built. *)
Lemma repeat_placeholder `{Externals} n :
  (0 <= n -> 2 * n <= Py.ssize_max -> (2 <= n -> 2 * n <= max_str_len) ->
   exists r, Py.repeat "8," n = Ok r) /\
  (Py.ssize_max < 2 * n -> Py.repeat "8," n = Raise OverflowError) /\
  (2 <= n -> 2 * n <= Py.ssize_max -> max_str_len < 2 * n ->
   Py.repeat "8," n = Raise MemoryError).
Proof.
  assert (Py.ssize_max = 9223372036854775807) as Hmax by reflexivity.
  unfold Py.repeat. change (Py.char_len "8,") with 2.
  split; [|split].
  - intros H0 Hs Hm.
    destruct (Z.ltb_spec n (- Py.ssize_max - 1)); [lia|].
    destruct (Z.ltb_spec Py.ssize_max n); [lia|]. cbn [orb].
    destruct (Z.ltb_spec n 1); [eexists; reflexivity|].
    destruct (Z.eqb_spec n 1); [eexists; reflexivity|].
    destruct (Z.ltb_spec (Py.ssize_max / n) 2) as [Hd|Hd].
    { exfalso. assert (2 <= Py.ssize_max / n); [|lia].
      apply Z.div_le_lower_bound; lia. }
    specialize (Hm ltac:(lia)).
    destruct (Z.ltb_spec max_str_len (2 * n)); [lia|]. eexists; reflexivity.
  - intros Hs.
    destruct (Z.ltb_spec n (- Py.ssize_max - 1)); [lia|].
    destruct (Z.ltb_spec Py.ssize_max n); [reflexivity|]. cbn [orb].
    destruct (Z.ltb_spec n 1); [lia|].
    destruct (Z.eqb_spec n 1); [lia|].
    destruct (Z.ltb_spec (Py.ssize_max / n) 2) as [Hd|Hd]; [reflexivity|].
    exfalso. assert (n * 2 <= Py.ssize_max); [|lia].
    etransitivity; [apply Z.mul_le_mono_nonneg_l; [lia | exact Hd]|].
    apply Z.mul_div_le. lia.
  - intros H2 Hs Hm.
    destruct (Z.ltb_spec n (- Py.ssize_max - 1)); [lia|].
    destruct (Z.ltb_spec Py.ssize_max n); [lia|]. cbn [orb].
    destruct (Z.ltb_spec n 1); [lia|].
    destruct (Z.eqb_spec n 1); [lia|].
    destruct (Z.ltb_spec (Py.ssize_max / n) 2) as [Hd|Hd].
    { exfalso. assert (2 <= Py.ssize_max / n); [|lia].
      apply Z.div_le_lower_bound; lia. }
    destruct (Z.ltb_spec max_str_len (2 * n)); [reflexivity | lia].
Qed.

(** The two lines of [get_hotels_info] that build [children_ages]. *)
Lemma children_ages_placeholder `{Externals} (n : Z) r :
  Py.repeat "8," n = Ok r ->
  match r with
  | EmptyString => EmptyString
  | _ => Py.slice r 0 (-1)
  end = placeholder_ages n.
Proof.
  intros Hr. apply repeat_inv in Hr. subst r. unfold placeholder_ages.
  destruct (Z.to_nat n) as [|k]; [reflexivity|].
  rewrite slice_drop_last, drop_last_repeat.
  destruct (Nat.iter (S k) _ _) eqn:E; [|reflexivity].
  change (Nat.iter (S k) (fun acc => "8," ++ acc) EmptyString)
    with ("8," ++ Nat.iter k (fun acc => "8," ++ acc) EmptyString) in E.
  discriminate E.
Qed.

Section HotelAdapter.
Context `{Externals}.

#[local] Instance adds_preorder (P : event -> Prop) : PreOrder (adds P).
Proof.
  split.
  - intros w. exists []. split; [symmetry; apply app_nil_r | constructor].
  - intros w1 w2 w3 (evs1 & T1 & E1) (evs2 & T2 & E2).
    exists (evs1 ++ evs2)%list. split.
    + rewrite T2, T1. symmetry. apply app_assoc.
    + apply Forall_app. split; assumption.
Qed.

Lemma llm_only_adds (P : event -> Prop) {A} (m : M A) :
  (forall e, llm_event e -> P e) -> preserves llm_only m -> preserves (adds P) m.
Proof.
  intros Hp Hm w. destruct (Hm w) as (_ & _ & _ & _ & _ & evs & Ht & He).
  exists evs. split; [exact Ht|]. eapply Forall_impl; [exact He | exact Hp].
Qed.

Lemma collected_post self key :
  partial (Backend.collected self key)
    (fun v => Backend.collected_info self !! key = Some v).
Proof.
  intros w v w'. unfold Backend.collected.
  destruct (Backend.collected_info self !! key); [|discriminate].
  intros [= <- <-]. reflexivity.
Qed.

Lemma collected_adds P self key : preserves (adds P) (Backend.collected self key).
Proof.
  unfold Backend.collected.
  destruct (Backend.collected_info self !! key);
    [apply preserves_ret | apply preserves_raise]; typeclasses eauto.
Qed.

Lemma lift_post {A} (r : result A) : partial (lift r) (fun a => r = Ok a).
Proof. intros w a w'. unfold lift. intros [= -> <-]. reflexivity. Qed.

(** Every call [get_hotels_info] makes is a call of the model client or a
    call of [search_hotels] with the counts [int] read and the placeholder
    children ages. *)
Lemma get_hotels_info_calls self :
  preserves (adds (hotel_call_ok self)) (Backend.get_hotels_info self).
Proof.
  unfold Backend.get_hotels_info.
  apply preserves_try_except; [typeclasses eauto | |
    intros e; apply preserves_ret; typeclasses eauto].
  do 3 (apply preserves_bind;
        [typeclasses eauto | apply collected_adds | intros ?]).
  eapply preserves_bind_post;
    [typeclasses eauto | apply collected_post | apply collected_adds |].
  intros adults_v Ha.
  eapply preserves_bind_post;
    [typeclasses eauto | apply collected_post | apply collected_adds |].
  intros children_v Hc.
  do 2 (apply preserves_bind;
        [typeclasses eauto
        | apply llm_only_adds; [intros e He; left; exact He
                               | apply inference_llm_only]
        | intros ?]).
  eapply preserves_bind_post;
    [typeclasses eauto | apply lift_post
    | apply preserves_lift; typeclasses eauto |].
  intros n Hn.
  eapply preserves_bind_post;
    [typeclasses eauto | apply lift_post
    | apply preserves_lift; typeclasses eauto |].
  intros r Hr.
  eapply preserves_bind_post;
    [typeclasses eauto | apply lift_post
    | apply preserves_lift; typeclasses eauto |].
  intros adults Hia.
  eapply preserves_bind_post;
    [typeclasses eauto | apply lift_post
    | apply preserves_lift; typeclasses eauto |].
  intros children Hn'. rewrite Hn in Hn'. injection Hn' as <-.
  rewrite (children_ages_placeholder n r Hr).
  intros w. unfold search_hotels, call_hotels. simpl.
  eexists [_]. split; [reflexivity|]. constructor; [|constructor].
  right. eexists _, _, _, adults_v, adults, children_v, n.
  split; [exact Ha|]. split; [exact Hia|].
  split; [exact Hc|]. split; [exact Hn | reflexivity].
Qed.

(** [get_hotels_info] once the five fields are read, both dates are
    converted and [int] has read the number of children. *)
Lemma get_hotels_info_counted self w destination start_date end_date
    adults_v children_v r1 w1 r2 w2 n :
  Backend.collected_info self !! "destination" = Some destination ->
  Backend.collected_info self !! "start_date" = Some start_date ->
  Backend.collected_info self !! "end_date" = Some end_date ->
  Backend.collected_info self !! "number_of_adults" = Some adults_v ->
  Backend.collected_info self !! "number_of_children" = Some children_v ->
  LLM.inference (Text (Backend.date_prompt start_date)) w = (Ok r1, w1) ->
  LLM.inference (Text (Backend.date_prompt end_date)) w1 = (Ok r2, w2) ->
  Py.int children_v = Ok n ->
  Backend.get_hotels_info self w =
    match Py.repeat "8," n with
    | Raise e =>
        (Ok (Backend.error_dict
               ("Error getting hotel information: " ++ exn_str e)), w2)
    | Ok _ =>
        match Py.int adults_v with
        | Raise e =>
            (Ok (Backend.error_dict
                   ("Error getting hotel information: " ++ exn_str e)), w2)
        | Ok a =>
            try_except
              (search_hotels destination (Py.strip r1) (Py.strip r2) a n
                             (placeholder_ages n))
              (fun e => ret (Backend.error_dict
                               ("Error getting hotel information: " ++
                                exn_str e)))
              w2
        end
    end.
Proof.
  intros Hd Hs He Ha Hc Hr1 Hr2 Hic.
  unfold Backend.get_hotels_info, try_except, bind, Backend.collected, lift.
  unfold ret, raise. rewrite Hd, Hs, He, Ha, Hc. cbv beta iota.
  rewrite Hr1. cbv beta iota. rewrite Hr2. cbv beta iota.
  rewrite Hic. cbv beta iota.
  destruct (Py.repeat "8," n) as [r|e] eqn:Er; [|reflexivity].
  cbv beta iota. destruct (Py.int adults_v) as [a|e]; [|reflexivity].
  cbv beta iota. rewrite (children_ages_placeholder n r Er). reflexivity.
Qed.

(** C9, as the code has it.  The TripRequest holds the five fields the
    hotel adapter reads, both date conversions return, and [int] reads the
    declared adult and child counts as [a] and a nonnegative [n].  When the
    string of [n] placeholder ages can be built (its 2[n] characters fit
    [Py_ssize_t] and, from two children on, the memory of the machine), the
    adapter calls [search_hotels] once, and the children-ages value it
    passes is the placeholder age 8 repeated [n] times and joined by
    commas: the empty string when [n] is zero.  For a larger count the
    multiplication raises, and the adapter returns its error result without
    calling [search_hotels].  In every call of [search_hotels] the adapter
    makes, whatever the world, the children-ages value is that list for the
    count [int] read. *)
Theorem hotel_children_ages self w destination start_date end_date
    adults_v children_v r1 w1 r2 w2 a n :
  Backend.collected_info self !! "destination" = Some destination ->
  Backend.collected_info self !! "start_date" = Some start_date ->
  Backend.collected_info self !! "end_date" = Some end_date ->
  Backend.collected_info self !! "number_of_adults" = Some adults_v ->
  Backend.collected_info self !! "number_of_children" = Some children_v ->
  LLM.inference (Text (Backend.date_prompt start_date)) w = (Ok r1, w1) ->
  LLM.inference (Text (Backend.date_prompt end_date)) w1 = (Ok r2, w2) ->
  Py.int adults_v = Ok a ->
  Py.int children_v = Ok n ->
  0 <= n ->
  (2 * n <= Py.ssize_max -> (2 <= n -> 2 * n <= max_str_len) ->
   trace (Backend.get_hotels_info self w).2 =
     (trace w2 ++
      [EvHotels destination (Py.strip r1) (Py.strip r2) a n
                (placeholder_ages n)])%list /\
   asked (hotels_api (Backend.get_hotels_info self w).2) =
     S (asked (hotels_api w2))) /\
  (Py.ssize_max < 2 * n ->
   Backend.get_hotels_info self w =
     (Ok (Backend.error_dict
            ("Error getting hotel information: " ++ exn_str OverflowError)),
      w2)) /\
  (2 <= n -> 2 * n <= Py.ssize_max -> max_str_len < 2 * n ->
   Backend.get_hotels_info self w =
     (Ok (Backend.error_dict
            ("Error getting hotel information: " ++ exn_str MemoryError)),
      w2)) /\
  placeholder_ages n = Py.join "," (replicate (Z.to_nat n) "8") /\
  (n = 0 -> placeholder_ages n = EmptyString) /\
  (forall self0 w0,
     adds (hotel_call_ok self0) w0 (Backend.get_hotels_info self0 w0).2).
Proof.
  intros Hd Hs He Ha Hc Hr1 Hr2 Hia Hic Hn.
  pose proof (get_hotels_info_counted self w _ _ _ _ _ _ _ _ _ n
                Hd Hs He Ha Hc Hr1 Hr2 Hic) as Hx.
  destruct (repeat_placeholder n) as (Hok & Hover & Hmem).
  split; [|split; [|split; [|split; [|split]]]].
  - intros Hsz Hmx. destruct (Hok Hn Hsz Hmx) as (r & Er).
    rewrite Hx, Er, Hia. unfold try_except, search_hotels, call_hotels.
    split; destruct (next (hotels_api w2)); reflexivity.
  - intros Hsz. rewrite Hx, (Hover Hsz). reflexivity.
  - intros H2 Hsz Hmx. rewrite Hx, (Hmem H2 Hsz Hmx). reflexivity.
  - reflexivity.
  - intros ->. reflexivity.
  - intros self0 w0. apply get_hotels_info_calls.
Qed.

End HotelAdapter.

(** ** The flight adapter *)

Section FlightAdapter.
Context `{Externals}.

(** C6.  When the reply to the airport-code question equals N/A up to case
    and surrounding whitespace, [get_flights_info] returns an error result
    that carries the location asked about, the source being asked about
    before the destination, and [search_flights] is not called: only the
    model client has acted, the provider's oracle is where it was and the
    log has no provider call.  The hotel search still runs on the same
    TripRequest and the session keeps its result. *)
Theorem no_airport_found self w source destination start_date end_date :
  Backend.collected_info self !! "source" = Some source ->
  Backend.collected_info self !! "destination" = Some destination ->
  Backend.collected_info self !! "start_date" = Some start_date ->
  Backend.collected_info self !! "end_date" = Some end_date ->
  (forall reply w1,
     LLM.inference (Text (Backend.airport_prompt source)) w = (Ok reply, w1) ->
     Py.upper (Py.strip reply) = "N/A" ->
     Backend.get_flights_info self w =
       (Ok (Backend.error_dict
              ("No airport found for source: " ++ Py.str source)), w1) /\
     llm_only w w1) /\
  (forall code w1 prompt' reply w2,
     LLM.inference (Text (Backend.airport_prompt source)) w = (Ok code, w1) ->
     Py.upper (Py.strip code) <> "N/A" ->
     Backend.replace (Backend.airport_prompt source) source destination =
       Ok prompt' ->
     LLM.inference (Text prompt') w1 = (Ok reply, w2) ->
     Py.upper (Py.strip reply) = "N/A" ->
     Backend.get_flights_info self w =
       (Ok (Backend.error_dict
              ("No airport found for destination: " ++ Py.str destination)),
        w2) /\
     llm_only w w2) /\
  (forall st flights w1 hotels w2,
     App.backend st = self ->
     Backend.get_flights_info self w = (flights, w1) ->
     Backend.get_hotels_info self w1 = (Ok hotels, w2) ->
     exists st' w',
       App.search_flights_and_hotels st w = (Ok st', w') /\
       App.hotels_info st' = kept_hotels hotels).
Proof.
  intros Hs Hd Hsd Hed. split; [|split].
  - intros reply w1 Hr Hna.
    pose proof (inference_llm_only (Text (Backend.airport_prompt source)) w) as Hf.
    rewrite Hr in Hf. split; [|exact Hf].
    unfold Backend.get_flights_info, try_except, bind, Backend.collected.
    unfold ret, raise. rewrite Hs, Hd, Hsd, Hed. cbv beta iota.
    rewrite Hr. cbv beta iota.
    unfold Backend.is_na. rewrite Hna. reflexivity.
  - intros code w1 prompt' reply w2 Hc Hnc Hp Hr Hna.
    pose proof (inference_llm_only (Text (Backend.airport_prompt source)) w) as Hf1.
    rewrite Hc in Hf1.
    pose proof (inference_llm_only (Text prompt') w1) as Hf2.
    rewrite Hr in Hf2.
    split; [|simpl in *; etransitivity; eassumption].
    unfold Backend.get_flights_info, try_except, bind, Backend.collected.
    unfold ret, raise. rewrite Hs, Hd, Hsd, Hed. cbv beta iota.
    rewrite Hc. cbv beta iota.
    unfold Backend.is_na at 1.
    destruct (String.eqb_spec (Py.upper (Py.strip code)) "N/A") as [E|_];
      [contradiction|].
    unfold lift. rewrite Hp. cbv beta iota. rewrite Hr. cbv beta iota.
    unfold Backend.is_na. rewrite Hna. reflexivity.
  - intros st flights w1 hotels w2 <- Hf Hh.
    apply (search_keeps_hotels st w flights w1 hotels w2 Hf Hh).
Qed.

End FlightAdapter.

(** ** Locating the braces of a reply *)

Lemma append_nil_l (x : string) : EmptyString ++ x = x.
Proof. reflexivity. Qed.

Lemma append_cons c (x y : string) : String c x ++ y = String c (x ++ y).
Proof. reflexivity. Qed.

Lemma append_assoc (x y z : string) : (x ++ y) ++ z = x ++ (y ++ z).
Proof.
  induction x as [|c x IH]; [reflexivity|].
  rewrite !append_cons, IH. reflexivity.
Qed.

Lemma prefix_char a c s :
  String.prefix (String a EmptyString) (String c s) = Ascii.eqb a c.
Proof.
  simpl. destruct (Ascii.ascii_dec a c) as [->|Hne].
  - rewrite Ascii.eqb_refl. destruct s; reflexivity.
  - symmetry. apply Ascii.eqb_neq. exact Hne.
Qed.

Lemma find_from_char_cons a c s i :
  Py.find_from (String a EmptyString) (String c s) i =
  if Ascii.eqb a c then i else Py.find_from (String a EmptyString) s (i + 1).
Proof.
  change (Py.find_from (String a EmptyString) (String c s) i)
    with (if String.prefix (String a EmptyString) (String c s) then i
          else Py.find_from (String a EmptyString) s (i + 1)).
  rewrite prefix_char. reflexivity.
Qed.

Lemma rfind_from_char_cons a c s i :
  Py.rfind_from (String a EmptyString) (String c s) i =
  if Py.rfind_from (String a EmptyString) s (i + 1) =? -1
  then (if Ascii.eqb a c then i else -1)
  else Py.rfind_from (String a EmptyString) s (i + 1).
Proof.
  change (Py.rfind_from (String a EmptyString) (String c s) i)
    with (if Py.rfind_from (String a EmptyString) s (i + 1) =? -1
          then (if String.prefix (String a EmptyString) (String c s)
                then i else -1)
          else Py.rfind_from (String a EmptyString) s (i + 1)).
  rewrite prefix_char. reflexivity.
Qed.

(** [find] of a character: -1, or the length of the part before its first
    occurrence. *)
Lemma find_from_char a s i :
  0 <= i ->
  Py.find_from (String a EmptyString) s i = -1 \/
  exists pre rest,
    s = pre ++ String a rest /\ lacks a pre /\
    Py.find_from (String a EmptyString) s i = i + Py.len pre.
Proof.
  revert i. induction s as [|c s IH]; intros i Hi.
  - left. reflexivity.
  - rewrite find_from_char_cons.
    destruct (Ascii.eqb_spec a c) as [<-|Hne].
    + right. exists EmptyString, s. split; [reflexivity|].
      split; [exact I|]. unfold Py.len. simpl. lia.
    + destruct (IH (i + 1)) as [Hm | (pre & rest & -> & Hl & Hf)]; [lia | |].
      * left. exact Hm.
      * right. exists (String c pre), rest. split; [reflexivity|].
        split; [split; [congruence | exact Hl]|].
        rewrite Hf. unfold Py.len. simpl. lia.
Qed.

(** [rfind] of a character: -1, or an index inside the string. *)
Lemma rfind_from_char a s i :
  0 <= i ->
  Py.rfind_from (String a EmptyString) s i = -1 \/
  (i <= Py.rfind_from (String a EmptyString) s i < i + Py.len s).
Proof.
  revert i. induction s as [|c s IH]; intros i Hi.
  - left. reflexivity.
  - rewrite rfind_from_char_cons. unfold Py.len in *. simpl String.length.
    destruct (IH (i + 1)) as [-> | Hr]; [lia | |].
    + simpl. destruct (Ascii.eqb a c); [right; lia | left; reflexivity].
    + destruct (Z.eqb_spec (Py.rfind_from (String a EmptyString) s (i + 1)) (-1));
        [lia | right; lia].
Qed.

Lemma find_from_app a pre rest i :
  lacks a pre ->
  Py.find_from (String a EmptyString) (pre ++ String a rest) i = i + Py.len pre.
Proof.
  revert i. induction pre as [|c pre IH]; intros i Hl.
  - rewrite ?append_cons, ?append_nil_l. rewrite find_from_char_cons, Ascii.eqb_refl.
    unfold Py.len. simpl. lia.
  - destruct Hl as [Hc Hl]. rewrite ?append_cons, ?append_nil_l. rewrite find_from_char_cons.
    destruct (Ascii.eqb_spec a c) as [->|_]; [congruence|].
    rewrite (IH (i + 1) Hl). unfold Py.len. simpl. lia.
Qed.

Lemma rfind_from_lacks a s i :
  lacks a s -> Py.rfind_from (String a EmptyString) s i = -1.
Proof.
  revert i. induction s as [|c s IH]; intros i Hl; [reflexivity|].
  destruct Hl as [Hc Hl]. rewrite rfind_from_char_cons, (IH (i + 1) Hl). simpl.
  destruct (Ascii.eqb_spec a c) as [->|_]; [congruence | reflexivity].
Qed.

Lemma rfind_from_app a pre post i :
  0 <= i ->
  lacks a post ->
  Py.rfind_from (String a EmptyString) (pre ++ String a post) i = i + Py.len pre.
Proof.
  revert i. induction pre as [|c pre IH]; intros i Hi Hl.
  - rewrite ?append_cons, ?append_nil_l. rewrite rfind_from_char_cons, (rfind_from_lacks a post _ Hl).
    simpl. rewrite Ascii.eqb_refl. unfold Py.len. simpl. lia.
  - rewrite ?append_cons, ?append_nil_l. rewrite rfind_from_char_cons, (IH (i + 1)) by (lia || exact Hl).
    unfold Py.len. simpl String.length.
    destruct (Z.eqb_spec (i + 1 + Z.of_nat (String.length pre)) (-1)); lia.
Qed.

Lemma substring_none n s : String.substring n 0 s = EmptyString.
Proof.
  revert n. induction s as [|c s IH]; intros [|n]; simpl; auto.
Qed.

Lemma substring_skip pre t m :
  String.substring (String.length pre) m (pre ++ t) = String.substring 0 m t.
Proof. induction pre as [|c pre IH]; [reflexivity | exact IH]. Qed.

Lemma substring_prefix x y :
  String.substring 0 (String.length x) (x ++ y) = x.
Proof.
  induction x as [|c x IH].
  - apply substring_none.
  - rewrite append_cons. simpl. rewrite IH. reflexivity.
Qed.

Lemma length_append x y :
  String.length (x ++ y) = (String.length x + String.length y)%nat.
Proof.
  induction x as [|c x IH]; [reflexivity|].
  rewrite append_cons. simpl. rewrite IH. reflexivity.
Qed.

Lemma slice_in_range s a b :
  0 <= a <= Py.len s -> 0 <= b <= Py.len s ->
  Py.slice s a b = String.substring (Z.to_nat a) (Z.to_nat (b - a)) s.
Proof.
  intros Ha Hb. unfold Py.slice, Py.clamp.
  destruct (Z.ltb_spec a 0); [lia|]. destruct (Z.ltb_spec b 0); [lia|].
  rewrite !Z.max_r, !Z.min_r by lia. reflexivity.
Qed.

(** The text handed to the decoder is empty or starts with the brace. *)
Lemma info_json_shape reply :
  Py.find reply "{" <> -1 ->
  Py.rfind reply "}" + 1 <> 0 ->
  info_json reply = EmptyString \/
  exists rest, info_json reply = String "{" rest.
Proof.
  intros Hf Hr. unfold info_json, Py.find, Py.rfind in *.
  destruct (find_from_char "{" reply 0) as [Hm | (pre & rest & E & _ & Hi)];
    [lia | contradiction |].
  destruct (rfind_from_char "}" reply 0) as [Hm | Hj]; [lia | lia |].
  rewrite Hi. clear Hi Hf Hr.
  set (j := Py.rfind_from "}" reply 0) in *. clearbody j. subst reply.
  assert (Py.len (pre ++ String "{" rest) = Py.len pre + 1 + Py.len rest) as Hlen.
  { unfold Py.len. rewrite length_append. simpl. lia. }
  rewrite slice_in_range by (unfold Py.len in *; lia).
  replace (Z.to_nat (0 + Py.len pre)) with (String.length pre)
    by (unfold Py.len; lia).
  rewrite substring_skip.
  destruct (Z.to_nat _) as [|m]; [left | right].
  - apply substring_none.
  - eexists. reflexivity.
Qed.

(** From the first opening brace to the last closing one. *)
Lemma info_json_between pre mid post :
  lacks "{" pre -> lacks "}" post ->
  info_json (pre ++ "{" ++ mid ++ "}" ++ post) = "{" ++ mid ++ "}".
Proof.
  intros Hpre Hpost. unfold info_json, Py.find, Py.rfind.
  assert (pre ++ "{" ++ mid ++ "}" ++ post =
          pre ++ String "{" (mid ++ String "}" post)) as E1 by reflexivity.
  assert (pre ++ "{" ++ mid ++ "}" ++ post =
          (pre ++ String "{" mid) ++ String "}" post) as E2.
  { rewrite E1, append_assoc, append_cons. reflexivity. }
  assert (Py.len (pre ++ "{" ++ mid ++ "}" ++ post) =
          Py.len pre + 1 + Py.len mid + 1 + Py.len post) as Hlen.
  { rewrite E1. unfold Py.len. rewrite length_append. simpl.
    rewrite length_append. simpl. lia. }
  assert (Py.len (pre ++ String "{" mid) = Py.len pre + 1 + Py.len mid) as Hlen2.
  { unfold Py.len. rewrite length_append. simpl. lia. }
  assert (Py.find_from "{" (pre ++ "{" ++ mid ++ "}" ++ post) 0 = Py.len pre)
    as ->.
  { rewrite E1, (find_from_app "{" pre _ 0 Hpre). lia. }
  assert (Py.rfind_from "}" (pre ++ "{" ++ mid ++ "}" ++ post) 0 =
          Py.len pre + 1 + Py.len mid) as ->.
  { rewrite E2, (rfind_from_app "}" _ post 0) by (lia || exact Hpost). lia. }
  rewrite slice_in_range by (unfold Py.len in *; lia).
  replace (Z.to_nat (Py.len pre)) with (String.length pre)
    by (unfold Py.len; lia).
  rewrite substring_skip.
  replace (Z.to_nat (Py.len pre + 1 + Py.len mid + 1 - Py.len pre))
    with (String.length ("{" ++ mid ++ "}"))
    by (rewrite length_append, length_append; unfold Py.len; simpl; lia).
  rewrite <- (append_assoc mid "}" post), <- (append_assoc "{" (mid ++ "}") post).
  apply substring_prefix.
Qed.

(** ** Extraction *)

Section ExtractionFailure.
Context `{Externals}.

Lemma main_keeps_collecting_incomplete a st w :
  collecting_incomplete st -> collecting_incomplete (App.main a st w).1.2.
Proof.
  intros Hinv. unfold App.main.
  destruct a as [| |text]; [|intros _; reflexivity|];
    (destruct (App.messages st) as [|m ms]; [exact Hinv|]);
    destruct (App.current_stage st) eqn:Es;
    try (destruct (then_rerun_total _ st w _ (search_flights_and_hotels_total st))
           as (st' & w' & -> & Hst & Hb); simpl; intros Hc; congruence);
    try (destruct (then_rerun_total _ st w _ (create_itinerary_app_total st))
           as (st' & w' & -> & Hst & Hb); simpl; intros Hc; congruence);
    unfold App.chat_enabled; rewrite Es;
    try (intros Hc; simpl in Hc; apply Hinv; congruence);
    try (destruct (App.itinerary_ready st); intros Hc; simpl in Hc; congruence).
  - destruct text as [|c rest]; [exact Hinv|].
    pose proof (process_user_input_collecting (String c rest) st w Es) as Hp.
    destruct (Backend.extract_info_from_input _ _ _) as [[[info b']|e] w1].
    + destruct Hp as (o & st' & -> & Hb & Hst). simpl. intros Hc.
      rewrite Hst in Hc. rewrite Hb.
      destruct (Backend.is_info_complete b'); [discriminate | reflexivity].
    + destruct Hp as (st' & -> & Hst & Hb). simpl. intros _. rewrite Hb.
      apply Hinv. exact Es.
  - destruct (App.itinerary_ready st); [|intros Hc; simpl in Hc; congruence].
    destruct text as [|c rest]; [intros Hc; simpl in Hc; congruence|].
    unfold App.follow_up.
    destruct (LLM.inference _ w) as [[response|e] w1]; simpl;
      intros Hc; simpl in Hc; congruence.
Qed.

(** Every session a conversation reaches is incomplete while it collects. *)
Lemma run_collecting_incomplete actions st w :
  collecting_incomplete st -> collecting_incomplete (App.run actions st w).1.
Proof.
  revert st w. induction actions as [|a rest IH]; intros st w Hinv; simpl.
  - exact Hinv.
  - pose proof (main_keeps_collecting_incomplete a st w Hinv) as H1.
    destruct (App.main a st w) as [[o st1] w1]. apply IH. exact H1.
Qed.

(** X27.  What extraction makes of the model's reply, case by case; the
    text it hands the decoder is the reply from its first opening brace to
    its last closing brace.  When there is no such text, or [json.loads]
    raises a [ValueError] on it, extraction returns the empty record and
    leaves the TripRequest and the transcript as they were; the driver then
    leaves the stage at [collecting_info] and adds to the chat display the
    user's message and the missing-fields prompt.  When the text decodes to
    a dict, its truthy values are merged and the user input and the reply
    are appended to the transcript.  Any other exception of [json.loads]
    leaves extraction, and the script, as it is: the handler names
    [JSONDecodeError] and [ValueError] only. *)
Lemma extraction_outcomes self user_input w reply w1 :
  LLM.inference (extraction_chat self user_input) w = (Ok reply, w1) ->
  (decode_fails reply ->
   Backend.extract_info_from_input self user_input w = (Ok (∅, self), w1)) /\
  (forall d,
     Py.find reply "{" <> -1 -> Py.rfind reply "}" <> -1 ->
     json_loads (info_json reply) = Ok (PDict d) ->
     Backend.extract_info_from_input self user_input w =
       (Ok (d,
            {| Backend.collected_info :=
                 Backend.merge d (Backend.collected_info self);
               Backend.conversation_history :=
                 (Backend.conversation_history self ++
                  [Message "user" user_input;
                   Message "assistant" reply])%list |}), w1)) /\
  (forall v,
     Py.find reply "{" <> -1 -> Py.rfind reply "}" <> -1 ->
     json_loads (info_json reply) = Ok v -> ~ is_dict v ->
     Backend.extract_info_from_input self user_input w =
       (Raise AttributeError, w1)) /\
  (forall e,
     Py.find reply "{" <> -1 -> Py.rfind reply "}" <> -1 ->
     json_loads (info_json reply) = Raise e -> value_error e = false ->
     Backend.extract_info_from_input self user_input w = (Raise e, w1) /\
     forall st,
       App.backend st = self ->
       App.current_stage st = App.collecting_info ->
       App.process_user_input user_input st w =
         (App.Failed e, App.add_message "user" user_input st, w1)) /\
  (forall pre mid post,
     reply = pre ++ "{" ++ mid ++ "}" ++ post ->
     lacks "{" pre -> lacks "}" post ->
     info_json reply = "{" ++ mid ++ "}") /\
  (forall st,
     App.backend st = self ->
     App.current_stage st = App.collecting_info ->
     collecting_incomplete st ->
     decode_fails reply ->
     App.current_stage (App.process_user_input user_input st w).1.2 =
       App.collecting_info /\
     App.backend (App.process_user_input user_input st w).1.2 = self /\
     App.messages (App.process_user_input user_input st w).1.2 =
       (App.messages st ++
        [Message "user" user_input;
         Message "assistant" (Backend.get_missing_fields_message self)])%list) /\
  (forall actions w0,
     collecting_incomplete
       (App.run actions App.initialize_session_state w0).1).
Proof.
  intros Hr.
  assert (Backend.extract_info_from_input self user_input w =
          if negb (Py.find reply "{" =? -1) && negb (Py.rfind reply "}" + 1 =? 0)
          then match json_loads (info_json reply) with
               | Ok (PDict info) =>
                   (Ok (info,
                        {| Backend.collected_info :=
                             Backend.merge info (Backend.collected_info self);
                           Backend.conversation_history :=
                             (Backend.conversation_history self ++
                              [Message "user" user_input;
                               Message "assistant" reply])%list |}), w1)
               | Ok _ => (Raise AttributeError, w1)
               | Raise e =>
                   if value_error e then (Ok (∅, self), w1) else (Raise e, w1)
               end
          else (Ok (∅, self), w1)) as Hx.
  { unfold Backend.extract_info_from_input, bind.
    unfold extraction_chat in Hr. rewrite Hr. fold (info_json reply).
    destruct (negb _ && negb _); [|reflexivity].
    destruct (json_loads (info_json reply)) as [[]|e]; try reflexivity.
    destruct (value_error e); reflexivity. }
  assert (decode_fails reply ->
          Backend.extract_info_from_input self user_input w =
            (Ok (∅, self), w1)) as Hfail.
  { intros Hd. rewrite Hx.
    destruct (Z.eqb_spec (Py.find reply "{") (-1)) as [Ef|Ef]; [reflexivity|].
    destruct (Z.eqb_spec (Py.rfind reply "}" + 1) 0) as [Er|Er]; [reflexivity|].
    destruct Hd as [Hd | [Hd | (e & Hj & Hv)]]; [lia | lia |].
    cbn [negb andb]. rewrite Hj, Hv. reflexivity. }
  assert (Py.find reply "{" <> -1 -> Py.rfind reply "}" <> -1 ->
            negb (Py.find reply "{" =? -1) &&
            negb (Py.rfind reply "}" + 1 =? 0) = true) as Hbraces.
  { intros Hf Hl.
    destruct (Z.eqb_spec (Py.find reply "{") (-1)) as [Ef|Ef]; [lia|].
    destruct (Z.eqb_spec (Py.rfind reply "}" + 1) 0) as [Er|Er]; [lia|].
    reflexivity. }
  split; [exact Hfail|]. split; [|split; [|split; [|split; [|split]]]].
  - intros d Hf Hl Hj. rewrite Hx, (Hbraces Hf Hl), Hj. reflexivity.
  - intros v Hf Hl Hj Hv. rewrite Hx, (Hbraces Hf Hl), Hj.
    destruct v; try reflexivity. contradiction Hv. eexists. reflexivity.
  - intros e Hf Hl Hj Hv.
    assert (Backend.extract_info_from_input self user_input w = (Raise e, w1))
      as He by (rewrite Hx, (Hbraces Hf Hl), Hj, Hv; reflexivity).
    split; [exact He|]. intros st Hb Hs.
    unfold App.process_user_input.
    cbn [App.add_message App.current_stage App.backend].
    rewrite Hs, Hb, He. reflexivity.
  - intros pre mid post -> Hpre Hpost. apply info_json_between; assumption.
  - intros st Hb Hs Hinv Hd. specialize (Hfail Hd).
    specialize (Hinv Hs). rewrite Hb in Hinv.
    unfold App.process_user_input.
    cbn [App.add_message App.current_stage App.backend].
    rewrite Hs, Hb, Hfail.
    cbn [App.set_backend App.backend]. rewrite Hinv.
    cbn. split; [exact Hs|]. split; [reflexivity|].
    rewrite <- app_assoc. reflexivity.
  - intros actions w0. apply run_collecting_incomplete. intros _. reflexivity.
Qed.

End ExtractionFailure.

(** ** Destination recommendation *)

Section Recommendation.
Context `{Externals}.



(** The range check reads the clock once and touches nothing else. *)
Lemma check_date_at start_date start w :
  strptime_ymd start_date = Some start ->
  exists w',
    Weather.check_date_within_forecast_range start_date 14 w =
      (Ok ((0 <=? Weather.days start (next (clock w))) &&
           (Weather.days start (next (clock w)) <=? 14)), w') /\
    weather_api w' = weather_api w /\ model w' = model w /\
    trace w' = trace w.
Proof.
  intros Hs. unfold Weather.check_date_within_forecast_range, bind,
    Weather.strptime. rewrite Hs. simpl.
  eexists. split; [reflexivity|]. simpl. repeat split.
Qed.

Lemma get_llm_suggestions_parsed budget start_date end_date w suggestions w1 :
  Weather.get_llm_suggestions budget start_date end_date w =
    (Ok suggestions, w1) ->
  exists start, strptime_ymd start_date = Some start.
Proof.
  unfold Weather.get_llm_suggestions, bind, Weather.strptime.
  destruct (strptime_ymd start_date) as [start|]; [|discriminate].
  intros _. exists start. reflexivity.
Qed.

End Recommendation.

(** * The properties on the scenarios *)

Lemma extraction_discards_falsy_witness :
  "number_of_children" ∈ Backend.get_missing_fields no_children_after /\
  Backend.is_info_complete no_children_after = false.
Proof.
  refine (proj2 (proj2 (proj2
            (extraction_discards_falsy (H:=scenario_externals) goa_only "no kids"
               (scripted [Ok no_children_json])
               {[ "number_of_children" := PInt 0 ]} no_children_after
               (Backend.extract_info_from_input (H:=scenario_externals) goa_only
                  "no kids" (scripted [Ok no_children_json])).2 _))) _ _).
  - vm_compute. reflexivity.
  - vm_compute. reflexivity.
  - apply list_elem_of_In. vm_compute. tauto.
Defined.

Lemma merge_is_monotonic_witness :
  is_set (Backend.collected_info no_children_after) "destination".
Proof.
  refine (proj1 (proj1 (merge_is_monotonic (H:=scenario_externals))
            goa_only "no kids" (scripted [Ok no_children_json])
            {[ "number_of_children" := PInt 0 ]} no_children_after
            (Backend.extract_info_from_input (H:=scenario_externals) goa_only
               "no kids" (scripted [Ok no_children_json])).2 "destination" _ _)).
  - vm_compute. reflexivity.
  - exists (PStr "Goa"). split; vm_compute; reflexivity.
Defined.

(** C5 at the input that defeats it: the model replies with one JSON
    object nested 2000 deep.  The text from the first opening brace to the
    last closing one is the whole reply, [json.loads] raises
    [RecursionError] on it, which is no [ValueError], and the exception
    leaves [extract_info_from_input] and [process_user_input]: the run of
    the script fails, with the user's message already in the chat display,
    where the ranking steps would have caught the same exception. *)
Theorem deep_reply_escapes :
  info_json deep_json = deep_json /\
  @json_loads scenario_externals deep_json = Raise RecursionError /\
  (Backend.extract_info_from_input (H:=scenario_externals) goa_only
     "surprise me" (scripted [Ok deep_json])).1 = Raise RecursionError /\
  (App.process_user_input (H:=scenario_externals) "surprise me" welcomed
     (scripted [Ok deep_json])).1 =
    (App.Failed RecursionError, App.add_message "user" "surprise me" welcomed) /\
  (Backend.find_best_flight (H:=scenario_externals) trip_backend (PList [])
     (scripted [Ok deep_json])).1 =
    Ok (Backend.error_dict
          ("Error finding best flight: " ++
           @exn_str scenario_externals RecursionError)).
Proof.
  split; [vm_compute; reflexivity|].
  split; [vm_compute; reflexivity|].
  split; [vm_compute; reflexivity|].
  split; vm_compute; reflexivity.
Qed.

Lemma extraction_outcomes_witness :
  Backend.extract_info_from_input (H:=scenario_externals) goa_only
    "somewhere warm" (scripted [Ok "Could you tell me more?"]) =
    (Ok (∅, goa_only),
     (LLM.inference (extraction_chat (H:=scenario_externals) goa_only
                       "somewhere warm")
                    (scripted [Ok "Could you tell me more?"])).2).
Proof.
  apply (proj1 (extraction_outcomes (H:=scenario_externals) goa_only
                  "somewhere warm" (scripted [Ok "Could you tell me more?"])
                  "Could you tell me more?"
                  (LLM.inference (extraction_chat (H:=scenario_externals)
                                    goa_only "somewhere warm")
                                 (scripted [Ok "Could you tell me more?"])).2
                  ltac:(vm_compute; reflexivity))).
  left. vm_compute. reflexivity.
Defined.

Lemma no_airport_found_witness :
  Backend.get_flights_info (H:=scenario_externals) trip_backend
    (scripted [Ok " n/a "]) =
    (Ok (Backend.error_dict "No airport found for source: Delhi"),
     (LLM.inference
        (Text (Backend.airport_prompt (H:=scenario_externals) (PStr "Delhi")))
        (scripted [Ok " n/a "])).2) /\
  llm_only (scripted [Ok " n/a "])
    (LLM.inference
       (Text (Backend.airport_prompt (H:=scenario_externals) (PStr "Delhi")))
       (scripted [Ok " n/a "])).2.
Proof.
  apply (proj1 (no_airport_found (H:=scenario_externals) trip_backend
                  (scripted [Ok " n/a "]) (PStr "Delhi") (PStr "Goa")
                  (PStr "June 10") (PStr "June 15")
                  eq_refl eq_refl eq_refl eq_refl) " n/a ").
  - vm_compute. reflexivity.
  - vm_compute. reflexivity.
Defined.

Lemma stage_forward_only_witness :
  (stage_rank (App.current_stage App.initialize_session_state) <=
   stage_rank (App.current_stage searched_trip))%nat.
Proof.
  apply (proj2 (proj2 (proj2 (proj2 (proj2
           (stage_forward_only (H:=scenario_externals))))))
           [App.Idle; App.ChatInput trip_message; App.Idle]
           App.initialize_session_state trip_world).
  intros Hin.
  repeat (apply elem_of_cons in Hin as [Hin|Hin]; [discriminate|]).
  inversion Hin.
Defined.

Lemma hotel_children_ages_witness :
  trace (Backend.get_hotels_info (H:=scenario_externals) family_backend
           (scripted [Ok "2025-06-10"; Ok " 2025-06-15 "])).2 =
    [EvInvoke (Text (Backend.date_prompt (H:=scenario_externals) (PStr "June 10")));
     EvInvoke (Text (Backend.date_prompt (H:=scenario_externals) (PStr "June 15")));
     EvHotels (PStr "Goa") "2025-06-10" "2025-06-15" 2 2 "8,8"].
Proof.
  destruct (LLM.inference
              (Text (Backend.date_prompt (H:=scenario_externals) (PStr "June 10")))
              (scripted [Ok "2025-06-10"; Ok " 2025-06-15 "]))
    as [[r1|e1] w1] eqn:E1; [|vm_compute in E1; discriminate].
  destruct (LLM.inference
              (Text (Backend.date_prompt (H:=scenario_externals) (PStr "June 15")))
              w1)
    as [[r2|e2] w2] eqn:E2;
    [|vm_compute in E1; injection E1 as _ <-; vm_compute in E2; discriminate].
  destruct (hotel_children_ages (H:=scenario_externals) family_backend
              (scripted [Ok "2025-06-10"; Ok " 2025-06-15 "])
              (PStr "Goa") (PStr "June 10") (PStr "June 15") (PStr "2") (PStr "2")
              r1 w1 r2 w2 2 2
              eq_refl eq_refl eq_refl eq_refl eq_refl E1 E2 eq_refl eq_refl)
    as (Hcall & _); [lia|].
  destruct Hcall as (Ht & _);
    [vm_compute; discriminate | intros _; vm_compute; discriminate |].
  rewrite Ht.
  vm_compute in E1. injection E1 as <- <-.
  vm_compute in E2. injection E2 as <- <-.
  vm_compute. reflexivity.
Defined.

(** C9 for every nonnegative count fails.  With 2^63 children declared
    the five fields are present, both date conversions return and [int]
    reads the count, yet the multiplication raises: the adapter returns its
    error result and [search_hotels] is not called, so no children-ages
    value is passed. *)
Lemma hotel_children_ages_refuted :
  Py.int (H:=scenario_externals) (PStr "9223372036854775808") =
    Ok 9223372036854775808 /\
  (Backend.get_hotels_info (H:=scenario_externals) crowd_backend
     (scripted [Ok "2025-06-10"; Ok "2025-06-15"])).1 =
    Ok (Backend.error_dict
          "Error getting hotel information: cannot fit 'int' into an index-sized integer") /\
  trace (Backend.get_hotels_info (H:=scenario_externals) crowd_backend
           (scripted [Ok "2025-06-10"; Ok "2025-06-15"])).2 =
    [EvInvoke (Text (Backend.date_prompt (H:=scenario_externals) (PStr "June 10")));
     EvInvoke (Text (Backend.date_prompt (H:=scenario_externals) (PStr "June 15")))] /\
  ~ (forall self w destination start_date end_date adults_v children_v
            r1 w1 r2 w2 a n,
       Backend.collected_info self !! "destination" = Some destination ->
       Backend.collected_info self !! "start_date" = Some start_date ->
       Backend.collected_info self !! "end_date" = Some end_date ->
       Backend.collected_info self !! "number_of_adults" = Some adults_v ->
       Backend.collected_info self !! "number_of_children" = Some children_v ->
       LLM.inference
         (Text (Backend.date_prompt (H:=scenario_externals) start_date)) w =
         (Ok r1, w1) ->
       LLM.inference
         (Text (Backend.date_prompt (H:=scenario_externals) end_date)) w1 =
         (Ok r2, w2) ->
       Py.int (H:=scenario_externals) adults_v = Ok a ->
       Py.int (H:=scenario_externals) children_v = Ok n ->
       0 <= n ->
       trace (Backend.get_hotels_info (H:=scenario_externals) self w).2 =
         (trace w2 ++
          [EvHotels destination (Py.strip r1) (Py.strip r2) a n
                    (placeholder_ages n)])%list).
Proof.
  split; [reflexivity|].
  split; [vm_compute; reflexivity|].
  split; [vm_compute; reflexivity|].
  intros Hclaim.
  destruct (LLM.inference
              (Text (Backend.date_prompt (H:=scenario_externals) (PStr "June 10")))
              (scripted [Ok "2025-06-10"; Ok "2025-06-15"]))
    as [[r1|e1] w1] eqn:E1; [|vm_compute in E1; discriminate E1].
  destruct (LLM.inference
              (Text (Backend.date_prompt (H:=scenario_externals) (PStr "June 15")))
              w1)
    as [[r2|e2] w2] eqn:E2;
    [|vm_compute in E1; injection E1 as _ <-; vm_compute in E2; discriminate E2].
  specialize (Hclaim crowd_backend (scripted [Ok "2025-06-10"; Ok "2025-06-15"])
                (PStr "Goa") (PStr "June 10") (PStr "June 15") (PStr "2")
                (PStr "9223372036854775808") r1 w1 r2 w2 2 9223372036854775808
                eq_refl eq_refl eq_refl eq_refl eq_refl E1 E2 eq_refl eq_refl
                ltac:(discriminate)).
  vm_compute in E1. injection E1 as <- <-.
  vm_compute in E2. injection E2 as <- <-.
  apply (f_equal (@length event)) in Hclaim. rewrite length_app in Hclaim.
  cbn [length] in Hclaim. vm_compute in Hclaim. discriminate Hclaim.
Qed.

(** Inside the horizon the forecast is fetched for the candidate, and the
    model is asked a second time, to rank. *)
Example forecast_fetched_within_horizon :
  trace (Weather.get_travel_destination (H:=scenario_externals)
           "2025-06-10" "2025-06-15" (PStr "20000")
           (with_forecast (scripted [Ok places_json; Ok places_json]))).2 =
    [EvInvoke (Text (Weather.suggestions_prompt (H:=scenario_externals)
                       (PStr "20000") "2025-06-10" "2025-06-15" 6));
     EvWeather "Goa, India";
     EvInvoke (Text (Weather.ranking_prompt
                       "Weather conditions for each destination:

Goa, India:
- 2025-06-10: Sunny, ...°C to ...°C, ...% chance of rain

" "2025-06-10" "2025-06-15"))].
Proof. vm_compute. reflexivity. Qed.

(** How [days] counts: from the morning of 1 June 2025, 10:00, the start
    date 10 June is 8 days away, 1 June itself is -1, and 16 June is 14. *)
Example days_round_down :
  Weather.days 1749513600000000 1748772000000000 = 8 /\
  Weather.days 1748736000000000 1748772000000000 = -1 /\
  Weather.days 1750032000000000 1748772000000000 = 14.
Proof. repeat split. Qed.

(** The two conversations the specification walks through: a message that
    names only the destination leaves the stage at [collecting_info] with
    the other seven fields missing, and a message that gives all eight
    fields moves it to [searching_flights_hotels]. *)
Example destination_only_conversation :
  App.current_stage
    (App.process_user_input (H:=scenario_externals) "I want to go to Goa"
       welcomed (scripted [Ok goa_json])).1.2 = App.collecting_info /\
  Backend.get_missing_fields
    (App.backend
       (App.process_user_input (H:=scenario_externals) "I want to go to Goa"
          welcomed (scripted [Ok goa_json])).1.2) =
    ["source"; "start_date"; "end_date"; "number_of_adults";
     "budget_per_person"; "number_of_children"; "travel_style"].
Proof. split; vm_compute; reflexivity. Qed.

Example complete_conversation :
  App.current_stage
    (App.process_user_input (H:=scenario_externals) trip_message welcomed
       trip_world).1.2 = App.searching_flights_hotels /\
  asked (model (App.process_user_input (H:=scenario_externals) trip_message
                  welcomed trip_world).2) = 1%nat.
Proof. split; vm_compute; reflexivity. Qed.

(** * The code beyond the conversation contract

    Properties of the retry loops of the model client, of the sessions a
    conversation can reach, of the adapters and of the provider modules,
    read off the code. *)

(** ** The retry loops of the model client *)

Lemma attempt_valid p w :
  token_valid w ->
  (LLM.attempt p w).1 = next (model w) /\
  invoked (sent p) 1 w (LLM.attempt p w).2.
Proof.
  intros (e & He & Hc). unfold LLM.attempt, bind, LLM.is_token_expired.
  rewrite He. unfold bind, now, ret. cbn [fst snd].
  assert ((e * 1000000 <? next (clock w)) = false) as ->.
  { apply Z.ltb_ge. apply Hc. }
  cbn. unfold invoked. cbn.
  repeat split; try reflexivity. lia.
Qed.

Lemma invoked_valid p n w w' : invoked p n w w' -> token_valid w -> token_valid w'.
Proof.
  intros (_ & _ & Hc & He & _) (e & Hw & Hle). exists e.
  split; [congruence|]. intros k. rewrite Hc. apply Hle.
Qed.

Lemma inference_loop_valid p budget w :
  token_valid w ->
  match first_answer reply_of (answers (model w)) (asked (model w)) budget with
  | Some (i, text) =>
      (LLM.inference_loop budget p w).1 = Ok (Some text) /\
      invoked (sent p) (S i) w (LLM.inference_loop budget p w).2
  | None =>
      (LLM.inference_loop budget p w).1 = Ok None /\
      invoked (sent p) budget w (LLM.inference_loop budget p w).2
  end.
Proof.
  revert w. induction budget as [|k IH]; intros w Hv.
  - simpl. split; [reflexivity|]. unfold invoked. simpl.
    repeat split; try reflexivity; [lia | symmetry; apply app_nil_r].
  - destruct (attempt_valid p w Hv) as [Hr Hi].
    cbn [first_answer LLM.inference_loop]. unfold try_except, bind.
    destruct (LLM.attempt p w) as [r w1] eqn:Ea. cbn [fst snd] in Hr, Hi.
    subst r. unfold next.
    destruct (answers (model w) (asked (model w))) as [text|e] eqn:En;
      cbn [reply_of].
    + unfold ret. cbn [fst snd]. split; [reflexivity | exact Hi].
    + specialize (IH w1 (invoked_valid _ _ _ _ Hi Hv)).
      destruct Hi as (Hm & Ha & Hc & He & Hk & Ht).
      rewrite Hm, Ha in IH. replace (asked (model w) + 1)%nat
        with (S (asked (model w))) in IH by lia.
      destruct (first_answer reply_of (answers (model w)) (S (asked (model w))) k)
        as [[i text]|]; destruct IH as [IHr (Hm' & Ha' & Hc' & He' & Hk' & Ht')];
        (split; [exact IHr|]); unfold invoked;
        (split; [congruence|]); (split; [lia|]); (split; [congruence|]);
        (split; [congruence|]); (split; [congruence|]);
        rewrite Ht', Ht, <- app_assoc; reflexivity.
Qed.

(** X1.  While the access token is valid, [inference] returns the first
    reply the model gives among its next five answers, having called the
    model once per answer up to that reply, each time with the same
    prompt (a [str] prompt stripped), and without asking for a token; when
    none of the five answers is a reply it has called the model five times
    and fails with the [UnboundLocalError] of [response]. *)
Theorem inference_first_reply p w :
  token_valid w ->
  match first_answer reply_of (answers (model w)) (asked (model w)) 5 with
  | Some (i, text) =>
      (LLM.inference p w).1 = Ok text /\
      invoked (sent p) (S i) w (LLM.inference p w).2
  | None =>
      (LLM.inference p w).1 = Raise (UnboundLocalError "response") /\
      invoked (sent p) 5 w (LLM.inference p w).2
  end.
Proof.
  intros Hv. pose proof (inference_loop_valid p LLM.max_retries w Hv) as Hl.
  unfold LLM.inference, bind. change LLM.max_retries with 5%nat in *.
  destruct (first_answer reply_of (answers (model w)) (asked (model w)) 5)
    as [[i text]|];
    destruct (LLM.inference_loop 5 p w) as [r w1]; cbn [fst snd] in Hl;
    destruct Hl as [-> Hi]; (split; [reflexivity | exact Hi]).
Qed.

Lemma token_loop_first budget w :
  match first_answer id (answers (credential w)) (asked (credential w)) budget with
  | Some (i, t) =>
      (LLM.token_loop budget w).1 = Ok (Some t) /\
      requested (S i) w (LLM.token_loop budget w).2
  | None =>
      (LLM.token_loop budget w).1 = Ok None /\
      requested budget w (LLM.token_loop budget w).2
  end /\
  expires_on (LLM.token_loop budget w).2 = expires_on w.
Proof.
  revert w. induction budget as [|k IH]; intros w.
  - simpl. split; [|reflexivity]. split; [reflexivity|]. unfold requested. simpl.
    repeat split; try reflexivity; [lia | symmetry; apply app_nil_r].
  - cbn [first_answer LLM.token_loop]. unfold bind, get_token, next.
    destruct (answers (credential w) (asked (credential w))) as [t|] eqn:En;
      cbn [id].
    + unfold ret. cbn. split; [|reflexivity]. split; [reflexivity|].
      unfold requested. cbn. repeat split; try reflexivity. lia.
    + match goal with |- context [LLM.token_loop k ?w1] =>
        specialize (IH w1); set (w' := w1) in * end.
      change (answers (credential w')) with (answers (credential w)) in IH.
      change (asked (credential w')) with (S (asked (credential w))) in IH.
      destruct IH as [IH He]. split; [|rewrite He; reflexivity].
      destruct (first_answer id (answers (credential w)) (S (asked (credential w))) k)
        as [[i t]|]; destruct IH as [IHr (Ha & Hn & Hc & Hm & Ht)];
        (split; [exact IHr|]); unfold requested;
        (split; [exact Ha|]); (split; [rewrite Hn; cbn; lia|]);
        (split; [exact Hc|]); (split; [exact Hm|]);
        rewrite Ht; cbn; rewrite <- app_assoc; reflexivity.
Qed.

(** X2.  [update_access_token] asks the credential service at most five
    times.  The first token it is granted ends the loop, and the stored
    expiry is that token's expiry less 300 seconds; when all five requests
    fail it raises the [UnboundLocalError] of [access_token] and leaves the
    stored expiry as it was.  The model is not called. *)
Theorem token_refresh w :
  match first_answer id (answers (credential w)) (asked (credential w)) 5 with
  | Some (i, t) =>
      (LLM.update_access_token w).1 = Ok tt /\
      expires_on (LLM.update_access_token w).2 = Some (t - 300) /\
      requested (S i) w (LLM.update_access_token w).2
  | None =>
      (LLM.update_access_token w).1 = Raise (UnboundLocalError "access_token") /\
      expires_on (LLM.update_access_token w).2 = expires_on w /\
      requested 5 w (LLM.update_access_token w).2
  end.
Proof.
  pose proof (token_loop_first LLM.max_retries w) as [Hl He].
  unfold LLM.update_access_token, bind. change LLM.max_retries with 5%nat in *.
  destruct (first_answer id (answers (credential w)) (asked (credential w)) 5)
    as [[i t]|];
    destruct (LLM.token_loop 5 w) as [r w1]; cbn [fst snd] in Hl, He;
    destruct Hl as [-> Hr].
  - cbn. split; [reflexivity|]. split; [reflexivity|]. exact Hr.
  - cbn. split; [reflexivity|]. split; [exact He | exact Hr].
Qed.






Lemma first_answer_step {A B} (f : A -> option B) answers from k :
  first_answer f answers from (S k) =
    match f (answers from) with
    | Some b => Some (O, b)
    | None =>
        match first_answer f answers (S from) k with
        | Some (i, b) => Some (S i, b)
        | None => None
        end
    end.
Proof. reflexivity. Qed.

Lemma inference_loop_step k p w :
  LLM.inference_loop (S k) p w =
    match (LLM.attempt p w).1 with
    | Ok text => (Ok (Some text), (LLM.attempt p w).2)
    | Raise _ => LLM.inference_loop k p (LLM.attempt p w).2
    end.
Proof.
  cbn [LLM.inference_loop]. unfold try_except, bind.
  destruct (LLM.attempt p w) as [[text|e] w1]; reflexivity.
Qed.

Lemma inference_of_loop p w :
  LLM.inference p w =
    (match (LLM.inference_loop 5 p w).1 with
     | Ok (Some text) => Ok text
     | Ok None => Raise (UnboundLocalError "response")
     | Raise e => Raise e
     end, (LLM.inference_loop 5 p w).2).
Proof.
  unfold LLM.inference, bind. change LLM.max_retries with 5%nat.
  destruct (LLM.inference_loop 5 p w) as [[[text|]|e] w1]; reflexivity.
Qed.

Lemma attempt_refresh p w t :
  token_expired w ->
  next (credential w) = Some t ->
  (LLM.attempt p w).1 = next (model w) /\
  expires_on (LLM.attempt p w).2 = Some (t - 300) /\
  answers (clock (LLM.attempt p w).2) = answers (clock w) /\
  answers (model (LLM.attempt p w).2) = answers (model w) /\
  asked (model (LLM.attempt p w).2) = S (asked (model w)) /\
  asked (credential (LLM.attempt p w).2) = S (asked (credential w)) /\
  trace (LLM.attempt p w).2 = (trace w ++ [EvCredential; EvInvoke (sent p)])%list.
Proof.
  unfold token_expired. intros He Hc.
  unfold LLM.attempt, bind, LLM.is_token_expired.
  destruct (expires_on w) as [e|] eqn:Ee.
  - unfold bind, now, ret. cbn [fst snd].
    apply Z.ltb_lt in He. rewrite He.
    unfold LLM.update_access_token, bind. change LLM.max_retries with 5%nat.
    cbn [LLM.token_loop]. unfold bind, get_token. cbn [fst snd credential].
    rewrite Hc. cbn.
    repeat (split; [reflexivity|]). rewrite <- app_assoc. reflexivity.
  - unfold LLM.update_access_token, bind. change LLM.max_retries with 5%nat.
    cbn [LLM.token_loop]. unfold bind, get_token. cbn [fst snd credential].
    rewrite Hc. cbn.
    repeat (split; [reflexivity|]). rewrite <- app_assoc. reflexivity.
Qed.

(** X23.  When the stored token has expired, or none is stored, and the
    credential service grants a token that is still valid at every later
    reading of the clock, [inference] asks for a token exactly once, before
    its first call of the model, stores that token's expiry less 300
    seconds, and then behaves as with a valid token: it returns the first
    reply among the model's next five answers, having called the model once
    per answer up to that reply. *)
Theorem expired_token_refreshed_once p w t :
  token_expired w ->
  next (credential w) = Some t ->
  (forall n, answers (clock w) n <= (t - 300) * 1000000) ->
  (exists calls,
     match first_answer reply_of (answers (model w)) (asked (model w)) 5 with
     | Some (i, text) =>
         (LLM.inference p w).1 = Ok text /\ calls = S i
     | None =>
         (LLM.inference p w).1 = Raise (UnboundLocalError "response") /\
         calls = 5%nat
     end /\
     asked (model (LLM.inference p w).2) = (asked (model w) + calls)%nat /\
     trace (LLM.inference p w).2 =
       (trace w ++ EvCredential :: replicate calls (EvInvoke (sent p)))%list) /\
  expires_on (LLM.inference p w).2 = Some (t - 300) /\
  asked (credential (LLM.inference p w).2) = S (asked (credential w)).
Proof.
  intros He Hc Hv.
  destruct (attempt_refresh p w t He Hc) as (Hr & He1 & Hc1 & Hm1 & Ha1 & Hk1 & Ht1).
  rewrite inference_of_loop, inference_loop_step.
  rewrite (first_answer_step reply_of (answers (model w)) (asked (model w)) 4).
  destruct (LLM.attempt p w) as [r w1].
  cbn [fst snd] in Hr, He1, Hc1, Hm1, Ha1, Hk1, Ht1 |- *.
  subst r. unfold next.
  destruct (answers (model w) (asked (model w))) as [text|e] eqn:En;
    cbn [reply_of fst snd].
  - split; [|split; [exact He1 | exact Hk1]].
    exists 1%nat. split; [split; reflexivity|]. split; [lia | exact Ht1].
  - assert (token_valid w1) as Hv1.
    { exists (t - 300). split; [exact He1|]. intros n. rewrite Hc1. apply Hv. }
    pose proof (inference_loop_valid p 4 w1 Hv1) as Hl.
    rewrite Hm1, Ha1 in Hl.
    destruct (first_answer reply_of (answers (model w)) (S (asked (model w))) 4)
      as [[i text]|];
      destruct (LLM.inference_loop 4 p w1) as [r w2]; cbn [fst snd] in Hl |- *;
      destruct Hl as [-> (_ & Ha2 & _ & He2 & Hk2 & Ht2)]; cbn [fst snd].
    + split; [|split; [congruence | congruence]].
      exists (S (S i)). split; [split; reflexivity|]. split; [lia|].
      rewrite Ht2, Ht1, <- app_assoc. reflexivity.
    + split; [|split; [congruence | congruence]].
      exists 5%nat. split; [split; reflexivity|]. split; [lia|].
      rewrite Ht2, Ht1, <- app_assoc. reflexivity.
Qed.

Lemma inference_valid p w :
  token_valid w ->
  exists w',
    match first_answer reply_of (answers (model w)) (asked (model w)) 5 with
    | Some (i, text) =>
        LLM.inference p w = (Ok text, w') /\ invoked (sent p) (S i) w w'
    | None =>
        LLM.inference p w = (Raise (UnboundLocalError "response"), w') /\
        invoked (sent p) 5 w w'
    end.
Proof.
  intros Hv. pose proof (inference_loop_valid p 5 w Hv) as Hl.
  rewrite inference_of_loop.
  exists (LLM.inference_loop 5 p w).2.
  destruct (first_answer reply_of (answers (model w)) (asked (model w)) 5)
    as [[i text]|]; destruct Hl as [-> Hi]; (split; [reflexivity | exact Hi]).
Qed.


(** ** The sessions a conversation reaches *)

Section DriverInvariants.
Context `{Externals}.

#[local] Instance keeps_preorder : PreOrder keeps.
Proof.
  split.
  - intros st. repeat split; reflexivity.
  - intros s1 s2 s3 (B1 & R1 & M1) (B2 & R2 & M2).
    split; [congruence|]. split; [congruence|]. etransitivity; eassumption.
Qed.

Lemma keeps_add_message role content st : keeps st (App.add_message role content st).
Proof.
  split; [reflexivity|]. split; [reflexivity|]. simpl.
  apply prefix_app_r. reflexivity.
Qed.

Lemma flights_step_keeps st : partial (App.flights_step st) (keeps st).
Proof.
  unfold App.flights_step.
  eapply partial_bind; [apply partial_true|]. intros flights_info _.
  eapply partial_bind; [apply partial_true|]. intros is_error _.
  destruct is_error.
  - eapply partial_bind; [apply partial_true|]. intros error _.
    apply partial_ret. apply (keeps_add_message _ _ st).
  - apply partial_ret. apply (keeps_add_message _ _ (App.set_flights_info _ st)).
Qed.

Lemma hotels_step_keeps st : partial (App.hotels_step st) (keeps st).
Proof.
  unfold App.hotels_step.
  eapply partial_bind; [apply partial_true|]. intros hotels_info _.
  eapply partial_bind; [apply partial_true|]. intros is_error _.
  destruct is_error.
  - eapply partial_bind; [apply partial_true|]. intros error _.
    apply partial_ret. apply (keeps_add_message _ _ st).
  - apply partial_ret. apply (keeps_add_message _ _ (App.set_hotels_info _ st)).
Qed.

Lemma best_flights_step_keeps st :
  partial (App.best_flights_step st) (fun r => keeps st r.2).
Proof.
  unfold App.best_flights_step.
  eapply partial_bind; [apply partial_true|]. intros clean _.
  destruct clean; [|apply partial_ret; reflexivity].
  eapply partial_bind; [apply partial_true|]. intros best _.
  destruct (negb _); apply partial_ret;
    [apply keeps_add_message | reflexivity].
Qed.

Lemma best_hotels_step_keeps st :
  partial (App.best_hotels_step st) (fun r => keeps st r.2).
Proof.
  unfold App.best_hotels_step.
  destruct (_ && _); [|apply partial_ret; reflexivity].
  eapply partial_bind; [apply partial_true|]. intros best _.
  destruct (negb _); apply partial_ret;
    [apply keeps_add_message | reflexivity].
Qed.

Lemma search_flights_and_hotels_keeps st :
  partial (App.search_flights_and_hotels st) (keeps st).
Proof.
  unfold App.search_flights_and_hotels.
  eapply partial_bind; [apply flights_step_keeps|]. intros st1 K1.
  eapply partial_bind; [apply hotels_step_keeps|]. intros st2 K2.
  eapply partial_bind; [apply best_flights_step_keeps|]. intros [bf st3] K3.
  eapply partial_bind; [apply best_hotels_step_keeps|]. intros [bh st4] K4.
  apply partial_ret. simpl in K3, K4.
  transitivity st1; [exact K1|]. transitivity st2; [exact K2|].
  transitivity st3; [exact K3|]. transitivity st4; [exact K4|].
  apply (keeps_add_message _ _ st4).
Qed.

Lemma create_itinerary_grows st :
  partial (App.create_itinerary st)
    (fun st' => App.backend st' = App.backend st /\
                App.itinerary_ready st' = true /\
                App.messages st `prefix_of` App.messages st').
Proof.
  unfold App.create_itinerary.
  eapply partial_bind; [apply partial_true|]. intros itinerary _.
  apply partial_ret. split; [reflexivity|]. split; [reflexivity|].
  simpl. apply prefix_app_r. reflexivity.
Qed.

(** One run of the script, by cases. *)
Lemma main_cases a st w :
  (a = App.StartNewTrip /\ (App.main a st w).1.2 = App.reset_session st) \/
  (a <> App.StartNewTrip /\ App.messages st = [] /\
   (App.main a st w).1.2 = App.add_message "assistant" App.welcome_msg st) \/
  (a <> App.StartNewTrip /\ App.messages st <> [] /\
   App.current_stage st = App.searching_flights_hotels /\
   exists st' w',
     App.search_flights_and_hotels st w = (Ok st', w') /\
     App.main a st w = (App.Rerun, st', w')) \/
  (a <> App.StartNewTrip /\ App.messages st <> [] /\
   App.current_stage st = App.creating_itinerary /\
   exists st' w',
     App.create_itinerary st w = (Ok st', w') /\
     App.main a st w = (App.Rerun, st', w')) \/
  (App.messages st <> [] /\
   App.current_stage st = App.collecting_info /\
   exists c rest,
     a = App.ChatInput (String c rest) /\
     (App.main a st w).1.2 =
       (App.process_user_input (String c rest) st w).1.2) \/
  (App.messages st <> [] /\
   App.current_stage st = App.completed /\ App.itinerary_ready st = true /\
   exists c rest,
     a = App.ChatInput (String c rest) /\
     (App.main a st w).1.2 = (App.follow_up (String c rest) st w).1.2) \/
  (a <> App.StartNewTrip /\ App.messages st <> [] /\
   App.main a st w = (App.Returned, st, w)).
Proof.
  destruct a as [| |text].
  2: { left. split; reflexivity. }
  all: right; unfold App.main;
    destruct (App.messages st) as [|m ms] eqn:Em;
    [left; repeat split; discriminate|right].
  all: destruct (App.current_stage st) eqn:Es.
  all: try (left; split; [discriminate|]; split; [discriminate|];
            split; [reflexivity|];
            destruct (then_rerun_total _ st w _ (search_flights_and_hotels_total st))
              as (st' & w' & Hr & _);
            unfold App.then_rerun in Hr |- *;
            destruct (App.search_flights_and_hotels st w) as [[st1|e] w1];
            [|discriminate]; injection Hr as <- <-;
            exists st1, w1; split; reflexivity).
  all: try (right; left; split; [discriminate|]; split; [discriminate|];
            split; [reflexivity|];
            destruct (then_rerun_total _ st w _ (create_itinerary_app_total st))
              as (st' & w' & Hr & _);
            unfold App.then_rerun in Hr |- *;
            destruct (App.create_itinerary st w) as [[st1|e] w1];
            [|discriminate]; injection Hr as <- <-;
            exists st1, w1; split; reflexivity).
  all: unfold App.chat_enabled; rewrite Es.
  - do 4 right. split; [discriminate | split; [discriminate | reflexivity]].
  - destruct (App.itinerary_ready st); do 4 right;
      (split; [discriminate | split; [discriminate | reflexivity]]).
  - destruct text as [|c rest];
      [do 4 right; split; [discriminate | split; [discriminate | reflexivity]]|].
    right. right. left. split; [discriminate|]. split; [reflexivity|].
    exists c, rest. split; [reflexivity|].
    destruct (App.process_user_input _ st w) as [[o st'] w']. reflexivity.
  - destruct (App.itinerary_ready st) eqn:Er;
      [|do 4 right; split; [discriminate | split; [discriminate | reflexivity]]].
    destruct text as [|c rest];
      [do 4 right; split; [discriminate | split; [discriminate | reflexivity]]|].
    do 3 right. left. split; [discriminate|]. split; [reflexivity|].
    split; [reflexivity|]. exists c, rest. split; reflexivity.
Qed.

Lemma process_user_input_facts user_input st w :
  App.current_stage st = App.collecting_info ->
  App.itinerary_ready (App.process_user_input user_input st w).1.2 =
    App.itinerary_ready st /\
  (exists more,
     App.messages (App.process_user_input user_input st w).1.2 =
       (App.messages st ++ Message "user" user_input :: more)%list) /\
  (App.current_stage (App.process_user_input user_input st w).1.2 =
     App.collecting_info \/
   App.current_stage (App.process_user_input user_input st w).1.2 =
     App.searching_flights_hotels /\
   Backend.is_info_complete
     (App.backend (App.process_user_input user_input st w).1.2) = true) /\
  (App.backend (App.process_user_input user_input st w).1.2 = App.backend st \/
   exists reply,
     Backend.conversation_history
       (App.backend (App.process_user_input user_input st w).1.2) =
       (Backend.conversation_history (App.backend st) ++
        [Message "user" user_input; Message "assistant" reply])%list).
Proof.
  intros Hs. unfold App.process_user_input.
  cbn [App.add_message App.current_stage App.backend]. rewrite Hs.
  destruct (Backend.extract_info_from_input (App.backend st) user_input w)
    as [[[info b']|e] w1] eqn:Ex.
  - cbn [App.set_backend App.backend].
    assert (b' = App.backend st \/
            exists reply,
              Backend.conversation_history b' =
                (Backend.conversation_history (App.backend st) ++
                 [Message "user" user_input; Message "assistant" reply])%list)
      as Hb.
    { destruct (extract_returns_inv _ _ _ _ _ _ Ex)
        as (reply & _ & [(_ & -> & _) | (_ & _ & _ & ->)]);
        [left; reflexivity | right; exists reply; reflexivity]. }
    destruct (Backend.is_info_complete b') eqn:Ec; cbn.
    + split; [reflexivity|]. split.
      { eexists. rewrite <- app_assoc. reflexivity. }
      split; [right; split; [reflexivity | exact Ec] | exact Hb].
    + split; [reflexivity|]. split.
      { eexists. rewrite <- app_assoc. reflexivity. }
      split; [left; exact Hs | exact Hb].
  - cbn. split; [reflexivity|]. split; [exists []; reflexivity|].
    split; [left; exact Hs | left; reflexivity].
Qed.

Lemma follow_up_facts prompt st w :
  App.backend (App.follow_up prompt st w).1.2 = App.backend st /\
  App.itinerary_ready (App.follow_up prompt st w).1.2 = App.itinerary_ready st /\
  App.current_stage (App.follow_up prompt st w).1.2 = App.current_stage st /\
  exists more,
    App.messages (App.follow_up prompt st w).1.2 =
      (App.messages st ++ Message "user" prompt :: more)%list.
Proof.
  unfold App.follow_up.
  destruct (LLM.inference _ w) as [[response|e] w1]; cbn;
    repeat (split; [reflexivity|]).
  - eexists. rewrite <- app_assoc. reflexivity.
  - exists []. reflexivity.
Qed.

Lemma app_not_nil {A} (l : list A) x more : (l ++ x :: more)%list <> [].
Proof. destruct l; discriminate. Qed.

Lemma prefix_not_nil {A} (l k : list A) : l `prefix_of` k -> l <> [] -> k <> [].
Proof. intros [m ->] Hl. destruct l; [congruence | discriminate]. Qed.

Lemma main_keeps_reachable a st w :
  reachable_inv st -> reachable_inv (App.main a st w).1.2.
Proof.
  intros [Hc Hr].
  destruct (main_cases a st w)
    as [(_ & ->) | [(_ & Hm & ->) | [(_ & Hm & Hs & st' & w' & Hx & ->) |
       [(_ & Hm & Hs & st' & w' & Hx & ->) | [(Hm & Hs & c & rest & _ & ->) |
       [(Hm & Hs & Hy & c & rest & _ & ->) | (_ & Hm & ->)]]]]]];
    unfold reachable_inv; cbn [fst snd].
  - split; [intros Hn; contradiction Hn; reflexivity|].
    cbn. split; discriminate.
  - split; [|exact Hr]. intros Hn. destruct (Hc Hn) as [Hi _].
    split; [exact Hi|]. cbn. rewrite Hm. discriminate.
  - destruct (search_flights_and_hotels_total st w) as (st1 & w1 & Hx1 & Hs1 & Hb1).
    rewrite Hx in Hx1. injection Hx1 as <- <-.
    destruct (search_flights_and_hotels_keeps st _ _ _ Hx) as (_ & Hy & Hp).
    rewrite Hs1, Hy, Hb1.
    split.
    + intros _. split; [apply Hc; congruence|]. apply (prefix_not_nil _ _ Hp Hm).
    + split; [|discriminate]. intros Ht. apply Hr in Ht. congruence.
  - destruct (create_itinerary_app_total st w) as (st1 & w1 & Hx1 & Hs1 & Hb1).
    rewrite Hx in Hx1. injection Hx1 as <- <-.
    destruct (create_itinerary_grows st _ _ _ Hx) as (_ & Hy & Hp).
    rewrite Hs1, Hy, Hb1.
    split.
    + intros _. split; [apply Hc; congruence|]. apply (prefix_not_nil _ _ Hp Hm).
    + split; reflexivity.
  - destruct (process_user_input_facts (String c rest) st w Hs)
      as (Hy & (more & Hp) & Hst & _).
    rewrite Hy. split.
    + intros Hn. destruct Hst as [Hst | [Hst Hi]]; [contradiction|].
      split; [exact Hi|]. rewrite Hp. apply app_not_nil.
    + destruct Hst as [-> | [-> _]]; [rewrite <- Hs; exact Hr|].
      split; [|discriminate]. intros Ht. apply Hr in Ht. congruence.
  - destruct (follow_up_facts (String c rest) st w) as (Hb & Hy' & Hst & more & Hp).
    rewrite Hb, Hy', Hst, Hp. split; [|exact Hr].
    intros Hn. split; [apply Hc; exact Hn | apply app_not_nil].
  - split; assumption.
Qed.

Lemma run_invariant (I : App.SessionState -> Prop) :
  (forall a st w, I st -> I (App.main a st w).1.2) ->
  forall actions st w, I st -> I (App.run actions st w).1.
Proof.
  intros Hstep actions. induction actions as [|a rest IH]; intros st w Hi; simpl.
  - exact Hi.
  - specialize (Hstep a st w Hi).
    destruct (App.main a st w) as [[o st1] w1]. apply IH. exact Hstep.
Qed.

Lemma initial_reachable : reachable_inv App.initialize_session_state.
Proof.
  split; [intros Hn; contradiction Hn; reflexivity|]. cbn. split; discriminate.
Qed.

Lemma is_info_complete_iff self :
  Backend.is_info_complete self = true <->
  forall f, f ∈ Backend.required_fields ->
            is_set (Backend.collected_info self) f.
Proof.
  unfold Backend.is_info_complete. split.
  - intros Hl f Hf.
    destruct (Backend.missing (Backend.collected_info self) f) eqn:Em.
    + assert (f ∈ Backend.get_missing_fields self) as Hin
        by (apply elem_of_get_missing_fields; split; assumption).
      destruct (Backend.get_missing_fields self); [inversion Hin | discriminate].
    + unfold Backend.missing in Em. unfold is_set.
      destruct (Backend.collected_info self !! f) as [v|]; [|discriminate].
      exists v. split; [reflexivity|].
      destruct (Py.truthy v); [reflexivity | discriminate].
  - intros Hall.
    destruct (Backend.get_missing_fields self) as [|f l] eqn:Em; [reflexivity|].
    assert (f ∈ Backend.get_missing_fields self) as Hin
      by (rewrite Em; left).
    apply elem_of_get_missing_fields in Hin as [Hf Hm].
    destruct (Hall f Hf) as (v & Hv & Ht). unfold Backend.missing in Hm.
    rewrite Hv, Ht in Hm. discriminate.
Qed.

(** X5.  In every session a conversation reaches from the initial one,
    whatever the user did and the world answered, a stage other than
    [collecting_info] means that each of the eight required fields is
    set: the lookups of the adapters and of the itinerary step cannot
    raise [KeyError] there.  The chat display is then not empty. *)
Theorem past_collecting_complete actions w0 f :
  App.current_stage (App.run actions App.initialize_session_state w0).1 <>
    App.collecting_info ->
  f ∈ Backend.required_fields ->
  is_set (Backend.collected_info
            (App.backend (App.run actions App.initialize_session_state w0).1)) f /\
  (exists v, forall w,
     Backend.collected
       (App.backend (App.run actions App.initialize_session_state w0).1) f w =
       (Ok v, w)) /\
  App.messages (App.run actions App.initialize_session_state w0).1 <> [].
Proof.
  intros Hs Hf.
  destruct (run_invariant reachable_inv main_keeps_reachable actions
              App.initialize_session_state w0 initial_reachable) as [Hc _].
  destruct (Hc Hs) as [Hi Hm].
  pose proof (proj1 (is_info_complete_iff _) Hi f Hf) as Hset.
  split; [exact Hset|]. split; [|exact Hm].
  destruct Hset as (v & Hv & _). exists v. intros w.
  unfold Backend.collected. rewrite Hv. reflexivity.
Qed.

(** X6.  In every session a conversation reaches, the ready flag is set
    exactly when the stage is [completed]; so the chat input is offered
    exactly in the stages [collecting_info] and [completed], and a
    completed conversation is never left without it. *)
Theorem chat_never_locked actions w0 :
  (App.itinerary_ready (App.run actions App.initialize_session_state w0).1 = true <->
   App.current_stage (App.run actions App.initialize_session_state w0).1 =
     App.completed) /\
  (App.chat_enabled (App.run actions App.initialize_session_state w0).1 = true <->
   App.current_stage (App.run actions App.initialize_session_state w0).1 =
     App.collecting_info \/
   App.current_stage (App.run actions App.initialize_session_state w0).1 =
     App.completed).
Proof.
  destruct (run_invariant reachable_inv main_keeps_reachable actions
              App.initialize_session_state w0 initial_reachable) as [_ Hr].
  split; [exact Hr|]. unfold App.chat_enabled.
  destruct (App.current_stage _) eqn:Es.
  - split; [left; reflexivity | reflexivity].
  - split; [discriminate | intros [?|?]; discriminate].
  - split; [discriminate | intros [?|?]; discriminate].
  - split; [right; reflexivity | intros _; apply Hr; reflexivity].
Qed.

Lemma main_grows a st w :
  a <> App.StartNewTrip ->
  App.messages st `prefix_of` App.messages (App.main a st w).1.2 /\
  Backend.conversation_history (App.backend st) `prefix_of`
    Backend.conversation_history (App.backend (App.main a st w).1.2) /\
  App.messages (App.main a st w).1.2 <> [].
Proof.
  intros Ha.
  destruct (main_cases a st w)
    as [(-> & _) | [(_ & Hm & ->) | [(_ & Hm & Hs & st' & w' & Hx & ->) |
       [(_ & Hm & Hs & st' & w' & Hx & ->) | [(Hm & Hs & c & rest & _ & ->) |
       [(Hm & Hs & Hy & c & rest & _ & ->) | (_ & Hm & ->)]]]]]];
    cbn [fst snd].
  - contradiction.
  - cbn. rewrite Hm. split; [apply prefix_nil|]. split; [reflexivity | discriminate].
  - destruct (search_flights_and_hotels_keeps st _ _ _ Hx) as (-> & _ & Hp).
    split; [exact Hp|]. split; [reflexivity | apply (prefix_not_nil _ _ Hp Hm)].
  - destruct (create_itinerary_grows st _ _ _ Hx) as (-> & _ & Hp).
    split; [exact Hp|]. split; [reflexivity | apply (prefix_not_nil _ _ Hp Hm)].
  - destruct (process_user_input_facts (String c rest) st w Hs)
      as (_ & (more & Hp) & _ & Hb).
    rewrite Hp. split; [apply prefix_app_r; reflexivity|].
    split; [|apply app_not_nil].
    destruct Hb as [-> | (reply & ->)]; [reflexivity|].
    apply prefix_app_r. reflexivity.
  - destruct (follow_up_facts (String c rest) st w) as (-> & _ & _ & more & ->).
    split; [apply prefix_app_r; reflexivity|].
    split; [reflexivity | apply app_not_nil].
  - split; [reflexivity|]. split; [reflexivity | exact Hm].
Qed.

Lemma run_grows actions st w :
  App.StartNewTrip ∉ actions ->
  App.messages st `prefix_of` App.messages (App.run actions st w).1 /\
  Backend.conversation_history (App.backend st) `prefix_of`
    Backend.conversation_history (App.backend (App.run actions st w).1).
Proof.
  revert st w. induction actions as [|a rest IH]; intros st w Hno; simpl.
  - split; reflexivity.
  - apply not_elem_of_cons in Hno as [Ha Hrest].
    destruct (main_grows a st w (not_eq_sym Ha)) as (Hm & Hh & _).
    destruct (App.main a st w) as [[o st1] w1]. cbn [fst snd] in Hm, Hh.
    destruct (IH st1 w1 Hrest) as [Hm' Hh'].
    split; etransitivity; eassumption.
Qed.

(** X7.  A run of the script other than the reset only appends: the
    chat display before the run is a prefix of the one after it, the same
    holds of the backend's transcript, and the chat display is not empty
    afterwards.  So no sequence of runs without a reset removes or
    rewrites a message. *)
Theorem transcript_append_only :
  (forall a st w,
     a <> App.StartNewTrip ->
     App.messages st `prefix_of` App.messages (App.main a st w).1.2 /\
     Backend.conversation_history (App.backend st) `prefix_of`
       Backend.conversation_history (App.backend (App.main a st w).1.2) /\
     App.messages (App.main a st w).1.2 <> []) /\
  (forall actions st w,
     App.StartNewTrip ∉ actions ->
     App.messages st `prefix_of` App.messages (App.run actions st w).1 /\
     Backend.conversation_history (App.backend st) `prefix_of`
       Backend.conversation_history (App.backend (App.run actions st w).1)).
Proof. split; [exact main_grows | exact run_grows]. Qed.

Lemma main_keeps_welcome_first a st w :
  welcome_first st -> welcome_first (App.main a st w).1.2.
Proof.
  intros Hw. destruct a as [| |text] eqn:Ea.
  2: { left. reflexivity. }
  all: rewrite <- Ea; assert (a <> App.StartNewTrip) as Hne by (subst a; discriminate).
  all: destruct (App.messages st) as [|m ms] eqn:Em.
  1,3: right; destruct (main_cases a st w)
         as [(-> & _) | [(_ & _ & ->) | [(_ & Hm & _) |
            [(_ & Hm & _) | [(Hm & _) | [(Hm & _) | (_ & Hm & _)]]]]]];
       try congruence; cbn; rewrite Em; eexists; reflexivity.
  all: destruct Hw as [Hw | (rest & Hw)]; [congruence|].
  all: destruct (main_grows a st w Hne) as ([more Hp] & _).
  all: right; rewrite Hp, Hw; eexists; reflexivity.
Qed.

(** X8.  In every session a conversation reaches, resets included, the
    chat display is empty or starts with the assistant's welcome
    message. *)
Theorem welcome_always_first actions w0 :
  welcome_first (App.run actions App.initialize_session_state w0).1.
Proof.
  apply (run_invariant welcome_first main_keeps_welcome_first).
  left. reflexivity.
Qed.

Lemma alternating_app h u a :
  alternating h ->
  alternating (h ++ [Message "user" u; Message "assistant" a]).
Proof.
  intros [turns ->]. exists (turns ++ [(u, a)])%list.
  rewrite flat_map_app. simpl. reflexivity.
Qed.

Lemma main_keeps_alternating a st w :
  alternating (Backend.conversation_history (App.backend st)) ->
  alternating (Backend.conversation_history (App.backend (App.main a st w).1.2)).
Proof.
  intros Halt.
  destruct (main_cases a st w)
    as [(-> & ->) | [(_ & Hm & ->) | [(_ & Hm & Hs & st' & w' & Hx & ->) |
       [(_ & Hm & Hs & st' & w' & Hx & ->) | [(Hm & Hs & c & rest & _ & ->) |
       [(Hm & Hs & Hy & c & rest & _ & ->) | (_ & Hm & ->)]]]]]];
    cbn [fst snd].
  - exists []. reflexivity.
  - exact Halt.
  - destruct (search_flights_and_hotels_keeps st _ _ _ Hx) as (-> & _). exact Halt.
  - destruct (create_itinerary_grows st _ _ _ Hx) as (-> & _). exact Halt.
  - destruct (process_user_input_facts (String c rest) st w Hs)
      as (_ & _ & _ & [-> | (reply & ->)]); [exact Halt|].
    apply alternating_app. exact Halt.
  - destruct (follow_up_facts (String c rest) st w) as (-> & _). exact Halt.
  - exact Halt.
Qed.

(** X9.  In every session a conversation reaches, the backend's
    transcript is a sequence of turns, each a user message followed by
    one message of the assistant. *)
Theorem transcript_alternates actions w0 :
  alternating
    (Backend.conversation_history
       (App.backend (App.run actions App.initialize_session_state w0).1)).
Proof.
  apply (run_invariant
           (fun st => alternating (Backend.conversation_history (App.backend st)))
           main_keeps_alternating).
  exists []. reflexivity.
Qed.

(** X10.  Once a conversation has reached the stage
    [searching_flights_hotels], the next two runs of the script that are
    not resets end in the stage [completed] with the ready flag set and
    the chat input offered, on the same TripRequest, whatever the model
    and the providers answer and whatever the user typed meanwhile. *)
Theorem search_then_itinerary actions w0 a1 a2 w :
  App.current_stage (App.run actions App.initialize_session_state w0).1 =
    App.searching_flights_hotels ->
  a1 <> App.StartNewTrip -> a2 <> App.StartNewTrip ->
  App.current_stage
    (App.run [a1; a2] (App.run actions App.initialize_session_state w0).1 w).1 =
    App.completed /\
  App.itinerary_ready
    (App.run [a1; a2] (App.run actions App.initialize_session_state w0).1 w).1 =
    true /\
  App.chat_enabled
    (App.run [a1; a2] (App.run actions App.initialize_session_state w0).1 w).1 =
    true /\
  App.backend
    (App.run [a1; a2] (App.run actions App.initialize_session_state w0).1 w).1 =
    App.backend (App.run actions App.initialize_session_state w0).1.
Proof.
  set (st := (App.run actions App.initialize_session_state w0).1).
  intros Hs Ha1 Ha2.
  destruct (run_invariant reachable_inv main_keeps_reachable actions
              App.initialize_session_state w0 initial_reachable) as [Hc _].
  fold st in Hc. destruct Hc as [_ Hm]; [congruence|].
  cbn [App.run].
  destruct (main_cases a1 st w)
    as [(-> & _) | [(_ & Hm1 & _) | [(_ & _ & _ & st1 & w1 & Hx1 & ->) |
       [(_ & _ & Hs1 & _) | [(_ & Hs1 & _) | [(_ & Hs1 & _) | (_ & _ & E)]]]]]];
    try congruence.
  2: { exfalso. unfold App.main in E. destruct a1; try congruence;
       destruct (App.messages st); try congruence; rewrite Hs in E;
       unfold App.then_rerun in E;
       destruct (App.search_flights_and_hotels st w) as [[?|?] ?]; discriminate. }
  destruct (search_flights_and_hotels_total st w) as (st1' & w1' & Hx1' & Hs1 & Hb1).
  rewrite Hx1 in Hx1'. injection Hx1' as <- <-.
  destruct (search_flights_and_hotels_keeps st _ _ _ Hx1) as (_ & _ & Hp1).
  pose proof (prefix_not_nil _ _ Hp1 Hm) as Hm1.
  destruct (main_cases a2 st1 w1)
    as [(-> & _) | [(_ & Hm2 & _) | [(_ & _ & Hs2 & _) |
       [(_ & _ & _ & st2 & w2 & Hx2 & ->) | [(_ & Hs2 & _) | [(_ & Hs2 & _) |
       (_ & _ & E)]]]]]];
    try congruence.
  2: { exfalso. unfold App.main in E. destruct a2; try congruence;
       destruct (App.messages st1); try congruence; rewrite Hs1 in E;
       unfold App.then_rerun in E;
       destruct (App.create_itinerary st1 w1) as [[?|?] ?]; discriminate. }
  destruct (create_itinerary_app_total st1 w1) as (st2' & w2' & Hx2' & Hs2 & Hb2).
  rewrite Hx2 in Hx2'. injection Hx2' as <- <-.
  destruct (create_itinerary_grows st1 _ _ _ Hx2) as (_ & Hy2 & _).
  cbn [fst snd]. unfold App.chat_enabled. rewrite Hs2, Hy2.
  repeat split; congruence.
Qed.

(** X4.  The TripRequest is complete exactly when each of the eight
    required fields holds a non-empty value.  [get_missing_fields_message]
    says that all information is collected exactly then; otherwise it
    names every missing field, in order, by the readable name the table
    gives it: the table has a name for each required field, so the raw key
    is never shown. *)
Theorem completeness_message self :
  (Backend.is_info_complete self = true <->
   forall f, f ∈ Backend.required_fields ->
             is_set (Backend.collected_info self) f) /\
  (Backend.get_missing_fields_message self =
     "All required information collected!" <->
   Backend.is_info_complete self = true) /\
  (Backend.is_info_complete self = false ->
   exists names,
     Forall2 (fun f name => Backend.field_names !! f = Some name)
       (Backend.get_missing_fields self) names /\
     Backend.get_missing_fields_message self =
       "I still need the following information: " ++ Py.join ", " names ++
       ". Please provide these details.").
Proof.
  split; [apply is_info_complete_iff|].
  unfold Backend.is_info_complete, Backend.get_missing_fields_message.
  destruct (Backend.get_missing_fields self) as [|f l] eqn:Em.
  - split; [split; reflexivity | discriminate].
  - split.
    + split; [|discriminate]. rewrite append_cons. discriminate.
    + intros _.
      assert (Forall (fun f => f ∈ Backend.required_fields) (f :: l)) as Hreq.
      { rewrite <- Em. apply Forall_forall. intros x Hx.
        apply elem_of_get_missing_fields in Hx as [Hx _]. exact Hx. }
      clear Em. revert Hreq. generalize (f :: l). clear f l. intros l Hreq.
      exists ((fun field => default field (Backend.field_names !! field)) <$> l).
      split; [|reflexivity].
      induction Hreq as [|x l Hx _ IH]; [constructor|].
      cbn [fmap list_fmap]. constructor; [|exact IH].
      unfold Backend.required_fields in Hx.
      repeat (apply elem_of_cons in Hx as [-> | Hx]; [reflexivity|]).
      inversion Hx.
Qed.

(** X26.  A question typed once the itinerary is complete, in any session
    a conversation can reach: the script shows the question, then sends the
    model the fixed lead-in "Based on the travel itinerary I created for
    you, " followed by the question, and nothing else: neither the
    itinerary nor the TripRequest is part of the prompt.  The first reply
    among the model's next five answers is shown as the answer; when all
    five fail the run ends with the [UnboundLocalError] of [response], which
    nothing catches, and the question stays in the chat display
    unanswered.  The stage and the TripRequest are as before. *)
Theorem follow_up_question actions w0 c rest w :
  App.current_stage (App.run actions App.initialize_session_state w0).1 =
    App.completed ->
  token_valid w ->
  exists w',
    match first_answer reply_of (answers (model w)) (asked (model w)) 5 with
    | Some (i, text) =>
        App.main (App.ChatInput (String c rest))
          (App.run actions App.initialize_session_state w0).1 w =
          (App.Rerun,
           App.add_message "assistant" text
             (App.add_message "user" (String c rest)
                (App.run actions App.initialize_session_state w0).1), w') /\
        invoked
          (sent (Text ("Based on the travel itinerary I created for you, " ++
                       String c rest)))
          (S i) w w'
    | None =>
        App.main (App.ChatInput (String c rest))
          (App.run actions App.initialize_session_state w0).1 w =
          (App.Failed (UnboundLocalError "response"),
           App.add_message "user" (String c rest)
             (App.run actions App.initialize_session_state w0).1, w') /\
        invoked
          (sent (Text ("Based on the travel itinerary I created for you, " ++
                       String c rest)))
          5 w w'
    end.
Proof.
  intros Hs Hv.
  destruct (run_invariant reachable_inv main_keeps_reachable actions
              App.initialize_session_state w0 initial_reachable) as [Hc Hr].
  set (st := (App.run actions App.initialize_session_state w0).1) in *.
  destruct Hc as [_ Hm]; [rewrite Hs; discriminate|].
  apply Hr in Hs as Hready.
  destruct (inference_valid
              (Text ("Based on the travel itinerary I created for you, " ++
                     String c rest)) w Hv) as [w' Hi].
  exists w'. unfold App.main.
  destruct (App.messages st) as [|m ms] eqn:Em; [contradiction Hm; reflexivity|].
  unfold App.chat_enabled. rewrite Hs, Hready. unfold App.follow_up.
  destruct (first_answer reply_of (answers (model w)) (asked (model w)) 5)
    as [[i text]|]; destruct Hi as [-> Hi]; (split; [reflexivity | exact Hi]).
Qed.

End DriverInvariants.

(** ** The adapters and the ranking steps in detail *)

Lemma find_from_lacks a s i :
  lacks a s -> Py.find_from (String a EmptyString) s i = -1.
Proof.
  revert i. induction s as [|c s IH]; intros i Hl; [reflexivity|].
  destruct Hl as [Hc Hl]. rewrite find_from_char_cons, (IH (i + 1) Hl).
  destruct (Ascii.eqb_spec a c) as [->|_]; [congruence | reflexivity].
Qed.

Lemma rfind_from_none a s i :
  0 <= i -> Py.rfind_from (String a EmptyString) s i = -1 -> lacks a s.
Proof.
  revert i. induction s as [|c s IH]; intros i Hi Hr; [exact I|].
  rewrite rfind_from_char_cons in Hr.
  destruct (Z.eqb_spec (Py.rfind_from (String a EmptyString) s (i + 1)) (-1))
    as [E|E]; [|contradiction].
  split.
  - intros ->. rewrite Ascii.eqb_refl in Hr. lia.
  - apply (IH (i + 1)); [lia | exact E].
Qed.

Lemma rfind_from_app_lacks a pre post i :
  lacks a post ->
  Py.rfind_from (String a EmptyString) (pre ++ post) i =
  Py.rfind_from (String a EmptyString) pre i.
Proof.
  intros Hl. revert i. induction pre as [|c pre IH]; intros i.
  - rewrite append_nil_l. apply rfind_from_lacks. exact Hl.
  - rewrite append_cons, !rfind_from_char_cons, IH. reflexivity.
Qed.

Lemma lacks_app a x y : lacks a x -> lacks a y -> lacks a (x ++ y).
Proof.
  intros Hx Hy. induction x as [|c x IH]; [rewrite append_nil_l; exact Hy|].
  destruct Hx as [Hc Hx]. rewrite append_cons. split; [exact Hc | exact (IH Hx)].
Qed.

(** A string lacks a character or splits at its first occurrence, and
    likewise at its last. *)
Lemma first_occurrence a s :
  lacks a s \/ exists pre rest, s = pre ++ String a rest /\ lacks a pre.
Proof.
  induction s as [|c s IH]; [left; exact I|].
  destruct (Ascii.ascii_dec c a) as [->|Hne].
  - right. exists EmptyString, s. split; [reflexivity | exact I].
  - destruct IH as [Hl | (pre & rest & -> & Hl)].
    + left. split; assumption.
    + right. exists (String c pre), rest. split; [reflexivity|].
      split; assumption.
Qed.

Lemma last_occurrence a s :
  lacks a s \/ exists pre rest, s = pre ++ String a rest /\ lacks a rest.
Proof.
  induction s as [|c s IH]; [left; exact I|].
  destruct IH as [Hl | (pre & rest & -> & Hl)].
  - destruct (Ascii.ascii_dec c a) as [->|Hne].
    + right. exists EmptyString, s. split; [reflexivity | exact Hl].
    + left. split; assumption.
  - right. exists (String c pre), rest. split; [reflexivity | exact Hl].
Qed.

Lemma reply_shapes reply :
  no_object reply \/ exists text, selection_text reply text.
Proof.
  destruct (first_occurrence "{" reply) as [Hl | (pre & rest & -> & Hpre)];
    [left; left; exact Hl|].
  destruct (last_occurrence "}" rest) as [Hr | (mid & post & -> & Hpost)].
  - destruct (first_occurrence "}" pre) as [Hp | (x & y & -> & Hx)].
    + left. right. apply lacks_app; [exact Hp|]. split; [discriminate | exact Hr].
    + right. exists EmptyString. right. exists (x ++ String "}" y), rest.
      split; [reflexivity|]. split; [exact Hpre|]. split; [exact Hr|].
      split; [|reflexivity].
      intros Hl. clear -Hl. induction x as [|c x IH].
      * rewrite append_nil_l in Hl. destruct Hl as [Hc _]. congruence.
      * rewrite append_cons in Hl. destruct Hl as [_ Hl]. exact (IH Hl).
  - right. exists ("{" ++ mid ++ "}"). left. exists pre, mid, post.
    split; [reflexivity|]. split; [exact Hpre|]. split; [exact Hpost | reflexivity].
Qed.

Section Ranking.
Context `{Externals}.

Lemma parse_selection_no_object reply fallback w :
  no_object reply ->
  Backend.parse_selection reply fallback w = (Ok (Backend.error_dict fallback), w).
Proof.
  intros Hn. unfold Backend.parse_selection.
  destruct Hn as [Hl | Hl].
  - unfold Py.find. rewrite (find_from_lacks _ _ _ Hl). reflexivity.
  - unfold Py.rfind. rewrite (rfind_from_lacks _ _ _ Hl).
    rewrite andb_false_r. reflexivity.
Qed.

Lemma parse_selection_object pre mid post fallback w :
  lacks "{" pre -> lacks "}" post ->
  Backend.parse_selection (pre ++ "{" ++ mid ++ "}" ++ post) fallback w =
    (json_loads ("{" ++ mid ++ "}"), w).
Proof.
  intros Hpre Hpost. unfold Backend.parse_selection.
  pose proof (info_json_between pre mid post Hpre Hpost) as Hj.
  unfold info_json in Hj. rewrite Hj.
  set (reply := pre ++ "{" ++ mid ++ "}" ++ post) in *.
  assert (Py.find reply "{" = Py.len pre) as Hf.
  { unfold Py.find, reply.
    change (pre ++ "{" ++ mid ++ "}" ++ post)
      with (pre ++ String "{" (mid ++ "}" ++ post)).
    rewrite (find_from_app "{" pre _ 0 Hpre). lia. }
  assert (Py.rfind reply "}" = Py.len pre + 1 + Py.len mid) as Hr.
  { unfold Py.rfind, reply.
    assert (pre ++ "{" ++ mid ++ "}" ++ post =
            (pre ++ String "{" mid) ++ String "}" post) as ->.
    { change (pre ++ "{" ++ mid ++ "}" ++ post)
        with (pre ++ String "{" (mid ++ String "}" post)).
      rewrite append_assoc, append_cons. reflexivity. }
    rewrite (rfind_from_app "}" _ post 0) by (lia || exact Hpost).
    unfold Py.len. rewrite length_append. simpl. lia. }
  rewrite Hf, Hr.
  assert (0 <= Py.len pre) as Hp by (unfold Py.len; lia).
  assert (0 <= Py.len mid) as Hm by (unfold Py.len; lia).
  destruct (Z.eqb_spec (Py.len pre) (-1)) as [E|_]; [lia|].
  destruct (Z.eqb_spec (Py.len pre + 1 + Py.len mid + 1) 0) as [E|_]; [lia|].
  reflexivity.
Qed.

Lemma parse_selection_reversed pre post fallback w :
  lacks "{" pre -> lacks "}" post -> ~ lacks "}" pre ->
  Backend.parse_selection (pre ++ "{" ++ post) fallback w =
    (json_loads EmptyString, w).
Proof.
  intros Hpre Hpost Hclose. unfold Backend.parse_selection.
  set (reply := pre ++ "{" ++ post).
  assert (Py.find reply "{" = Py.len pre) as Hf.
  { unfold Py.find, reply. change (pre ++ "{" ++ post) with (pre ++ String "{" post).
    rewrite (find_from_app "{" pre _ 0 Hpre). lia. }
  assert (0 <= Py.rfind reply "}" < Py.len pre) as Hr.
  { unfold Py.rfind, reply. change (pre ++ "{" ++ post) with (pre ++ String "{" post).
    rewrite rfind_from_app_lacks by (split; [discriminate | exact Hpost]).
    destruct (rfind_from_char "}" pre 0) as [E | E]; [lia | | lia].
    contradiction Hclose. apply (rfind_from_none _ _ 0); [lia | exact E]. }
  assert (Py.len reply = Py.len pre + 1 + Py.len post) as Hlen.
  { unfold reply, Py.len.
    change (pre ++ "{" ++ post) with (pre ++ String "{" post).
    rewrite length_append. cbn [String.length]. lia. }
  assert (0 <= Py.len post) as Hp by (unfold Py.len; lia).
  assert (0 <= Py.len pre) as Hp' by (unfold Py.len; lia).
  rewrite Hf.
  destruct (Z.eqb_spec (Py.len pre) (-1)) as [E|_]; [lia|].
  destruct (Z.eqb_spec (Py.rfind reply "}" + 1) 0) as [E|_]; [lia|].
  cbn [negb andb]. rewrite slice_in_range by lia.
  replace (Z.to_nat (Py.rfind reply "}" + 1 - Py.len pre)) with O by lia.
  rewrite substring_none. reflexivity.
Qed.

Lemma parse_selection_text reply text fallback w :
  selection_text reply text ->
  Backend.parse_selection reply fallback w = (json_loads text, w).
Proof.
  intros [(pre & mid & post & -> & Hpre & Hpost & ->) |
          (pre & post & -> & Hpre & Hpost & Hclose & ->)].
  - apply parse_selection_object; assumption.
  - apply parse_selection_reversed; assumption.
Qed.

(** X11.  The two ranking steps read the reply of the model alike, and no
    exception leaves either.  Every reply has one of three shapes.  A reply
    without an opening or without a closing brace gives the fixed error
    result (could not parse the flight, or hotel, response).  Otherwise the
    text from the first opening brace to the last closing one is decoded,
    or the empty text when the last closing brace comes before the first
    opening one: the decoded value is returned as it is, and an exception
    of the decoder gives an error result that carries it, as does an
    exception of the call of the model. *)
Theorem ranking_reply_parsing self options w :
  (exists v w', Backend.find_best_flight self options w = (Ok v, w')) /\
  (exists v w', Backend.get_best_hotels self options w = (Ok v, w')) /\
  (forall reply, no_object reply \/ exists text, selection_text reply text) /\
  forall budget,
    Backend.collected_info self !! "budget_per_person" = Some budget ->
    (forall r w1,
       LLM.inference
         (Text (Backend.best_flight_prompt budget
                  (default (PStr "balanced")
                     (Backend.collected_info self !! "travel_style")) options))
         w = (r, w1) ->
       match r with
       | Raise e =>
           Backend.find_best_flight self options w =
             (Ok (Backend.error_dict
                    ("Error finding best flight: " ++ exn_str e)), w1)
       | Ok reply =>
           (no_object reply ->
            Backend.find_best_flight self options w =
              (Ok (Backend.error_dict "Could not parse flight response"), w1)) /\
           (forall text,
              selection_text reply text ->
              Backend.find_best_flight self options w =
                (Ok match json_loads text with
                    | Ok v => v
                    | Raise e =>
                        Backend.error_dict
                          ("Error finding best flight: " ++ exn_str e)
                    end, w1))
       end) /\
    (forall r w1,
       LLM.inference
         (Text (Backend.best_hotel_prompt budget
                  (default (PStr "balanced")
                     (Backend.collected_info self !! "travel_style")) options))
         w = (r, w1) ->
       match r with
       | Raise e =>
           Backend.get_best_hotels self options w =
             (Ok (Backend.error_dict
                    ("Error finding best hotel: " ++ exn_str e)), w1)
       | Ok reply =>
           (no_object reply ->
            Backend.get_best_hotels self options w =
              (Ok (Backend.error_dict "Could not parse hotel response"), w1)) /\
           (forall text,
              selection_text reply text ->
              Backend.get_best_hotels self options w =
                (Ok match json_loads text with
                    | Ok v => v
                    | Raise e =>
                        Backend.error_dict
                          ("Error finding best hotel: " ++ exn_str e)
                    end, w1))
       end).
Proof.
  split.
  { destruct (find_best_flight_total self options w) as (v & w' & Hv & _).
    exists v, w'. exact Hv. }
  split.
  { destruct (get_best_hotels_total self options w) as (v & w' & Hv & _).
    exists v, w'. exact Hv. }
  split; [exact reply_shapes|].
  intros budget Hb. split; intros r w1 Hr.
  - destruct r as [reply|e]; [split|].
    + intros Hn.
      unfold Backend.find_best_flight, try_except, bind, Backend.collected.
      rewrite Hb. unfold ret at 1. cbv beta iota. rewrite Hr. cbv beta iota.
      rewrite (parse_selection_no_object _ _ _ Hn). reflexivity.
    + intros text Ht.
      unfold Backend.find_best_flight, try_except, bind, Backend.collected.
      rewrite Hb. unfold ret at 1. cbv beta iota. rewrite Hr. cbv beta iota.
      rewrite (parse_selection_text _ _ _ _ Ht).
      destruct (json_loads text); reflexivity.
    + unfold Backend.find_best_flight, try_except, bind, Backend.collected.
      rewrite Hb. unfold ret at 1. cbv beta iota. rewrite Hr. reflexivity.
  - destruct r as [reply|e]; [split|].
    + intros Hn.
      unfold Backend.get_best_hotels, try_except, bind, Backend.collected.
      rewrite Hb. unfold ret at 1. cbv beta iota. rewrite Hr. cbv beta iota.
      rewrite (parse_selection_no_object _ _ _ Hn). reflexivity.
    + intros text Ht.
      unfold Backend.get_best_hotels, try_except, bind, Backend.collected.
      rewrite Hb. unfold ret at 1. cbv beta iota. rewrite Hr. cbv beta iota.
      rewrite (parse_selection_text _ _ _ _ Ht).
      destruct (json_loads text); reflexivity.
    + unfold Backend.get_best_hotels, try_except, bind, Backend.collected.
      rewrite Hb. unfold ret at 1. cbv beta iota. rewrite Hr. reflexivity.
Qed.

End Ranking.

Section MissingFields.
Context `{Externals}.

Lemma collected_absent self k w :
  Backend.collected_info self !! k = None ->
  Backend.collected self k w = (Raise (KeyError k), w).
Proof. intros Hk. unfold Backend.collected. rewrite Hk. reflexivity. Qed.

Lemma collected_present self k v w :
  Backend.collected_info self !! k = Some v ->
  Backend.collected self k w = (Ok v, w).
Proof. intros Hk. unfold Backend.collected. rewrite Hk. reflexivity. Qed.

Ltac absent_key Hk :=
  cbn [first_absent] in Hk;
  repeat match type of Hk with
    | match ?x with _ => _ end = _ =>
        let E := fresh "E" in
        destruct x eqn:E;
        [ rewrite (collected_present _ _ _ _ E); cbv beta iota
        | injection Hk as <-; rewrite (collected_absent _ _ _ E); reflexivity ]
    end;
  try discriminate.

(** X12.  A step that reads a field the TripRequest does not hold makes
    no call at all: the flight and the hotel adapter, the itinerary step
    and both ranking steps return their error result, which names the
    first key they looked up and did not find, and leave the world as it
    was. *)
Theorem missing_field_no_call self w k :
  (first_absent ["source"; "destination"; "start_date"; "end_date"]
     (Backend.collected_info self) = Some k ->
   Backend.get_flights_info self w =
     (Ok (Backend.error_dict
            ("Error getting flight information: " ++ exn_str (KeyError k))), w)) /\
  (first_absent ["destination"; "start_date"; "end_date"; "number_of_adults";
                 "number_of_children"]
     (Backend.collected_info self) = Some k ->
   Backend.get_hotels_info self w =
     (Ok (Backend.error_dict
            ("Error getting hotel information: " ++ exn_str (KeyError k))), w)) /\
  (first_absent ["destination"; "start_date"; "end_date"; "budget_per_person"]
     (Backend.collected_info self) = Some k ->
   forall flights_info hotels_info,
     Backend.create_itinerary self flights_info hotels_info w =
       (Ok ("Error creating itinerary: " ++ exn_str (KeyError k)), w)) /\
  (first_absent ["budget_per_person"] (Backend.collected_info self) = Some k ->
   forall options,
     Backend.find_best_flight self options w =
       (Ok (Backend.error_dict
              ("Error finding best flight: " ++ exn_str (KeyError k))), w) /\
     Backend.get_best_hotels self options w =
       (Ok (Backend.error_dict
              ("Error finding best hotel: " ++ exn_str (KeyError k))), w)).
Proof.
  split; [|split; [|split]].
  - intros Hk. unfold Backend.get_flights_info, try_except, bind.
    absent_key Hk.
  - intros Hk. unfold Backend.get_hotels_info, try_except, bind.
    absent_key Hk.
  - intros Hk flights_info hotels_info.
    unfold Backend.create_itinerary, try_except, bind.
    absent_key Hk.
  - intros Hk options. split.
    + unfold Backend.find_best_flight, try_except, bind. absent_key Hk.
    + unfold Backend.get_best_hotels, try_except, bind. absent_key Hk.
Qed.

End MissingFields.

Section FlightRoundTrip.
Context `{Externals}.

(** X13.  When both airport codes and both dates are resolved, the flight
    adapter searches twice, one way each time: from the source to the
    destination on the start date, then, only if that search returned,
    from the destination to the source on the end date, with every
    argument stripped.  Its result holds the two answers under
    [start_flights] and [end_flights]; if either search raises, the
    result is the error result that carries the exception. *)
Theorem flight_round_trip self w source destination start_date end_date
    code1 w1 prompt' code2 w2 date1 w3 date2 w4 :
  Backend.collected_info self !! "source" = Some source ->
  Backend.collected_info self !! "destination" = Some destination ->
  Backend.collected_info self !! "start_date" = Some start_date ->
  Backend.collected_info self !! "end_date" = Some end_date ->
  LLM.inference (Text (Backend.airport_prompt source)) w = (Ok code1, w1) ->
  Backend.is_na code1 = false ->
  Backend.replace (Backend.airport_prompt source) source destination = Ok prompt' ->
  LLM.inference (Text prompt') w1 = (Ok code2, w2) ->
  Backend.is_na code2 = false ->
  LLM.inference (Text (Backend.date_prompt start_date)) w2 = (Ok date1, w3) ->
  LLM.inference (Text (Backend.date_prompt end_date)) w3 = (Ok date2, w4) ->
  match next (flights_api w4) with
  | Raise e =>
      (Backend.get_flights_info self w).1 =
        Ok (Backend.error_dict
              ("Error getting flight information: " ++ exn_str e)) /\
      trace (Backend.get_flights_info self w).2 =
        (trace w4 ++
         [EvFlights (Py.strip code1) (Py.strip code2) (Py.strip date1)])%list
  | Ok start_flights =>
      (Backend.get_flights_info self w).1 =
        match answers (flights_api w4) (S (asked (flights_api w4))) with
        | Ok end_flights =>
            Ok (PDict (list_to_map [("start_flights", start_flights);
                                    ("end_flights", end_flights)]))
        | Raise e =>
            Ok (Backend.error_dict
                  ("Error getting flight information: " ++ exn_str e))
        end /\
      trace (Backend.get_flights_info self w).2 =
        (trace w4 ++
         [EvFlights (Py.strip code1) (Py.strip code2) (Py.strip date1);
          EvFlights (Py.strip code2) (Py.strip code1) (Py.strip date2)])%list
  end.
Proof.
  intros Hs Hd Hsd Hed Hc1 Hn1 Hp Hc2 Hn2 Hd1 Hd2.
  assert (Backend.get_flights_info self w =
          try_except
            (let* start_flights :=
               search_flights (Py.strip code1) (Py.strip code2) (Py.strip date1) in
             let* end_flights :=
               search_flights (Py.strip code2) (Py.strip code1) (Py.strip date2) in
             ret (PDict (list_to_map [("start_flights", start_flights);
                                      ("end_flights", end_flights)])))
            (fun e => ret (Backend.error_dict
                             ("Error getting flight information: " ++ exn_str e)))
            w4) as ->.
  { unfold Backend.get_flights_info, try_except, bind at 1 2 3 4 5,
      Backend.collected.
    unfold ret at 1 2 3 4. rewrite Hs, Hd, Hsd, Hed. cbv beta iota.
    rewrite Hc1. cbv beta iota. rewrite Hn1.
    unfold bind at 1, lift. rewrite Hp. cbv beta iota.
    unfold bind at 1. rewrite Hc2. cbv beta iota. rewrite Hn2.
    unfold bind at 1. rewrite Hd1. cbv beta iota.
    unfold bind at 1. rewrite Hd2. cbv beta iota. reflexivity. }
  unfold try_except, bind, search_flights, call_flights, next.
  destruct (answers (flights_api w4) (asked (flights_api w4))) as [out|e]; cbn.
  - destruct (answers (flights_api w4) (S (asked (flights_api w4)))) as [back|e];
      cbn; (split; [reflexivity|]); rewrite <- app_assoc; reflexivity.
  - split; reflexivity.
Qed.

End FlightRoundTrip.

Section HotelCounts.
Context `{Externals}.

(** X14.  When [int] rejects the declared number of children, or the
    string of placeholder ages cannot be built for the number it read, or
    [int] then rejects the declared number of adults, the hotel adapter
    returns its error result with that exception, after both date
    conversions, and [search_hotels] is not called: only the model client
    has acted. *)
Theorem hotel_counts_must_be_integers self w destination start_date end_date
    adults_v children_v date1 w1 date2 w2 e :
  Backend.collected_info self !! "destination" = Some destination ->
  Backend.collected_info self !! "start_date" = Some start_date ->
  Backend.collected_info self !! "end_date" = Some end_date ->
  Backend.collected_info self !! "number_of_adults" = Some adults_v ->
  Backend.collected_info self !! "number_of_children" = Some children_v ->
  LLM.inference (Text (Backend.date_prompt start_date)) w = (Ok date1, w1) ->
  LLM.inference (Text (Backend.date_prompt end_date)) w1 = (Ok date2, w2) ->
  (Py.int children_v = Raise e \/
   (exists n, Py.int children_v = Ok n /\ Py.repeat "8," n = Raise e) \/
   (exists n r,
      Py.int children_v = Ok n /\ Py.repeat "8," n = Ok r /\
      Py.int adults_v = Raise e)) ->
  Backend.get_hotels_info self w =
    (Ok (Backend.error_dict
           ("Error getting hotel information: " ++ exn_str e)), w2) /\
  llm_only w w2.
Proof.
  intros Hd Hsd Hed Ha Hc Hd1 Hd2 He.
  split; [|].
  - destruct He as [He | [(n & Hn & Hr) | (n & r & Hn & Hr & Hia)]].
    + unfold Backend.get_hotels_info, try_except, bind, Backend.collected, lift.
      unfold ret, raise. rewrite Hd, Hsd, Hed, Ha, Hc. cbv beta iota.
      rewrite Hd1. cbv beta iota. rewrite Hd2. cbv beta iota.
      rewrite He. reflexivity.
    + rewrite (get_hotels_info_counted self w _ _ _ _ _ _ _ _ _ n
                 Hd Hsd Hed Ha Hc Hd1 Hd2 Hn), Hr. reflexivity.
    + rewrite (get_hotels_info_counted self w _ _ _ _ _ _ _ _ _ n
                 Hd Hsd Hed Ha Hc Hd1 Hd2 Hn), Hr, Hia. reflexivity.
  - pose proof (inference_llm_only (Text (Backend.date_prompt start_date)) w) as L1.
    pose proof (inference_llm_only (Text (Backend.date_prompt end_date)) w1) as L2.
    rewrite Hd1 in L1. rewrite Hd2 in L2. cbn [snd] in L1, L2.
    etransitivity; eassumption.
Qed.

End HotelCounts.

Lemma bind_ok {A B} (m : M A) (k : A -> M B) a w w' :
  m w = (Ok a, w') -> bind m k w = k a w'.
Proof. intros Hm. unfold bind. rewrite Hm. reflexivity. Qed.

Lemma bind_raise {A B} (m : M A) (k : A -> M B) e w w' :
  m w = (Raise e, w') -> bind m k w = (Raise e, w').
Proof. intros Hm. unfold bind. rewrite Hm. reflexivity. Qed.

Lemma try_except_raise {A} (m : M A) (h : exn -> M A) e w w' :
  m w = (Raise e, w') -> try_except m h w = h e w'.
Proof. intros Hm. unfold try_except. rewrite Hm. reflexivity. Qed.

Section Research.
Context `{Externals}.

Lemma research_cons query rest query_result results w :
  Backend.research (query :: rest) query_result results w =
  Backend.research rest (default query_result (next (google_api w)))
    (<[query := PStr (research_error (next (pages w)))]> results)
    (after_query query query_result w).
Proof. reflexivity. Qed.

Lemma after_query_web_only query query_result w :
  web_only w (after_query query query_result w) /\
  asked (google_api (after_query query query_result w)) =
    S (asked (google_api w)) /\
  answers (pages (after_query query query_result w)) = answers (pages w) /\
  asked (pages (after_query query query_result w)) = S (asked (pages w)).
Proof.
  split; [|split; [|split]; reflexivity].
  unfold web_only. cbn. repeat (split; [reflexivity|]).
  eexists [_; _]. split; [rewrite <- app_assoc; reflexivity|].
  repeat constructor.
Qed.

#[local] Instance web_only_preorder : PreOrder web_only.
Proof.
  split.
  - intros w. unfold web_only. repeat (split; [reflexivity|]).
    exists []. split; [symmetry; apply app_nil_r | constructor].
  - intros w1 w2 w3 (C1 & K1 & E1 & M1 & F1 & H1 & W1 & evs1 & T1 & V1)
                    (C2 & K2 & E2 & M2 & F2 & H2 & W2 & evs2 & T2 & V2).
    unfold web_only.
    split; [congruence|]. split; [congruence|]. split; [congruence|].
    split; [congruence|]. split; [congruence|]. split; [congruence|].
    split; [congruence|].
    exists (evs1 ++ evs2)%list. split.
    + rewrite T2, T1. symmetry. apply app_assoc.
    + apply Forall_app. split; assumption.
Qed.

Lemma research_never_reads queries query_result results w :
  exists w',
    Backend.research queries query_result results w =
      (Ok (researched queries (answers (pages w)) (asked (pages w)) results),
       w') /\
    web_only w w' /\
    asked (google_api w') = (asked (google_api w) + length queries)%nat /\
    asked (pages w') = (asked (pages w) + length queries)%nat.
Proof.
  revert query_result results w.
  induction queries as [|query rest IH]; intros query_result results w.
  - exists w. split; [reflexivity|]. split; [reflexivity|]. simpl. lia.
  - rewrite research_cons.
    destruct (after_query_web_only query query_result w)
      as (Hw1 & Hg1 & Ha1 & Hp1).
    match goal with |- context [Backend.research rest ?q ?r ?w2] =>
      destruct (IH q r w2) as (w' & Hr & Hw & Hg & Hp) end.
    rewrite Ha1, Hp1 in Hr.
    exists w'. split; [exact Hr|].
    split; [etransitivity; eassumption|]. simpl. lia.
Qed.

Lemma researched_other queries pages from results query :
  query ∉ queries ->
  researched queries pages from results !! query = results !! query.
Proof.
  revert from results.
  induction queries as [|q rest IH]; intros from results Hn; [reflexivity|].
  cbn [researched]. rewrite IH.
  - apply lookup_insert_ne. intros ->. apply Hn. left.
  - intros Hin. apply Hn. right. exact Hin.
Qed.

Lemma researched_lookup queries pages from results i query :
  NoDup queries ->
  queries !! i = Some query ->
  researched queries pages from results !! query =
    Some (PStr (research_error (pages (from + i)%nat))).
Proof.
  revert from results i.
  induction queries as [|q rest IH]; intros from results i Hnd Hi;
    [discriminate|].
  apply NoDup_cons in Hnd as [Hq Hnd]. cbn [researched].
  destruct i as [|i].
  - injection Hi as ->. rewrite researched_other by exact Hq.
    rewrite lookup_insert_eq. replace (from + 0)%nat with from by lia.
    reflexivity.
  - rewrite (IH (S from) _ i Hnd Hi).
    replace (S from + i)%nat with (from + S i)%nat by lia. reflexivity.
Qed.

(** X16.  The research loop of [create_itinerary] never asks the model.
    [get_data_from_url] is no coroutine, so [asyncio.run] raises on its
    result in every round, and the round's handler stores the text of that
    exception, which holds the [repr] of the fetched page.  For every list
    of queries the loop returns; one web search and one page fetch are made
    per query and nothing else is called; and when the queries differ from
    one another, as the five of [create_itinerary] do, each is mapped to
    the error text for the page fetched for it. *)
Theorem research_never_asks_the_model queries query_result results w :
  exists w',
    Backend.research queries query_result results w =
      (Ok (researched queries (answers (pages w)) (asked (pages w)) results),
       w') /\
    web_only w w' /\
    asked (google_api w') = (asked (google_api w) + length queries)%nat /\
    asked (pages w') = (asked (pages w) + length queries)%nat /\
    (forall i query,
       NoDup queries ->
       queries !! i = Some query ->
       researched queries (answers (pages w)) (asked (pages w)) results
         !! query =
       Some (PStr ("Error retrieving information: " ++
                   exn_str (NotACoroutine
                              (PStr (answers (pages w)
                                       (asked (pages w) + i)%nat)))))).
Proof.
  destruct (research_never_reads queries query_result results w)
    as (w' & Hr & Hw & Hg & Hp).
  exists w'. split; [exact Hr|]. split; [exact Hw|]. split; [exact Hg|].
  split; [exact Hp|].
  intros i query Hnd Hi. apply researched_lookup; assumption.
Qed.

(** X25.  [create_itinerary] hands the model's two date conversions to
    [strptime] as they are, without [strip].  When either reply is not a
    date in the form YYYY-MM-DD, the result is the text
    "Error creating itinerary: " followed by the [ValueError], and nothing
    is called after the second conversion: no destinations are asked for
    and the itinerary request is never sent. *)
Theorem itinerary_needs_parseable_dates self flights_info hotels_info w
    destination start_date end_date budget date1 w1 date2 w2 :
  Backend.collected_info self !! "destination" = Some destination ->
  Backend.collected_info self !! "start_date" = Some start_date ->
  Backend.collected_info self !! "end_date" = Some end_date ->
  Backend.collected_info self !! "budget_per_person" = Some budget ->
  LLM.inference (Text (Backend.date_prompt start_date))
    (Backend.research (search_queries destination) PNone ∅ w).2 = (Ok date1, w1) ->
  LLM.inference (Text (Backend.date_prompt end_date)) w1 = (Ok date2, w2) ->
  strptime_ymd date1 = None \/ strptime_ymd date2 = None ->
  Backend.create_itinerary self flights_info hotels_info w =
    (Ok ("Error creating itinerary: " ++ exn_str ValueError), w2).
Proof.
  intros Hd Hsd Hed Hb H1 H2 Hp.
  destruct (research_never_reads (search_queries destination) PNone ∅ w)
    as (w' & Hr & _).
  rewrite Hr in H1. cbn [snd] in H1.
  unfold Backend.create_itinerary, Backend.collected.
  rewrite Hd, Hsd, Hed, Hb.
  rewrite (try_except_raise _ _ ValueError w w2); [reflexivity|].
  rewrite (bind_ok (ret destination) _ _ w w eq_refl).
  rewrite (bind_ok (ret start_date) _ _ w w eq_refl).
  rewrite (bind_ok (ret end_date) _ _ w w eq_refl).
  rewrite (bind_ok (ret budget) _ _ w w eq_refl).
  fold (search_queries destination).
  rewrite (bind_ok (Backend.research (search_queries destination) PNone ∅)
             _ _ w w' Hr).
  rewrite (bind_ok (LLM.inference _) _ _ w' w1 H1).
  rewrite (bind_ok (LLM.inference _) _ _ w1 w2 H2).
  apply bind_raise. unfold Weather.get_travel_destination.
  apply bind_raise. unfold Weather.get_llm_suggestions, Weather.strptime.
  destruct (strptime_ymd date1) as [s1|] eqn:E1.
  - destruct Hp as [Hp | Hp]; [discriminate Hp|]. rewrite Hp.
    rewrite (bind_ok (ret s1) _ s1 w2 w2 eq_refl). apply bind_raise. reflexivity.
  - apply bind_raise. reflexivity.
Qed.

End Research.

(** ** The request of the hotel search *)

Lemma join_replicate_empty k :
  Py.join "," (replicate k "8") = EmptyString <-> k = O.
Proof.
  destruct k as [|[|k]]; cbn; split; try discriminate; reflexivity.
Qed.

Section HotelRequest.
Context `{Externals}.

(** X15.  For every call of [search_hotels] the hotel adapter makes,
    whatever the world, the request [search_hotels] builds from the
    arguments of that call carries the adults and the children as [int]
    read the declared counts.  For a positive number of children it
    carries one placeholder age 8 per child under [children_ages]; for
    none, or a negative number, it has no [children_ages] entry.  None of
    the optional filters is sent. *)
Theorem hotel_request_children self w :
  exists calls,
    trace (Backend.get_hotels_info self w).2 = (trace w ++ calls)%list /\
    forall location check_in check_out adults children ages api_key request,
      EvHotels location check_in check_out adults children ages ∈ calls ->
      HotelSearch.search_params api_key location check_in check_out adults
        children (PStr ages) PNone PNone PNone PNone PNone (PBool false) =
        Ok request ->
      (exists adults_v children_v,
         Backend.collected_info self !! "number_of_adults" = Some adults_v /\
         Py.int adults_v = Ok adults /\
         Backend.collected_info self !! "number_of_children" = Some children_v /\
         Py.int children_v = Ok children) /\
      request !! "adults" = Some (PInt adults) /\
      request !! "children" = Some (PInt children) /\
      request !! "children_ages" =
        (if 0 <? children
         then Some (PStr (Py.join "," (replicate (Z.to_nat children) "8")))
         else None) /\
      Forall (fun k => request !! k = None)
        ["sort_by"; "min_price"; "max_price"; "hotel_class"; "rating";
         "vacation_rentals"].
Proof.
  destruct (get_hotels_info_calls self w) as (calls & Ht & Hall).
  exists calls. split; [exact Ht|].
  intros location check_in check_out adults children ages api_key request Hin.
  rewrite Forall_forall in Hall. specialize (Hall _ Hin).
  destruct Hall as [Hl | (l & ci & co & adults_v & a & children_v & n &
                          Ha & Hia & Hc & Hic & He)]; [contradiction Hl|].
  injection He as -> -> -> -> -> ->.
  intros Hr. split.
  { exists adults_v, children_v. repeat split; assumption. }
  revert Hr. unfold HotelSearch.search_params.
  destruct api_key as [[|c key]|]; try discriminate.
  destruct l as [| | | |loc| |]; try discriminate.
  unfold HotelSearch.add_if at 2 3 4 5 6. cbn [Py.truthy].
  unfold HotelSearch.add_if, placeholder_ages. cbn [Py.truthy].
  destruct (Z.ltb_spec 0 n) as [Hpos | Hneg].
  - destruct (String.eqb_spec (Py.join "," (replicate (Z.to_nat n) "8"))
                EmptyString) as [E | _].
    { apply join_replicate_empty in E. lia. }
    cbn [negb]. intros [= <-].
    split; [reflexivity|]. split; [reflexivity|].
    split; [apply lookup_insert_eq|].
    repeat (constructor; [rewrite lookup_insert_ne by discriminate; reflexivity|]).
    constructor.
  - replace (Z.to_nat n) with O by lia. cbn. intros [= <-].
    split; [reflexivity|]. split; [reflexivity|]. split; [reflexivity|].
    repeat (constructor; [reflexivity|]). constructor.
Qed.

End HotelRequest.

(** ** Forecasts *)

Lemma leb_of_not_ltb a b : String.ltb b a = false -> String.leb a b = true.
Proof.
  unfold String.ltb, String.leb. rewrite (String.compare_antisym a b).
  destruct (String.compare b a); simpl; congruence.
Qed.

Section Forecast.
Context `{Externals}.

Lemma forecast_entry_dated day d entry :
  Py.getitem day "date" = Ok (PStr d) ->
  Weather.forecast_entry day = Ok entry -> dated d entry.
Proof.
  intros Hd. unfold Weather.forecast_entry. rewrite Hd.
  repeat match goal with
    | |- match ?x with _ => _ end = _ -> _ => destruct x; [|discriminate]
    end.
  intros [= <-]. eexists. split; [reflexivity|].
  cbn [list_to_map foldr fst snd]. apply lookup_insert_eq.
Qed.

Lemma collect_days_window days start_date end_date forecasts out :
  Weather.collect_days days start_date end_date forecasts = Ok out ->
  exists new,
    out = (forecasts ++ new)%list /\
    (length new <= length days)%nat /\
    Forall (in_window start_date end_date) new.
Proof.
  revert forecasts. induction days as [|day rest IH]; intros forecasts.
  - intros [= <-]. exists []. split; [symmetry; apply app_nil_r|].
    split; [reflexivity | constructor].
  - cbn [Weather.collect_days].
    destruct (Py.getitem day "date") as [date|] eqn:Ed; [|discriminate].
    destruct date as [| | | |d| |]; try discriminate. cbn [Py.gt_str Py.ge_str].
    destruct (String.ltb end_date d) eqn:Egt.
    + intros [= <-]. exists []. split; [symmetry; apply app_nil_r|].
      split; [simpl; lia | constructor].
    + destruct (String.leb start_date d) eqn:Ege.
      * destruct (Weather.forecast_entry day) as [entry|] eqn:Ee; [|discriminate].
        intros Hc. destruct (IH _ Hc) as (new & -> & Hlen & Hall).
        exists (entry :: new). split; [rewrite <- app_assoc; reflexivity|].
        split; [simpl; lia|]. constructor; [|exact Hall].
        exists d. split; [apply (forecast_entry_dated day d entry Ed Ee)|].
        split; [exact Ege | apply leb_of_not_ltb; exact Egt].
      * intros Hc. destruct (IH _ Hc) as (new & -> & Hlen & Hall).
        exists new. split; [reflexivity|]. split; [simpl; lia | exact Hall].
Qed.

(** X17.  Whenever the scan of the provider's days returns, it has made
    at most one entry per day, and every entry is for a date between the
    start date and the end date, both included, as strings compare. *)
Theorem forecast_window days start_date end_date out :
  Weather.collect_days days start_date end_date [] = Ok out ->
  (length out <= length days)%nat /\
  Forall (in_window start_date end_date) out.
Proof.
  intros Hc. destruct (collect_days_window _ _ _ _ _ Hc) as (new & -> & Hl & Ha).
  split; assumption.
Qed.

Lemma get_weather_forecast_parsed place start_date end_date w start :
  strptime_ymd start_date = Some start ->
  Weather.get_weather_forecast place start_date end_date w =
    (if (0 <=? Weather.days start (next (clock w))) &&
        (Weather.days start (next (clock w)) <=? 14)
     then fetch_forecast place start_date end_date
     else
       ret (Weather.status_dict "use_llm" "message"
              (PStr "Date is beyond 14-day forecast range, use LLM suggestion")))
      (now w).2.
Proof.
  intros Hs.
  unfold Weather.get_weather_forecast, Weather.check_date_within_forecast_range,
    Weather.strptime.
  rewrite Hs. unfold bind at 1 2 3, ret at 1, now. cbv beta iota.
  unfold ret at 1. cbv beta iota. cbn [snd].
  destruct (_ && _); reflexivity.
Qed.

Lemma fetch_forecast_cases place start_date end_date w :
  (exists v,
     (fetch_forecast place start_date end_date w).1 = Ok v /\
     match next (weather_api w) with
     | Ok _ =>
         (exists forecasts,
            v = Weather.status_dict "success" "data" (PList forecasts) /\
            Forall (in_window start_date end_date) forecasts) \/
         (exists msg, v = Weather.status_dict "error" "message" (PStr msg))
     | Raise e =>
         exists msg, v = Weather.status_dict "error" "message" (PStr msg)
     end) /\
  asked (weather_api (fetch_forecast place start_date end_date w).2) =
    S (asked (weather_api w)) /\
  trace (fetch_forecast place start_date end_date w).2 =
    (trace w ++ [EvWeather place])%list /\
  weather_only w (fetch_forecast place start_date end_date w).2.
Proof.
  unfold fetch_forecast, try_except, bind, call_weather, lift.
  cbv beta.
  destruct (next (weather_api w)) as [data|e] eqn:Ea; cbv beta iota.
  - destruct (let? forecast := Py.get data "forecast" (PDict ∅) in _)
      as [forecasts|e] eqn:Ef.
    + split; [|split; [reflexivity|split; [reflexivity|]];
                unfold weather_only; cbn; repeat (split; [reflexivity|]);
                exists [place]; reflexivity].
      eexists. split; [reflexivity|].
      left. exists forecasts. split; [reflexivity|].
      destruct (Py.get data "forecast" (PDict ∅)) as [forecast|]; [|discriminate].
      destruct (Py.get forecast "forecastday" (PList [])) as [fd|]; [|discriminate].
      destruct (Py.iterate fd) as [days|]; [|discriminate].
      destruct (collect_days_window _ _ _ _ _ Ef) as (new & -> & _ & Hall).
      exact Hall.
    + split; [|destruct e; (split; [reflexivity|split; [reflexivity|]]);
                unfold weather_only; cbn; repeat (split; [reflexivity|]);
                exists [place]; reflexivity].
      destruct e; (eexists; split; [reflexivity|]; right; eexists; reflexivity).
  - split; [|destruct e; (split; [reflexivity|split; [reflexivity|]]);
              unfold weather_only; cbn; repeat (split; [reflexivity|]);
              exists [place]; reflexivity].
    destruct e; (eexists; split; [reflexivity|]; eexists; reflexivity).
Qed.

(** X18.  [get_weather_forecast] reads the start date before its [try]:
    a start date that does not parse leaves it as [ValueError], with no
    call made.  Otherwise it returns a dict.  Out of the 14-day range the
    status is [use_llm] and the provider is not called.  Inside the range
    the provider is called exactly once; the status is [success], with
    entries inside the window of the two dates, or [error], and it is
    [error] when the request failed. *)
Theorem forecast_status place start_date end_date w :
  match strptime_ymd start_date with
  | None =>
      Weather.get_weather_forecast place start_date end_date w =
        (Raise ValueError, w)
  | Some start =>
      if (0 <=? Weather.days start (next (clock w))) &&
         (Weather.days start (next (clock w)) <=? 14)
      then
        (exists v,
           (Weather.get_weather_forecast place start_date end_date w).1 = Ok v /\
           match next (weather_api w) with
           | Ok _ =>
               (exists forecasts,
                  v = Weather.status_dict "success" "data" (PList forecasts) /\
                  Forall (in_window start_date end_date) forecasts) \/
               (exists msg, v = Weather.status_dict "error" "message" (PStr msg))
           | Raise e =>
               exists msg, v = Weather.status_dict "error" "message" (PStr msg)
           end) /\
        asked (weather_api
                 (Weather.get_weather_forecast place start_date end_date w).2) =
          S (asked (weather_api w)) /\
        trace (Weather.get_weather_forecast place start_date end_date w).2 =
          (trace w ++ [EvWeather place])%list
      else
        (Weather.get_weather_forecast place start_date end_date w).1 =
          Ok (Weather.status_dict "use_llm" "message"
                (PStr "Date is beyond 14-day forecast range, use LLM suggestion")) /\
        weather_api (Weather.get_weather_forecast place start_date end_date w).2 =
          weather_api w /\
        trace (Weather.get_weather_forecast place start_date end_date w).2 =
          trace w
  end.
Proof.
  destruct (strptime_ymd start_date) as [start|] eqn:Hs.
  2: { unfold Weather.get_weather_forecast,
         Weather.check_date_within_forecast_range, Weather.strptime.
       rewrite Hs. reflexivity. }
  rewrite (get_weather_forecast_parsed _ _ _ _ _ Hs).
  destruct ((0 <=? Weather.days start (next (clock w))) &&
            (Weather.days start (next (clock w)) <=? 14)).
  2: { split; [reflexivity|]. split; reflexivity. }
  destruct (fetch_forecast_cases place start_date end_date (now w).2)
    as (Hv & Ha & Ht & _).
  split; [exact Hv|]. split; [exact Ha | exact Ht].
Qed.

#[local] Instance weather_only_preorder : PreOrder weather_only.
Proof.
  split.
  - intros w. unfold weather_only. repeat (split; [reflexivity|]).
    exists []. symmetry. apply app_nil_r.
  - intros w1 w2 w3 (M1 & K1 & E1 & A1 & p1 & T1) (M2 & K2 & E2 & A2 & p2 & T2).
    unfold weather_only.
    split; [congruence|]. split; [congruence|]. split; [congruence|].
    split; [congruence|]. exists (p1 ++ p2)%list.
    rewrite T2, T1, fmap_app. symmetry. apply app_assoc.
Qed.

Lemma now_weather_only w : weather_only w (now w).2.
Proof.
  unfold weather_only. cbn. repeat (split; [reflexivity|]).
  exists []. symmetry. apply app_nil_r.
Qed.

Lemma weather_down_only w w' : weather_only w w' -> weather_down w -> weather_down w'.
Proof. intros (_ & _ & _ & Ha & _) Hd n. rewrite Ha. apply Hd. Qed.

Lemma status_of status key value :
  key <> "status" ->
  Py.getitem (Weather.status_dict status key value) "status" = Ok (PStr status).
Proof.
  intros Hk. unfold Weather.status_dict, Py.getitem.
  cbn [list_to_map foldr fst snd]. rewrite lookup_insert_eq. reflexivity.
Qed.

Lemma get_weather_forecast_down place start_date end_date w start :
  strptime_ymd start_date = Some start ->
  weather_down w ->
  exists status key value,
    (Weather.get_weather_forecast place start_date end_date w).1 =
      Ok (Weather.status_dict status key value) /\
    key <> "status" /\ status <> "success" /\
    weather_only w (Weather.get_weather_forecast place start_date end_date w).2.
Proof.
  intros Hs Hd. rewrite (get_weather_forecast_parsed _ _ _ _ _ Hs).
  destruct (_ && _).
  - destruct (fetch_forecast_cases place start_date end_date (now w).2)
      as ((v & Hv & Hc) & _ & _ & Hw).
    destruct (Hd (asked (weather_api w))) as [e He].
    change (next (weather_api (now w).2)) with (answers (weather_api w) (asked (weather_api w))) in Hc.
    rewrite He in Hc. destruct Hc as [msg ->].
    eexists "error", "message", _. split; [exact Hv|].
    split; [discriminate|]. split; [discriminate|].
    transitivity (now w).2; [apply now_weather_only | exact Hw].
  - eexists "use_llm", "message", _. split; [reflexivity|].
    split; [discriminate|]. split; [discriminate|]. apply now_weather_only.
Qed.

Lemma gather_weather_down places start_date end_date weather_data w start :
  strptime_ymd start_date = Some start ->
  Forall place_like places ->
  weather_down w ->
  (Weather.gather_weather places start_date end_date weather_data w).1 =
    Ok weather_data /\
  weather_only w (Weather.gather_weather places start_date end_date weather_data w).2.
Proof.
  intros Hs Hp. revert w. induction Hp as [|place rest Hplace Hrest IH]; intros w Hd.
  - split; reflexivity.
  - destruct Hplace as (destination & country & Hdest & Hcountry).
    destruct (get_weather_forecast_down
                (Py.str destination ++ ", " ++ Py.str country)
                start_date end_date w start Hs Hd)
      as (status & key & value & Hv & Hk & Hne & Hw).
    assert (Weather.gather_weather (place :: rest) start_date end_date
              weather_data w =
            Weather.gather_weather rest start_date end_date weather_data
              (Weather.get_weather_forecast
                 (Py.str destination ++ ", " ++ Py.str country)
                 start_date end_date w).2) as ->.
    { cbn [Weather.gather_weather]. unfold bind at 1, lift at 1. rewrite Hdest.
      cbv beta iota. unfold bind at 1, lift at 1. rewrite Hcountry.
      cbv beta iota. unfold bind at 1.
      destruct (Weather.get_weather_forecast _ start_date end_date w) as [r w1].
      cbn [fst snd] in Hv |- *. subst r. cbv beta iota.
      unfold bind at 1, lift at 1. rewrite (status_of _ _ _ Hk). cbv beta iota.
      assert (Py.eq_str (PStr status) "success" = false) as ->.
      { cbn [Py.eq_str]. destruct (String.eqb_spec status "success"); congruence. }
      reflexivity. }
    destruct (IH _ (weather_down_only _ _ Hw Hd)) as [Hr Hw'].
    split; [exact Hr|]. etransitivity; [exact Hw | exact Hw'].
Qed.

(** X19.  When the weather provider fails at every request,
    [get_travel_destination] returns the model's suggestions as they are,
    whatever the clock shows: no forecast is kept, so the model is not
    asked to rank, and beyond the suggestion call only the weather
    provider is called. *)
Theorem no_forecast_keeps_suggestions start_date end_date budget w
    suggestions w1 places :
  Weather.get_llm_suggestions budget start_date end_date w = (Ok suggestions, w1) ->
  Py.iterate suggestions = Ok places ->
  Forall place_like places ->
  weather_down w1 ->
  (Weather.get_travel_destination start_date end_date budget w).1 =
    Ok suggestions /\
  model (Weather.get_travel_destination start_date end_date budget w).2 =
    model w1 /\
  exists asked_places,
    trace (Weather.get_travel_destination start_date end_date budget w).2 =
      (trace w1 ++ (EvWeather <$> asked_places))%list.
Proof.
  intros Hsug Hit Hp Hd.
  destruct (get_llm_suggestions_parsed _ _ _ _ _ _ Hsug) as (start & Hs).
  destruct (check_date_at start_date start w1 Hs) as (w2 & Hc & Hw2 & Hm2 & Ht2).
  assert (weather_down w2) as Hd2 by (intros n; rewrite Hw2; apply Hd).
  destruct (gather_weather_down places start_date end_date [] w2 start Hs Hp Hd2)
    as [Hr (Hm & _ & _ & _ & asked_places & Ht)].
  assert (Weather.get_travel_destination start_date end_date budget w =
          if (0 <=? Weather.days start (next (clock w1))) &&
             (Weather.days start (next (clock w1)) <=? 14)
          then (Ok suggestions,
                (Weather.gather_weather places start_date end_date [] w2).2)
          else (Ok suggestions, w2)) as ->.
  { unfold Weather.get_travel_destination, bind at 1. rewrite Hsug.
    unfold bind at 1. rewrite Hc.
    destruct (_ && _); cbn [negb]; [|reflexivity].
    unfold bind at 1, lift at 1. rewrite Hit. cbv beta iota.
    unfold bind at 1.
    destruct (Weather.gather_weather places start_date end_date [] w2) as [r w3].
    cbn [fst snd] in Hr |- *. subst r. reflexivity. }
  destruct (_ && _); cbn [fst snd].
  - split; [reflexivity|]. split; [congruence|].
    exists asked_places. rewrite Ht, Ht2. reflexivity.
  - split; [reflexivity|]. split; [exact Hm2|].
    exists []. rewrite Ht2. symmetry. apply app_nil_r.
Qed.

Lemma days_in_range start today :
  (0 <=? Weather.days start today) && (Weather.days start today <=? 14) = true <->
  today <= start < today + 15 * Weather.day_us.
Proof.
  unfold Weather.days, Weather.day_us.
  rewrite andb_true_iff, !Z.leb_le.
  pose proof (Z.div_mod (start - today) 86400000000 ltac:(lia)) as Hd.
  pose proof (Z.mod_pos_bound (start - today) 86400000000 ltac:(lia)) as Hm.
  split; intros; lia.
Qed.

(** X24.  For a start date that parses, [check_date_within_forecast_range]
    reads the clock once and answers [True] exactly when the midnight that
    begins the start date is not before the present moment and less than
    fifteen days after it.  A trip that starts on the present day is
    therefore out of range once midnight has passed. *)
Theorem forecast_range_bounds start_date start w :
  strptime_ymd start_date = Some start ->
  exists in_range,
    (Weather.check_date_within_forecast_range start_date 14 w).1 = Ok in_range /\
    (in_range = true <->
     next (clock w) <= start < next (clock w) + 15 * Weather.day_us) /\
    asked (clock (Weather.check_date_within_forecast_range start_date 14 w).2) =
      S (asked (clock w)).
Proof.
  intros Hs. eexists. split; [|split].
  - unfold Weather.check_date_within_forecast_range, bind, Weather.strptime.
    rewrite Hs. reflexivity.
  - apply days_in_range.
  - unfold Weather.check_date_within_forecast_range, bind, Weather.strptime.
    rewrite Hs. reflexivity.
Qed.














End Forecast.

(** ** The first link of a web search *)

Lemma substring_all s : String.substring 0 (String.length s) s = s.
Proof. induction s as [|c s IH]; [reflexivity|]. simpl. rewrite IH. reflexivity. Qed.

Lemma substring_suffix x y :
  String.substring (String.length x) (String.length y) (x ++ y) = y.
Proof. rewrite substring_skip. apply substring_all. Qed.

Lemma substring_split n s :
  (n <= String.length s)%nat ->
  s = String.substring 0 n s ++ String.substring n (String.length s - n) s.
Proof.
  revert n. induction s as [|c s IH]; intros n Hn.
  - destruct n; reflexivity.
  - destruct n as [|n].
    + cbn [String.substring]. rewrite append_nil_l.
      change (String.length (String c s) - 0)%nat with (S (String.length s)).
      cbn [String.substring]. rewrite substring_all. reflexivity.
    + cbn [String.substring String.length]. rewrite append_cons.
      simpl in Hn. f_equal. apply (IH n). lia.
Qed.

Lemma ends_with_spec s suffix :
  Py.ends_with s suffix = true <-> exists stem, s = stem ++ suffix.
Proof.
  unfold Py.ends_with. split.
  - remember (String.length suffix) as k eqn:Ek.
    intros Hb. apply andb_true_iff in Hb as [Hle Heq].
    apply Nat.leb_le in Hle. apply String.eqb_eq in Heq.
    exists (String.substring 0 (String.length s - k) s).
    rewrite <- Heq.
    pose proof (substring_split (String.length s - k) s) as Hs.
    replace (String.length s - (String.length s - k))%nat with k in Hs by lia.
    apply Hs. lia.
  - intros [stem ->]. rewrite length_append. apply andb_true_iff. split.
    + apply Nat.leb_le. lia.
    + replace (String.length stem + String.length suffix - String.length suffix)%nat
        with (String.length stem) by lia.
      rewrite substring_suffix. apply String.eqb_refl.
Qed.

Lemma last_cons_default {A} (x : A) l d1 d2 :
  List.last (x :: l) d1 = List.last (x :: l) d2.
Proof.
  revert x. induction l as [|y l IH]; intros x; [reflexivity|].
  change (List.last (y :: l) d1 = List.last (y :: l) d2). apply IH.
Qed.

Lemma first_non_pdf_all_pdf items item :
  Forall pdf_item items ->
  GoogleSearch.first_non_pdf items item = Ok (List.last items item).
Proof.
  intros Hall. revert item. induction Hall as [|it rest (url & (d & -> & Hl) & Hp) _ IH];
    intros item; [reflexivity|].
  cbn [GoogleSearch.first_non_pdf Py.getitem]. rewrite Hl.
  cbn [Py.endswith]. rewrite (proj2 (ends_with_spec url ".pdf") Hp).
  cbn [negb]. rewrite IH. destruct rest as [|p rest']; [reflexivity|].
  f_equal.
  change (List.last (p :: rest') (PDict d) = List.last (p :: rest') item).
  apply last_cons_default.
Qed.

Lemma first_non_pdf_found pdfs url it rest item :
  Forall pdf_item pdfs ->
  linked url it -> ~ is_pdf url ->
  GoogleSearch.first_non_pdf (pdfs ++ it :: rest) item = Ok (PStr url).
Proof.
  intros Hall (d & -> & Hl) Hn. revert item.
  induction Hall as [|p ps (u & (dp & -> & Hlp) & Hp) _ IH]; intros item.
  - cbn [app GoogleSearch.first_non_pdf Py.getitem]. rewrite Hl.
    cbn [Py.endswith].
    destruct (Py.ends_with url ".pdf") eqn:E;
      [apply ends_with_spec in E; contradiction | reflexivity].
  - cbn [app GoogleSearch.first_non_pdf Py.getitem]. rewrite Hlp.
    cbn [Py.endswith]. rewrite (proj2 (ends_with_spec u ".pdf") Hp).
    cbn [negb]. apply IH.
Qed.

(** X20.  On a search result whose [items] is a list,
    [get_first_non_pdf_link] returns the link of the first item whose link
    does not end in [.pdf], the items before it all linking to PDFs.  When
    every item links to a PDF it returns the last item itself, a dict and
    not a link, or the empty string when there is no item.  When the first
    item's link is no PDF it agrees with [get_first_link]. *)
Theorem first_non_pdf_link fields items :
  fields !! "items" = Some (PList items) ->
  (forall pdfs url it rest,
     items = (pdfs ++ it :: rest)%list ->
     Forall pdf_item pdfs ->
     linked url it -> ~ is_pdf url ->
     GoogleSearch.get_first_non_pdf_link (PDict fields) = PStr url) /\
  (Forall pdf_item items ->
   GoogleSearch.get_first_non_pdf_link (PDict fields) =
     List.last items (PStr EmptyString)) /\
  (forall url it rest,
     items = it :: rest -> linked url it -> ~ is_pdf url ->
     GoogleSearch.get_first_non_pdf_link (PDict fields) =
       GoogleSearch.get_first_link (PDict fields)).
Proof.
  intros Hi.
  assert (forall r,
            GoogleSearch.first_non_pdf items (PStr EmptyString) = Ok r ->
            GoogleSearch.get_first_non_pdf_link (PDict fields) = r) as Hget.
  { intros r Hr. unfold GoogleSearch.get_first_non_pdf_link.
    cbn [Py.has Py.getitem]. rewrite Hi. cbn [Py.iterate]. rewrite Hr.
    reflexivity. }
  split; [|split].
  - intros pdfs url it rest -> Hall Hl Hn. apply Hget.
    apply first_non_pdf_found; assumption.
  - intros Hall. apply Hget. apply first_non_pdf_all_pdf. exact Hall.
  - intros url it rest -> Hl Hn.
    rewrite (Hget (PStr url)).
    + destruct Hl as (d & -> & Hl). unfold GoogleSearch.get_first_link.
      rewrite Hi. cbn [Py.first Py.getitem]. rewrite Hl. reflexivity.
    + apply (first_non_pdf_found [] url it rest); [constructor | exact Hl | exact Hn].
Qed.

(** ** Formatted flights *)

Section FlightFormat.
Context `{Externals}.

Lemma flight_record_shape flight record :
  FlightSearch.flight_record flight = Ok (Some record) -> flight_shape record.
Proof.
  unfold FlightSearch.flight_record.
  repeat match goal with
    | |- match ?x with _ => _ end = _ -> _ => destruct x; try discriminate
    | |- (if ?b then _ else _) = _ -> _ => destruct b; try discriminate
    end.
  intros [= <-]. eexists. split; [reflexivity|]. split.
  - rewrite !dom_insert_L, dom_empty_L. reflexivity.
  - repeat (constructor;
            [eexists; repeat (rewrite lookup_insert_ne by discriminate);
             apply lookup_insert_eq|]).
    constructor.
Qed.

Lemma format_flights_shape flights acc out :
  FlightSearch.format_flights flights acc = Ok out ->
  exists records,
    out = (acc ++ records)%list /\
    (length records <= length flights)%nat /\
    Forall flight_shape records.
Proof.
  revert acc. induction flights as [|flight rest IH]; intros acc.
  - intros [= <-]. exists []. split; [symmetry; apply app_nil_r|].
    split; [reflexivity | constructor].
  - cbn [FlightSearch.format_flights].
    destruct (FlightSearch.flight_record flight) as [[record|]|] eqn:Er;
      [| |discriminate]; intros Hf;
      destruct (IH _ Hf) as (records & -> & Hl & Hs).
    + exists (record :: records). split; [rewrite <- app_assoc; reflexivity|].
      split; [simpl; lia|]. constructor; [|exact Hs].
      apply (flight_record_shape flight record Er).
    + exists records. split; [reflexivity|]. split; [simpl; lia | exact Hs].
Qed.

(** X21.  Whenever [_format_flight_data] returns, its result is a list
    of dicts with exactly the eight documented keys, in which the price,
    the duration, the stops and the two airports are strings, and it holds
    at most one record per flight of the provider's [best_flights]. *)
Theorem formatted_flights_shape raw_results v :
  FlightSearch._format_flight_data raw_results = Ok v ->
  exists records,
    v = PList records /\
    Forall flight_shape records /\
    (forall flights,
       Py.get raw_results "best_flights" (PList []) = Ok (PList flights) ->
       (length records <= length flights)%nat).
Proof.
  unfold FlightSearch._format_flight_data.
  destruct (Py.get raw_results "best_flights" (PList [])) as [best|]; [|discriminate].
  destruct (Py.truthy best) eqn:Et; cbn [negb].
  2: { intros [= <-]. exists []. split; [reflexivity|]. split; [constructor|].
       intros flights _. simpl. lia. }
  destruct (Py.length best) as [n|]; [|discriminate].
  destruct (Py.iterate best) as [flights|] eqn:Ei; [|discriminate].
  destruct (FlightSearch.format_flights flights []) as [out|] eqn:Ef; [|discriminate].
  intros [= <-]. destruct (format_flights_shape _ _ _ Ef) as (records & -> & Hl & Hs).
  exists records. split; [reflexivity|]. split; [exact Hs|].
  intros flights' [= ->]. cbn in Ei. injection Ei as <-. exact Hl.
Qed.

Lemma flight_record_skipped flight :
  raw_flight flight -> has_segments flight = false ->
  FlightSearch.flight_record flight = Ok None.
Proof.
  intros (f & -> & Hf). unfold has_segments, segments, FlightSearch.flight_record.
  cbn [Py.get]. destruct Hf as [-> | (segs & -> & _)]; [reflexivity|].
  destruct segs; [reflexivity | discriminate].
Qed.

Lemma flight_record_stops flight :
  raw_flight flight -> has_segments flight = true ->
  exists d,
    FlightSearch.flight_record flight = Ok (Some (PDict d)) /\
    d !! "stops" =
      Some (PStr (stops_text (length (segments flight)))).
Proof.
  intros (f & -> & Hf). unfold has_segments, segments.
  destruct Hf as [Hn | (segs & Hs & Hd)]; [rewrite Hn; discriminate|].
  rewrite Hs. destruct segs as [|seg more]; [discriminate|]. intros _.
  apply Forall_cons in Hd as [[sd ->] _].
  unfold FlightSearch.flight_record. cbn [Py.get Py.getitem]. rewrite Hs.
  cbn [default Py.truthy negb Py.length Py.first].
  assert ((Z.of_nat (length (PDict sd :: more)) =? 0) = false) as ->
    by (apply Z.eqb_neq; simpl; lia).
  eexists. split; [reflexivity|].
  repeat (rewrite lookup_insert_ne by discriminate).
  cbn [list_to_map foldr fst snd].
  repeat (rewrite lookup_insert_ne by discriminate).
  rewrite lookup_insert_eq. f_equal. f_equal.
  destruct more as [|seg2 more]; [reflexivity|].
  assert ((Z.of_nat (length (PDict sd :: seg2 :: more)) =? 1) = false) as ->
    by (apply Z.eqb_neq; simpl; lia).
  reflexivity.
Qed.

Lemma format_flights_stops flights acc :
  Forall raw_flight flights ->
  exists records,
    FlightSearch.format_flights flights acc = Ok (acc ++ records)%list /\
    Forall2
      stops_of
      (List.filter has_segments flights) records.
Proof.
  intros Hall. revert acc. induction Hall as [|flight rest Hf _ IH]; intros acc.
  - exists []. split; [cbn; rewrite app_nil_r; reflexivity | constructor].
  - cbn [FlightSearch.format_flights List.filter].
    destruct (has_segments flight) eqn:Eh.
    + destruct (flight_record_stops flight Hf Eh) as (d & -> & Hd).
      destruct (IH (acc ++ [PDict d])%list) as (records & -> & Hr).
      exists (PDict d :: records). split; [rewrite <- app_assoc; reflexivity|].
      constructor; [exists d; split; [reflexivity | exact Hd] | exact Hr].
    + rewrite (flight_record_skipped flight Hf Eh).
      destruct (IH acc) as (records & -> & Hr).
      exists records. split; [reflexivity | exact Hr].
Qed.

(** X22.  On an answer whose [best_flights] is a list of flights, each a
    dict whose [flights], if present, is a list of dicts,
    [_format_flight_data] does not raise.  It returns one record for each
    flight that has a segment, in the provider's order, and skips the
    others; the record's stops are [Nonstop] for one segment and the
    number of segments less one, followed by [stop(s)], otherwise. *)
Theorem formatted_flights_stops raw flights :
  raw !! "best_flights" = Some (PList flights) ->
  Forall raw_flight flights ->
  exists records,
    FlightSearch._format_flight_data (PDict raw) = Ok (PList records) /\
    Forall2
      stops_of
      (List.filter has_segments flights) records.
Proof.
  intros Hb Hall. unfold FlightSearch._format_flight_data. cbn [Py.get].
  rewrite Hb. cbn [default].
  destruct flights as [|flight rest].
  - exists []. split; [reflexivity | constructor].
  - destruct (format_flights_stops (flight :: rest) [] Hall) as (records & Hf & Hr).
    exists records. split; [|exact Hr].
    cbn [id Py.truthy negb Py.length Py.iterate]. cbv beta iota.
    rewrite Hf. reflexivity.
Qed.

End FlightFormat.

(** * The further properties on the scenarios *)

Lemma inference_first_reply_witness :
  (LLM.inference (Text " Hello ") flaky).1 = Ok "Hi" /\
  invoked (Text "Hello") 2 flaky (LLM.inference (Text " Hello ") flaky).2.
Proof.
  apply (inference_first_reply (Text " Hello ") flaky).
  exists far_future. split; [reflexivity|].
  intros n. vm_compute. discriminate.
Defined.


Lemma completeness_message_witness :
  exists names,
    Forall2 (fun f name => Backend.field_names !! f = Some name)
      (Backend.get_missing_fields goa_only) names /\
    Backend.get_missing_fields_message goa_only =
      "I still need the following information: " ++ Py.join ", " names ++
      ". Please provide these details.".
Proof.
  apply (proj2 (proj2 (completeness_message goa_only))). reflexivity.
Defined.

Lemma past_collecting_complete_witness :
  is_set
    (Backend.collected_info
       (App.backend
          (App.run (H:=scenario_externals)
             [App.Idle; App.ChatInput trip_message]
             App.initialize_session_state trip_world).1))
    "budget_per_person".
Proof.
  refine (proj1 (past_collecting_complete (H:=scenario_externals)
                   [App.Idle; App.ChatInput trip_message] trip_world
                   "budget_per_person" _ _)).
  - vm_compute. discriminate.
  - apply list_elem_of_In. vm_compute. tauto.
Defined.

Lemma transcript_append_only_witness :
  App.messages welcomed `prefix_of`
    App.messages
      (App.run (H:=scenario_externals) [App.ChatInput trip_message; App.Idle]
         welcomed trip_world).1.
Proof.
  refine (proj1 (proj2 (transcript_append_only (H:=scenario_externals))
                   [App.ChatInput trip_message; App.Idle] welcomed trip_world _)).
  intros Hin.
  repeat (apply elem_of_cons in Hin as [Hin|Hin]; [discriminate|]).
  inversion Hin.
Defined.

Lemma search_then_itinerary_witness :
  App.current_stage
    (App.run (H:=scenario_externals) [App.Idle; App.Idle]
       (App.run (H:=scenario_externals) [App.Idle; App.ChatInput trip_message]
          App.initialize_session_state trip_world).1
       offline).1 = App.completed.
Proof.
  refine (proj1 (search_then_itinerary (H:=scenario_externals)
                   [App.Idle; App.ChatInput trip_message] trip_world
                   App.Idle App.Idle offline _ _ _)).
  - vm_compute. reflexivity.
  - discriminate.
  - discriminate.
Defined.

Lemma ranking_reply_parsing_witness :
  Backend.find_best_flight (H:=scenario_externals) trip_backend (PList [])
    (scripted [Ok "} I cannot decide {"]) =
    (Ok (Backend.error_dict
           ("Error finding best flight: " ++
            @exn_str scenario_externals JSONDecodeError)),
     (LLM.inference
        (Text (Backend.best_flight_prompt (H:=scenario_externals)
                 (PStr "20000")
                 (default (PStr "balanced")
                    (Backend.collected_info trip_backend !! "travel_style"))
                 (PList [])))
        (scripted [Ok "} I cannot decide {"])).2).
Proof.
  refine (proj2 (proj1 (proj2 (proj2 (proj2
            (ranking_reply_parsing (H:=scenario_externals) trip_backend
               (PList []) (scripted [Ok "} I cannot decide {"])))) (PStr "20000") _)
            (Ok "} I cannot decide {") _ _) EmptyString _).
  - reflexivity.
  - vm_compute. reflexivity.
  - right. exists "} I cannot decide ", EmptyString.
    split; [reflexivity|]. cbn.
    split; [repeat (split; [discriminate|]); exact I|].
    split; [exact I|]. split; [|reflexivity].
    intros [Hc _]. apply Hc. reflexivity.
Defined.

Lemma missing_field_no_call_witness :
  Backend.get_flights_info (H:=scenario_externals) goa_only offline =
    (Ok (Backend.error_dict
           ("Error getting flight information: " ++
            @exn_str scenario_externals (KeyError "source"))), offline).
Proof.
  apply (proj1 (missing_field_no_call (H:=scenario_externals) goa_only offline
                  "source")).
  reflexivity.
Defined.

Lemma flight_round_trip_witness :
  (Backend.get_flights_info (H:=scenario_externals) trip_backend
     round_trip_world).1 =
    Ok (PDict (list_to_map
          [("start_flights", PList [PDict {[ "airline" := PStr "IndiGo" ]}]);
           ("end_flights", PList [PDict {[ "airline" := PStr "IndiGo" ]}])])) /\
  drop 4 (trace (Backend.get_flights_info (H:=scenario_externals) trip_backend
                   round_trip_world).2) =
    [EvFlights "DEL" "GOI" "2025-06-10"; EvFlights "GOI" "DEL" "2025-06-15"].
Proof.
  pose (p1 := Text (Backend.airport_prompt (H:=scenario_externals) (PStr "Delhi"))).
  pose (prompt' :=
          Py.replace (Backend.airport_prompt (H:=scenario_externals) (PStr "Delhi"))
            "Delhi" "Goa").
  pose (w1 := (LLM.inference p1 round_trip_world).2).
  pose (w2 := (LLM.inference (Text prompt') w1).2).
  pose (w3 := (LLM.inference
                 (Text (Backend.date_prompt (H:=scenario_externals) (PStr "June 10")))
                 w2).2).
  pose (w4 := (LLM.inference
                 (Text (Backend.date_prompt (H:=scenario_externals) (PStr "June 15")))
                 w3).2).
  assert (LLM.inference p1 round_trip_world = (Ok " DEL ", w1)) as E1
    by (vm_compute; reflexivity).
  assert (LLM.inference (Text prompt') w1 = (Ok "GOI", w2)) as E2
    by (vm_compute; reflexivity).
  assert (LLM.inference
            (Text (Backend.date_prompt (H:=scenario_externals) (PStr "June 10")))
            w2 = (Ok "2025-06-10", w3)) as E3
    by (vm_compute; reflexivity).
  assert (LLM.inference
            (Text (Backend.date_prompt (H:=scenario_externals) (PStr "June 15")))
            w3 = (Ok "2025-06-15", w4)) as E4
    by (vm_compute; reflexivity).
  pose proof (flight_round_trip (H:=scenario_externals) trip_backend
                round_trip_world (PStr "Delhi") (PStr "Goa") (PStr "June 10")
                (PStr "June 15") " DEL " w1 prompt' "GOI" w2 "2025-06-10" w3
                "2025-06-15" w4 eq_refl eq_refl eq_refl eq_refl E1 eq_refl
                eq_refl E2 eq_refl E3 E4) as Hw.
  assert (next (flights_api w4) =
          Ok (PList [PDict {[ "airline" := PStr "IndiGo" ]}])) as Hn
    by (vm_compute; reflexivity).
  rewrite Hn in Hw. destruct Hw as [Hr Ht]. split.
  - rewrite Hr. vm_compute. reflexivity.
  - rewrite Ht. vm_compute. reflexivity.
Defined.

Lemma hotel_counts_must_be_integers_witness :
  (Backend.get_hotels_info (H:=scenario_externals) words_backend
     (scripted [Ok "2025-06-10"; Ok "2025-06-15"])).1 =
    Ok (Backend.error_dict
          ("Error getting hotel information: " ++
           @exn_str scenario_externals ValueError)).
Proof.
  pose (w := scripted [Ok "2025-06-10"; Ok "2025-06-15"]).
  pose (w1 := (LLM.inference
                 (Text (Backend.date_prompt (H:=scenario_externals) (PStr "June 10")))
                 w).2).
  pose (w2 := (LLM.inference
                 (Text (Backend.date_prompt (H:=scenario_externals) (PStr "June 15")))
                 w1).2).
  refine (f_equal fst
            (proj1 (hotel_counts_must_be_integers (H:=scenario_externals)
                      words_backend w (PStr "Goa") (PStr "June 10")
                      (PStr "June 15") (PStr "2") (PStr "two")
                      "2025-06-10" w1 "2025-06-15" w2 ValueError
                      eq_refl eq_refl eq_refl eq_refl eq_refl _ _ _))).
  - vm_compute. reflexivity.
  - vm_compute. reflexivity.
  - left. reflexivity.
Defined.

Lemma hotel_request_children_witness :
  (exists adults_v children_v,
     Backend.collected_info family_backend !! "number_of_adults" = Some adults_v /\
     Py.int (H:=scenario_externals) adults_v = Ok 2 /\
     Backend.collected_info family_backend !! "number_of_children" =
       Some children_v /\
     Py.int (H:=scenario_externals) children_v = Ok 2) /\
  family_request !! "adults" = Some (PInt 2) /\
  family_request !! "children" = Some (PInt 2) /\
  family_request !! "children_ages" =
    (if 0 <? 2
     then Some (PStr (Py.join "," (replicate (Z.to_nat 2) "8")))
     else None) /\
  Forall (fun k => family_request !! k = None)
    ["sort_by"; "min_price"; "max_price"; "hotel_class"; "rating";
     "vacation_rentals"].
Proof.
  destruct (hotel_request_children (H:=scenario_externals) family_backend
              (scripted [Ok "2025-06-10"; Ok " 2025-06-15 "]))
    as (calls & Ht & Hreq).
  vm_compute in Ht. subst calls.
  apply (Hreq (PStr "Goa") "2025-06-10" "2025-06-15" 2 2 "8,8" (Some "key")
           family_request).
  - apply list_elem_of_In. right. right. left. reflexivity.
  - vm_compute. exact eq_refl.
Defined.

Lemma research_never_asks_the_model_witness :
  researched (H:=scenario_externals)
    ["Must visit places in Goa"; "Off beat places in Goa"]
    (answers (pages two_pages)) (asked (pages two_pages)) ∅
    !! "Off beat places in Goa" =
  Some (PStr ("Error retrieving information: " ++
              @exn_str scenario_externals (NotACoroutine (PStr "Goa markets")))).
Proof.
  destruct (research_never_asks_the_model (H:=scenario_externals)
              ["Must visit places in Goa"; "Off beat places in Goa"] PNone ∅
              two_pages)
    as (w' & _ & _ & _ & _ & Hq).
  apply (Hq 1%nat "Off beat places in Goa").
  - repeat constructor; rewrite ?elem_of_cons, ?elem_of_nil;
      intros Hin; repeat destruct Hin as [Hin|Hin]; try discriminate Hin;
      try contradiction.
  - reflexivity.
Defined.

Lemma forecast_window_witness :
  Forall (in_window "2025-06-10" "2025-06-15")
    [forecast_of "2025-06-10"; forecast_of "2025-06-12"].
Proof.
  refine (proj2 (forecast_window
                   [forecast_day "2025-06-09"; forecast_day "2025-06-10";
                    forecast_day "2025-06-12"; forecast_day "2025-06-16";
                    forecast_day "2025-06-11"]
                   "2025-06-10" "2025-06-15"
                   [forecast_of "2025-06-10"; forecast_of "2025-06-12"] _)).
  vm_compute. reflexivity.
Defined.

Lemma no_forecast_keeps_suggestions_witness :
  (Weather.get_travel_destination (H:=scenario_externals)
     "2025-06-10" "2025-06-15" (PStr "20000")
     (scripted [Ok places_json])).1 = Ok places_value.
Proof.
  refine (proj1 (no_forecast_keeps_suggestions (H:=scenario_externals)
                   "2025-06-10" "2025-06-15" (PStr "20000")
                   (scripted [Ok places_json]) places_value
                   (Weather.get_llm_suggestions (H:=scenario_externals)
                      (PStr "20000") "2025-06-10" "2025-06-15"
                      (scripted [Ok places_json])).2
                   [PDict (list_to_map [("destination", PStr "Goa");
                                        ("country", PStr "India")])]
                   _ _ _ _)).
  - vm_compute. reflexivity.
  - reflexivity.
  - constructor; [|constructor]. exists (PStr "Goa"), (PStr "India").
    split; reflexivity.
  - intros n. exists (ExternalError "503"). vm_compute. reflexivity.
Defined.

Lemma first_non_pdf_link_witness :
  GoogleSearch.get_first_non_pdf_link (PDict pdf_then_page) =
    PStr "https://example.org/goa".
Proof.
  refine (proj1 (first_non_pdf_link pdf_then_page _ eq_refl)
            [PDict {[ "link" := PStr "https://example.org/goa.pdf" ]}]
            "https://example.org/goa"
            (PDict {[ "link" := PStr "https://example.org/goa" ]}) []
            eq_refl _ _ _).
  - constructor; [|constructor]. exists "https://example.org/goa.pdf". split.
    + eexists. split; reflexivity.
    + exists "https://example.org/goa". reflexivity.
  - eexists. split; reflexivity.
  - intros Hp. apply ends_with_spec in Hp. vm_compute in Hp. discriminate.
Defined.

Lemma formatted_flights_shape_witness :
  exists records,
    FlightSearch._format_flight_data (H:=scenario_externals) (PDict raw_flights) =
      Ok (PList records) /\
    Forall flight_shape records /\ (length records <= 3)%nat.
Proof.
  destruct (FlightSearch._format_flight_data (H:=scenario_externals)
              (PDict raw_flights)) as [v|e] eqn:E;
    [|vm_compute in E; discriminate].
  destruct (formatted_flights_shape (H:=scenario_externals) _ _ E)
    as (records & -> & Hs & Hl).
  exists records. split; [reflexivity|]. split; [exact Hs|].
  apply (Hl [direct_flight; no_segment_flight; one_stop_flight]). reflexivity.
Defined.

Lemma formatted_flights_stops_witness :
  exists records,
    FlightSearch._format_flight_data (H:=scenario_externals) (PDict raw_flights) =
      Ok (PList records) /\
    Forall2 (stops_of (H:=scenario_externals))
      [direct_flight; one_stop_flight] records.
Proof.
  refine (formatted_flights_stops (H:=scenario_externals) raw_flights
            [direct_flight; no_segment_flight; one_stop_flight] eq_refl _).
  repeat (constructor; [eexists; split; [reflexivity|]|]).
  - right. eexists. split; [reflexivity|].
    repeat (constructor; [eexists; reflexivity|]). constructor.
  - right. exists []. split; [reflexivity | constructor].
  - right. eexists. split; [reflexivity|].
    repeat (constructor; [eexists; reflexivity|]). constructor.
  - constructor.
Defined.

Lemma expired_token_refreshed_once_witness :
  (exists calls,
     ((LLM.inference (Text "Hello") stale_token).1 = Ok "Hi" /\ calls = 2%nat) /\
     asked (model (LLM.inference (Text "Hello") stale_token).2) = (0 + calls)%nat /\
     trace (LLM.inference (Text "Hello") stale_token).2 =
       ([] ++ EvCredential :: replicate calls (EvInvoke (Text "Hello")))%list) /\
  expires_on (LLM.inference (Text "Hello") stale_token).2 = Some 1748775300 /\
  asked (credential (LLM.inference (Text "Hello") stale_token).2) = 1%nat.
Proof.
  apply (expired_token_refreshed_once (Text "Hello") stale_token 1748775600).
  - reflexivity.
  - reflexivity.
  - intros n. vm_compute. discriminate.
Defined.

Lemma itinerary_needs_parseable_dates_witness :
  (Backend.create_itinerary (H:=scenario_externals) trip_backend PNone PNone
     loose_dates).1 =
    Ok ("Error creating itinerary: " ++ @exn_str scenario_externals ValueError).
Proof.
  pose (w0 := (Backend.research (H:=scenario_externals)
                 (search_queries (H:=scenario_externals) (PStr "Goa")) PNone ∅
                 loose_dates).2).
  pose (w1 := (LLM.inference
                 (Text (Backend.date_prompt (H:=scenario_externals) (PStr "June 10")))
                 w0).2).
  pose (w2 := (LLM.inference
                 (Text (Backend.date_prompt (H:=scenario_externals) (PStr "June 15")))
                 w1).2).
  assert (LLM.inference
            (Text (Backend.date_prompt (H:=scenario_externals) (PStr "June 10")))
            w0 = (Ok "10 June 2025", w1)) as E1
    by (vm_compute; reflexivity).
  assert (LLM.inference
            (Text (Backend.date_prompt (H:=scenario_externals) (PStr "June 15")))
            w1 = (Ok "2025-06-15", w2)) as E2
    by (vm_compute; reflexivity).
  refine (f_equal fst
            (itinerary_needs_parseable_dates (H:=scenario_externals)
               trip_backend PNone PNone loose_dates (PStr "Goa") (PStr "June 10")
               (PStr "June 15") (PStr "20000") "10 June 2025" w1 "2025-06-15" w2
               eq_refl eq_refl eq_refl eq_refl E1 E2 (or_introl eq_refl))).
Defined.

Lemma forecast_range_bounds_witness :
  exists in_range,
    (Weather.check_date_within_forecast_range (H:=scenario_externals)
       "2025-06-10" 14 offline).1 = Ok in_range /\
    (in_range = true <->
     next (clock offline) <= 1749513600000000 <
       next (clock offline) + 15 * Weather.day_us) /\
    asked (clock (Weather.check_date_within_forecast_range
                    (H:=scenario_externals) "2025-06-10" 14 offline).2) = 1%nat.
Proof.
  apply (forecast_range_bounds (H:=scenario_externals) "2025-06-10"
           1749513600000000 offline).
  reflexivity.
Defined.



Lemma follow_up_question_witness :
  exists w',
    App.main (H:=scenario_externals) (App.ChatInput "Is it rainy?")
      (App.run (H:=scenario_externals)
         [App.Idle; App.ChatInput trip_message; App.Idle; App.Idle]
         App.initialize_session_state trip_world).1 flaky =
      (App.Rerun,
       App.add_message "assistant" "Hi"
         (App.add_message "user" "Is it rainy?"
            (App.run (H:=scenario_externals)
               [App.Idle; App.ChatInput trip_message; App.Idle; App.Idle]
               App.initialize_session_state trip_world).1), w') /\
    invoked
      (sent (Text ("Based on the travel itinerary I created for you, " ++
                   "Is it rainy?")))
      2 flaky w'.
Proof.
  apply (follow_up_question (H:=scenario_externals)
           [App.Idle; App.ChatInput trip_message; App.Idle; App.Idle]
           trip_world "I" "s it rainy?" flaky).
  - vm_compute. reflexivity.
  - exists far_future. split; [reflexivity|].
    intros n. vm_compute. discriminate.
Defined.
